(** * Sponsor portal core: sessions, admin token, update lifecycle

    A shallow embedding of the sponsor portal's server code and the
    properties of its specification.

    - [Pg]        the relational store: the [sponsorships] and [updates]
                  tables of the SQL schema, and the PostgREST operations the
                  Supabase client issues against them;
    - [Database]  the database abstraction layer (findSponsorshipByCode,
                  publishUpdate, createSponsorship, ...);
    - [Auth]      lib/auth.ts (getSession, verifySession, verifyAdminToken);
    - [SubmitRoute] the admin update-submission route handler;
    - [Lifecycle], [Writes]  the layer's writes as transition systems on
                  the store;
    - [Sample]    concrete stores, calls and cookies for the instances.

    Conventions.  A timestamp is the integer of its instant (milliseconds
    since the epoch); the ISO text that travels between Node and Postgres
    is its serialisation.  A string is held as its UTF-8 bytes, which is
    what [Buffer.from(s, 'utf8')] yields.  Logging calls have no effect on
    results and are left out. *)

From Stdlib Require Import ZArith List String Ascii Bool Lia DecimalString.
From Stdlib Require Import Permutation Sorted.
Import ListNotations.
Local Open Scope Z_scope.
Local Open Scope string_scope.

Set Implicit Arguments.

(** ** Errors and results *)

(** The error classes of lib/errors the code throws; [OtherError] is any
    other JavaScript [Error], with its message. *)
Inductive Error : Type :=
| DatabaseError (message : string)
| AuthenticationError (message : string)
| OtherError (message : string).

(** The outcome of an async function: its resolved value or what it threw. *)
Inductive Result (A : Type) : Type :=
| Ok (a : A)
| Throw (e : Error).
Arguments Ok {A} a.
Arguments Throw {A} e.

Definition Timestamp := Z.

(** JavaScript's [x || undefined] on an optional string: the empty string
    is falsy too. *)
Definition or_undefined (s : option string) : option string :=
  match s with
  | Some EmptyString => None
  | other => other
  end.

(** [b || undefined] on an optional boolean: [false] is falsy. *)
Definition or_undefined_bool (b : option bool) : option bool :=
  match b with
  | Some true => Some true
  | _ => None
  end.

(** The character U+0022. *)
Definition double_quote : string := String (ascii_of_nat 34) EmptyString.

(** ** The store *)

Module Pg.

Inductive AuthStatus := Active | Inactive | Suspended.
Inductive SponsorshipStatus := StatusActive | Paused | Ended | AwaitingSponsor.
Inductive UpdateStatus := PendingReview | Published | Rejected.
Inductive UpdateType :=
  ProgressReport | PhotoUpdate | SpecialNote | HolidayGreeting | Milestone.

Definition AuthStatus_eqb (a b : AuthStatus) : bool :=
  match a, b with
  | Active, Active | Inactive, Inactive | Suspended, Suspended => true
  | _, _ => false
  end.

Definition SponsorshipStatus_eqb (a b : SponsorshipStatus) : bool :=
  match a, b with
  | StatusActive, StatusActive | Paused, Paused | Ended, Ended
  | AwaitingSponsor, AwaitingSponsor => true
  | _, _ => false
  end.

Definition UpdateStatus_eqb (a b : UpdateStatus) : bool :=
  match a, b with
  | PendingReview, PendingReview | Published, Published
  | Rejected, Rejected => true
  | _, _ => false
  end.

(** The CHECK constraint on [updates.update_type]: the five admitted
    texts. *)
Definition parse_update_type (s : string) : option UpdateType :=
  if s =? "Progress Report" then Some ProgressReport
  else if s =? "Photo Update" then Some PhotoUpdate
  else if s =? "Special Note" then Some SpecialNote
  else if s =? "Holiday Greeting" then Some HolidayGreeting
  else if s =? "Milestone" then Some Milestone
  else None.

Record Photo := {
  photo_id : string;
  url : string;
  filename : string;
  size : Z;
  type : string;
  width : option Z;
  height : option Z
}.

(** interface SupabaseSponsorshipRow, with the [updated_at] column of the
    schema. *)
Record SupabaseSponsorshipRow := {
  id : string;
  sponsor_code : string;
  sponsor_email : string;
  sponsor_name : option string;
  child_id : string;
  child_display_name : string;
  child_photo : option (list Photo);
  child_age : option string;
  child_location : option string;
  sponsorship_start_date : option string;
  auth_status : AuthStatus;
  status : option SponsorshipStatus;
  visible_to_sponsor : bool;
  last_request_at : option Timestamp;
  next_request_eligible_at : option Timestamp;
  created_at : Timestamp;
  updated_at : Timestamp
}.

(** interface SupabaseUpdateRow, with the [updated_at] column of the
    schema.  Field names carry a [u_] prefix where the sponsorship row
    already uses the column's name. *)
Record SupabaseUpdateRow := {
  u_id : string;
  u_child_id : string;
  u_sponsor_code : option string;
  update_type : UpdateType;
  title : string;
  content : string;
  photos : option (list Photo);
  u_status : UpdateStatus;
  u_visible_to_sponsor : bool;
  requested_by_sponsor : option bool;
  requested_at : option Timestamp;
  published_at : option Timestamp;
  submitted_by : option string;
  submitted_at : option Timestamp;
  u_created_at : Timestamp;
  u_updated_at : Timestamp
}.

(** The two tables, each in the order a sequential scan visits its
    rows. *)
Record Db := {
  sponsorships : list SupabaseSponsorshipRow;
  updates : list SupabaseUpdateRow
}.

Definition empty : Db := {| sponsorships := []; updates := [] |}.

(** *** Constraints of the schema *)

Fixpoint mem (s : string) (l : list string) : bool :=
  match l with
  | [] => false
  | x :: rest => (x =? s) || mem s rest
  end.

Fixpoint distinct (l : list string) : bool :=
  match l with
  | [] => true
  | x :: rest => negb (mem x rest) && distinct rest
  end.

(** [id UUID PRIMARY KEY] on both tables and [sponsor_code TEXT UNIQUE]
    on sponsorships. *)
Definition constraints_ok (db : Db) : bool :=
  distinct (map id (sponsorships db))
  && distinct (map sponsor_code (sponsorships db))
  && distinct (map u_id (updates db)).

(** *** Record ids *)

Definition hex_digit (a : ascii) : bool :=
  let n := N_of_ascii a in
  ((48 <=? n) && (n <=? 57) || (97 <=? n) && (n <=? 102))%N.

(** [n] lower-case hexadecimal digits, then the rest of the text. *)
Fixpoint hex_run (n : nat) (s : string) : option string :=
  match n, s with
  | O, _ => Some s
  | S n', String a rest => if hex_digit a then hex_run n' rest else None
  | S _, EmptyString => None
  end.

Definition then_hex (n : nat) (s : option string) : option string :=
  match s with
  | Some t => hex_run n t
  | None => None
  end.

Definition then_dash (s : option string) : option string :=
  match s with
  | Some (String a rest) =>
      if (N_of_ascii a =? 45)%N then Some rest else None
  | _ => None
  end.

(** The [id] columns are of type uuid.  [uuid_text] is the form in
    which Postgres prints a uuid, 8-4-4-4-12 lower-case hexadecimal
    digits, and so the form of every id the backend hands out.  The
    layer passes a key to [.eq('id', key)] as a text, and the
    definitions below compare it with the stored ids as texts: that is
    the backend's comparison for a key in this form.  A text that does
    not read as a uuid is refused by the backend with error 22P02
    before any row is looked at: such a call does not go [Fine] but as
    [Failing invalid_uuid] (see [Weather] below).  The statements about
    keys that are not the id of a stored row ask for [uuid_text] where
    they speak of a call that goes [Fine]. *)
Definition uuid_text (s : string) : bool :=
  match then_hex 12
          (then_dash
             (then_hex 4
                (then_dash
                   (then_hex 4
                      (then_dash
                         (then_hex 4 (then_dash (hex_run 8 s))))))))
  with
  | Some EmptyString => true
  | _ => false
  end.

(** *** Responses *)

Record PostgrestError := { code : string; message : string }.

(** The [{ data, error }] object a query resolves to. *)
Record PostgrestResponse (A : Type) := {
  data : option A;
  error : option PostgrestError
}.
Arguments data {A} _.
Arguments error {A} _.

Definition success {A} (a : A) : PostgrestResponse A :=
  {| data := Some a; error := None |}.
Definition failure {A} (e : PostgrestError) : PostgrestResponse A :=
  {| data := None; error := Some e |}.

(** PGRST116: a single object was requested and the result does not hold
    exactly one row. *)
Definition PGRST116 : PostgrestError :=
  {| code := "PGRST116";
     message := "JSON object requested, multiple (or no) rows returned" |}.
(** 23505: unique_violation. *)
Definition unique_violation : PostgrestError :=
  {| code := "23505";
     message := "duplicate key value violates unique constraint" |}.

(** 22P02: invalid_text_representation, the backend's answer to a key
    for a uuid column that does not read as a uuid. *)
Definition invalid_uuid : PostgrestError :=
  {| code := "22P02";
     message := "invalid input syntax for type uuid" |}.

(** 23514: check_violation. *)
Definition check_violation : PostgrestError :=
  {| code := "23514";
     message := "new row violates check constraint" |}.

(** What the client resolves to when [fetch] itself fails: postgrest-js
    catches the failure and answers with an error object that carries the
    failure's text and no Postgres code. *)
Definition fetch_failed : PostgrestError :=
  {| code := EmptyString; message := "TypeError: fetch failed" |}.

(** What the [try] block of a database function gets from
    [getSupabaseClient()] and the awaited query: the response object, or
    an exception (thrown by [getSupabaseClient] when the URL or the
    service key is missing). *)
Inductive Awaited (A : Type) :=
| Resolved (r : PostgrestResponse A)
| Threw .
Arguments Resolved {A} r.
Arguments Threw {A}.

(** How one call goes, beyond what the tables decide: the request is
    served; or it does not reach the backend; or the backend refuses it
    with an error of its own (no permission, a key that does not read
    as a uuid, ...), the statement having no effect; or the statement
    runs and its response does not arrive; or the client cannot be
    built. *)
Inductive Weather :=
| Fine
| Unreachable
| Failing (e : PostgrestError)
| Lost
| Unconfigured.

(** What the environment contributes to one call of a database
    function: the Node clock ([new Date()]) with its calendar readings,
    the random draw, the Postgres clock ([NOW()]), the identifier
    [uuid_generate_v4()] would hand out, and the backend's behaviour. *)
Record Ctx := {
  js_clock : Timestamp;
  js_year : Z;          (* new Date().getFullYear() *)
  js_today : string;    (* new Date().toISOString().split('T')[0] *)
  js_draw : Z;          (* Math.floor(Math.random() * 900), in 0..899 *)
  pg_clock : Timestamp;
  pg_uuid : string;
  weather : Weather
}.

(** *** Query steps *)

(** [.single()] *)
Definition single {A} (rows : list A) : PostgrestResponse A :=
  match rows with
  | [r] => success r
  | _ => failure PGRST116
  end.

(** [.limit(n)] *)
Definition limit {A} (n : nat) (rows : list A) : list A := firstn n rows.

(** [.eq(column, value)] with the comparison already applied to the
    column. *)
Definition eq_ {A} (p : A -> bool) (rows : list A) : list A := filter p rows.

(** ORDER BY key DESC; Postgres puts NULLs first in a descending
    order. *)
Definition desc_le (a b : option Timestamp) : bool :=
  match a, b with
  | None, _ => true
  | Some _, None => false
  | Some x, Some y => (y <=? x)%Z
  end.

(** The same order as a proposition: [a] may stand before [b]. *)
Definition newest_first (a b : option Timestamp) : Prop :=
  match a, b with
  | None, _ => True
  | Some _, None => False
  | Some x, Some y => (y <= x)%Z
  end.

Fixpoint insert_desc {A} (key : A -> option Timestamp) (r : A)
         (sorted : list A) : list A :=
  match sorted with
  | [] => [r]
  | x :: rest =>
      if desc_le (key r) (key x) then r :: x :: rest
      else x :: insert_desc key r rest
  end.

(** [.order(column, { ascending: false })] *)
Fixpoint order_desc {A} (key : A -> option Timestamp) (rows : list A)
  : list A :=
  match rows with
  | [] => []
  | r :: rest => insert_desc key r (order_desc key rest)
  end.

(** A read: the response computed from the tables when the request is
    served; the client's own error object when [fetch] fails; the
    backend's error when it refuses; an exception only when the client
    cannot be built. *)
Definition await_read {A} (c : Ctx) (r : PostgrestResponse A) : Awaited A :=
  match weather c with
  | Fine => Resolved r
  | Unreachable | Lost => Resolved (failure fetch_failed)
  | Failing e => Resolved (failure e)
  | Unconfigured => Threw
  end.

(** A write: as a read, and the tables are those the statement left
    whenever the statement ran, also when its response was lost. *)
Definition await_write {A} (c : Ctx) (db : Db)
           (stmt : PostgrestResponse A * Db) : Awaited A * Db :=
  match weather c with
  | Fine => (Resolved (fst stmt), snd stmt)
  | Unreachable => (Resolved (failure fetch_failed), db)
  | Failing e => (Resolved (failure e), db)
  | Lost => (Resolved (failure fetch_failed), snd stmt)
  | Unconfigured => (Threw, db)
  end.

(** UPDATE updates SET ... WHERE id = [key] RETURNING *, as a single
    object: the BEFORE UPDATE trigger stamps [updated_at]; when not
    exactly one row is affected the request fails with PGRST116 and
    nothing is changed. *)
Definition touch_update (c : Ctx) (r : SupabaseUpdateRow) : SupabaseUpdateRow :=
  {| u_id := u_id r; u_child_id := u_child_id r;
     u_sponsor_code := u_sponsor_code r; update_type := update_type r;
     title := title r; content := content r; photos := photos r;
     u_status := u_status r; u_visible_to_sponsor := u_visible_to_sponsor r;
     requested_by_sponsor := requested_by_sponsor r;
     requested_at := requested_at r; published_at := published_at r;
     submitted_by := submitted_by r; submitted_at := submitted_at r;
     u_created_at := u_created_at r; u_updated_at := pg_clock c |}.

Definition update_updates_single (c : Ctx) (db : Db)
           (set : SupabaseUpdateRow -> SupabaseUpdateRow) (key : string)
  : PostgrestResponse SupabaseUpdateRow * Db :=
  let hit := fun r => (u_id r =? key) in
  let rows' := map (fun r => if hit r then touch_update c (set r) else r)
                   (updates db) in
  match single (filter hit rows') with
  | {| data := Some r |} =>
      (success r, {| sponsorships := sponsorships db; updates := rows' |})
  | resp => (resp, db)
  end.

(** INSERT INTO updates ... RETURNING *, as a single object: the key
    comes from [uuid_generate_v4()], and a key already present violates
    the primary key. *)
Definition insert_update (c : Ctx) (db : Db) (row : SupabaseUpdateRow)
  : PostgrestResponse SupabaseUpdateRow * Db :=
  if mem (u_id row) (map u_id (updates db)) then (failure unique_violation, db)
  else (success row,
        {| sponsorships := sponsorships db; updates := updates db ++ [row] |}).

Definition touch_sponsorship (c : Ctx) (r : SupabaseSponsorshipRow)
  : SupabaseSponsorshipRow :=
  {| id := id r; sponsor_code := sponsor_code r;
     sponsor_email := sponsor_email r; sponsor_name := sponsor_name r;
     child_id := child_id r; child_display_name := child_display_name r;
     child_photo := child_photo r; child_age := child_age r;
     child_location := child_location r;
     sponsorship_start_date := sponsorship_start_date r;
     auth_status := auth_status r; status := status r;
     visible_to_sponsor := visible_to_sponsor r;
     last_request_at := last_request_at r;
     next_request_eligible_at := next_request_eligible_at r;
     created_at := created_at r; updated_at := pg_clock c |}.

(** UPDATE sponsorships SET ... WHERE id = [key], nothing returned: the
    statement succeeds whatever the number of rows it affects, unless
    the new rows break UNIQUE (sponsor_code). *)
Definition update_sponsorships (c : Ctx) (db : Db)
           (set : SupabaseSponsorshipRow -> SupabaseSponsorshipRow)
           (key : string)
  : PostgrestResponse unit * Db :=
  let hit := fun r => id r =? key in
  let rows' := map (fun r => if hit r then touch_sponsorship c (set r) else r)
                   (sponsorships db) in
  if distinct (map sponsor_code rows')
  then ({| data := None; error := None |},
        {| sponsorships := rows'; updates := updates db |})
  else (failure unique_violation, db).

(** The same statement with RETURNING *, as a single object. *)
Definition update_sponsorships_single (c : Ctx) (db : Db)
           (set : SupabaseSponsorshipRow -> SupabaseSponsorshipRow)
           (key : string)
  : PostgrestResponse SupabaseSponsorshipRow * Db :=
  let hit := fun r => id r =? key in
  let rows' := map (fun r => if hit r then touch_sponsorship c (set r) else r)
                   (sponsorships db) in
  if distinct (map sponsor_code rows')
  then match single (filter hit rows') with
       | {| data := Some r |} =>
           (success r, {| sponsorships := rows'; updates := updates db |})
       | resp => (resp, db)
       end
  else (failure unique_violation, db).

(** INSERT INTO sponsorships ... RETURNING *, as a single object, under
    PRIMARY KEY (id) and UNIQUE (sponsor_code). *)
Definition insert_sponsorship (c : Ctx) (db : Db)
           (row : SupabaseSponsorshipRow)
  : PostgrestResponse SupabaseSponsorshipRow * Db :=
  if mem (id row) (map id (sponsorships db))
     || mem (sponsor_code row) (map sponsor_code (sponsorships db))
  then (failure unique_violation, db)
  else (success row,
        {| sponsorships := sponsorships db ++ [row];
           updates := updates db |}).

End Pg.

(** ** The database abstraction layer *)

Module Database.
Import Pg.

(** The Airtable-compatible records the layer hands to its callers. *)
Record SponsorshipFields := {
  SponsorCode : string;
  SponsorEmail : string;
  SponsorName : option string;
  ChildID : string;
  ChildDisplayName : string;
  ChildPhoto : option (list Photo);
  ChildAge : option string;
  ChildLocation : option string;
  SponsorshipStartDate : option string;
  AuthStatus_ : AuthStatus;
  Status : option SponsorshipStatus;
  VisibleToSponsor : bool;
  LastRequestAt : option Timestamp;
  NextRequestEligibleAt : option Timestamp
}.

Record AirtableSponsorshipRecord := {
  s_id : string;
  s_fields : SponsorshipFields;
  s_createdTime : Timestamp
}.

Record UpdateFields := {
  U_ChildID : string;
  U_SponsorCode : option string;
  UpdateType_ : UpdateType;
  Title : string;
  Content : string;
  Photos : option (list Photo);
  U_Status : UpdateStatus;
  U_VisibleToSponsor : bool;
  RequestedBySponsor : option bool;
  RequestedAt : option Timestamp;
  PublishedAt : option Timestamp;
  SubmittedBy : option string;
  SubmittedAt : option Timestamp
}.

Record AirtableUpdateRecord := {
  r_id : string;
  r_fields : UpdateFields;
  r_createdTime : Timestamp
}.

Definition toAirtableSponsorshipRecord (row : SupabaseSponsorshipRow)
  : AirtableSponsorshipRecord :=
  {| s_id := id row;
     s_fields :=
       {| SponsorCode := sponsor_code row;
          SponsorEmail := sponsor_email row;
          SponsorName := or_undefined (sponsor_name row);
          ChildID := child_id row;
          ChildDisplayName := child_display_name row;
          ChildPhoto := child_photo row;
          ChildAge := or_undefined (child_age row);
          ChildLocation := or_undefined (child_location row);
          SponsorshipStartDate := or_undefined (sponsorship_start_date row);
          AuthStatus_ := auth_status row;
          Status := status row;
          VisibleToSponsor := visible_to_sponsor row;
          LastRequestAt := last_request_at row;
          NextRequestEligibleAt := next_request_eligible_at row |};
     s_createdTime := created_at row |}.

Definition toAirtableUpdateRecord (row : SupabaseUpdateRow)
  : AirtableUpdateRecord :=
  {| r_id := u_id row;
     r_fields :=
       {| U_ChildID := u_child_id row;
          U_SponsorCode := or_undefined (u_sponsor_code row);
          UpdateType_ := update_type row;
          Title := title row;
          Content := content row;
          Photos := photos row;
          U_Status := u_status row;
          U_VisibleToSponsor := u_visible_to_sponsor row;
          RequestedBySponsor := or_undefined_bool (requested_by_sponsor row);
          RequestedAt := requested_at row;
          PublishedAt := published_at row;
          SubmittedBy := or_undefined (submitted_by row);
          SubmittedAt := submitted_at row |};
     r_createdTime := u_created_at row |}.

Definition cannot_connect {A} : Result A :=
  Throw (DatabaseError "Failed to connect to database").

(** [error && error.code !== 'PGRST116'] *)
Definition error_other_than_PGRST116 {A} (r : PostgrestResponse A) : bool :=
  match error r with
  | Some e => negb (code e =? "PGRST116")
  | None => false
  end.

(** [if (error)] *)
Definition has_error {A} (r : PostgrestResponse A) : bool :=
  match error r with
  | Some _ => true
  | None => false
  end.

(** *** Sponsorship queries *)

Definition findSponsorshipByCredentials_query (db : Db) (email code : string)
  : PostgrestResponse SupabaseSponsorshipRow :=
  single
    (limit 1
       (eq_ (fun r => Bool.eqb (visible_to_sponsor r) true)
          (eq_ (fun r => AuthStatus_eqb (auth_status r) Active)
             (eq_ (fun r => sponsor_code r =? code)
                (eq_ (fun r => sponsor_email r =? email)
                   (sponsorships db)))))).

(** The body of findSponsorshipByCredentials from the point where the
    awaited query has settled. *)
Definition findSponsorshipByCredentials_settled
           (answer : Awaited SupabaseSponsorshipRow)
  : Result (option AirtableSponsorshipRecord) :=
  match answer with
  | Threw => cannot_connect
  | Resolved r =>
      if error_other_than_PGRST116 r
      then Throw (DatabaseError "Failed to find sponsorship")
      else Ok (match data r with
               | Some row => Some (toAirtableSponsorshipRecord row)
               | None => None
               end)
  end.

Definition findSponsorshipByCredentials (c : Ctx) (db : Db)
           (email code : string)
  : Result (option AirtableSponsorshipRecord) :=
  findSponsorshipByCredentials_settled
    (await_read c (findSponsorshipByCredentials_query db email code)).

(** What the filters of findSponsorshipByCode's query ask of a row. *)
Definition by_code (code : string) (r : SupabaseSponsorshipRow) : Prop :=
  sponsor_code r = code /\ auth_status r = Active
  /\ visible_to_sponsor r = true.

Definition findSponsorshipByCode (c : Ctx) (db : Db) (code : string)
  : Result (option AirtableSponsorshipRecord) :=
  let query :=
    single
      (limit 1
         (eq_ (fun r => Bool.eqb (visible_to_sponsor r) true)
            (eq_ (fun r => AuthStatus_eqb (auth_status r) Active)
               (eq_ (fun r => sponsor_code r =? code)
                  (sponsorships db))))) in
  match await_read c query with
  | Threw => cannot_connect
  | Resolved r =>
      if error_other_than_PGRST116 r
      then Throw (DatabaseError "Failed to find sponsorship")
      else Ok (match data r with
               | Some row => Some (toAirtableSponsorshipRecord row)
               | None => None
               end)
  end.

Definition set_request_tracking (lastRequestAt nextEligibleAt : Timestamp)
           (r : SupabaseSponsorshipRow) : SupabaseSponsorshipRow :=
  {| id := id r; sponsor_code := sponsor_code r;
     sponsor_email := sponsor_email r; sponsor_name := sponsor_name r;
     child_id := child_id r; child_display_name := child_display_name r;
     child_photo := child_photo r; child_age := child_age r;
     child_location := child_location r;
     sponsorship_start_date := sponsorship_start_date r;
     auth_status := auth_status r; status := status r;
     visible_to_sponsor := visible_to_sponsor r;
     last_request_at := Some lastRequestAt;
     next_request_eligible_at := Some nextEligibleAt;
     created_at := created_at r; updated_at := updated_at r |}.

Definition updateSponsorshipRequestTracking (c : Ctx) (db : Db)
           (recordId : string) (lastRequestAt nextEligibleAt : Timestamp)
  : Result unit * Db :=
  match await_write c db
          (update_sponsorships c db
             (set_request_tracking lastRequestAt nextEligibleAt) recordId)
  with
  | (Threw, db') => (cannot_connect, db')
  | (Resolved r, db') =>
      if has_error r
      then (Throw (DatabaseError "Failed to update sponsorship"), db')
      else (Ok tt, db')
  end.

(** *** Update queries *)

(** The rows the query of findUpdatesForChild selects, in its order. *)
Definition findUpdatesForChild_rows (db : Db) (childId : string)
  : list SupabaseUpdateRow :=
  order_desc published_at
    (eq_ (fun r => Bool.eqb (u_visible_to_sponsor r) true)
       (eq_ (fun r => UpdateStatus_eqb (u_status r) Published)
          (eq_ (fun r => u_child_id r =? childId)
             (updates db)))).

Definition findUpdatesForChild (c : Ctx) (db : Db) (childId : string)
  : Result (list AirtableUpdateRecord) :=
  let query := success (findUpdatesForChild_rows db childId) in
  match await_read c query with
  | Threw => cannot_connect
  | Resolved r =>
      if has_error r
      then Throw (DatabaseError "Failed to find updates")
      else Ok (map toAirtableUpdateRecord
                   (match data r with Some rows => rows | None => [] end))
  end.

Definition createUpdateRequest (c : Ctx) (db : Db)
           (childId sponsorCode : string)
  : Result AirtableUpdateRecord * Db :=
  let now := js_clock c in
  let row :=
    {| u_id := pg_uuid c;
       u_child_id := childId;
       u_sponsor_code := Some sponsorCode;
       update_type := ProgressReport;
       title := "Update Requested";
       content := "Sponsor requested a new update.";
       photos := None;
       u_status := PendingReview;
       u_visible_to_sponsor := false;
       requested_by_sponsor := Some true;
       requested_at := Some now;
       published_at := None;
       submitted_by := None;
       submitted_at := None;
       u_created_at := pg_clock c;
       u_updated_at := pg_clock c |} in
  match await_write c db (insert_update c db row) with
  | (Threw, db') => (cannot_connect, db')
  | (Resolved r, db') =>
      match error r, data r with
      | Some _, _ =>
          (Throw (DatabaseError "Failed to create update request"), db')
      | None, Some created => (Ok (toAirtableUpdateRecord created), db')
      | None, None => (cannot_connect, db')
      end
  end.

Record SubmitUpdateData := {
  su_childId : string;
  su_sponsorCode : option string;
  su_updateType : string;
  su_title : string;
  su_content : string;
  su_submittedBy : string
}.

Definition submitUpdate (c : Ctx) (db : Db) (d : SubmitUpdateData)
  : Result AirtableUpdateRecord * Db :=
  let now := js_clock c in
  let stmt :=
    match parse_update_type (su_updateType d) with
    | None => (failure check_violation, db)
    | Some ty =>
        insert_update c db
          {| u_id := pg_uuid c;
             u_child_id := su_childId d;
             u_sponsor_code := or_undefined (su_sponsorCode d);
             update_type := ty;
             title := su_title d;
             content := su_content d;
             photos := None;
             u_status := PendingReview;
             u_visible_to_sponsor := false;
             requested_by_sponsor := Some false;
             requested_at := None;
             published_at := None;
             submitted_by := Some (su_submittedBy d);
             submitted_at := Some now;
             u_created_at := pg_clock c;
             u_updated_at := pg_clock c |}
    end in
  match await_write c db stmt with
  | (Threw, db') => (cannot_connect, db')
  | (Resolved r, db') =>
      match error r, data r with
      | Some _, _ => (Throw (DatabaseError "Failed to submit update"), db')
      | None, Some created => (Ok (toAirtableUpdateRecord created), db')
      | None, None => (cannot_connect, db')
      end
  end.

Definition getUpdateById (c : Ctx) (db : Db) (updateId : string)
  : Result (option AirtableUpdateRecord) :=
  let query := single (eq_ (fun r => u_id r =? updateId) (updates db)) in
  match await_read c query with
  | Threw => cannot_connect
  | Resolved r =>
      if error_other_than_PGRST116 r
      then Throw (DatabaseError "Failed to get update")
      else Ok (match data r with
               | Some row => Some (toAirtableUpdateRecord row)
               | None => None
               end)
  end.

(** [.update({ status: PUBLISHED, visible_to_sponsor: true,
    published_at: now })] *)
Definition set_published (now : Timestamp) (r : SupabaseUpdateRow)
  : SupabaseUpdateRow :=
  {| u_id := u_id r; u_child_id := u_child_id r;
     u_sponsor_code := u_sponsor_code r; update_type := update_type r;
     title := title r; content := content r; photos := photos r;
     u_status := Published;
     u_visible_to_sponsor := true;
     requested_by_sponsor := requested_by_sponsor r;
     requested_at := requested_at r;
     published_at := Some now;
     submitted_by := submitted_by r; submitted_at := submitted_at r;
     u_created_at := u_created_at r; u_updated_at := u_updated_at r |}.

Definition publishUpdate (c : Ctx) (db : Db) (updateId : string)
  : Result AirtableUpdateRecord * Db :=
  let now := js_clock c in
  match await_write c db
          (update_updates_single c db (set_published now) updateId)
  with
  | (Threw, db') => (cannot_connect, db')
  | (Resolved r, db') =>
      match error r, data r with
      | Some _, _ => (Throw (DatabaseError "Failed to publish update"), db')
      | None, Some row => (Ok (toAirtableUpdateRecord row), db')
      | None, None => (cannot_connect, db')
      end
  end.

(** [.update({ status: REJECTED, visible_to_sponsor: false })] *)
Definition set_rejected (r : SupabaseUpdateRow) : SupabaseUpdateRow :=
  {| u_id := u_id r; u_child_id := u_child_id r;
     u_sponsor_code := u_sponsor_code r; update_type := update_type r;
     title := title r; content := content r; photos := photos r;
     u_status := Rejected;
     u_visible_to_sponsor := false;
     requested_by_sponsor := requested_by_sponsor r;
     requested_at := requested_at r;
     published_at := published_at r;
     submitted_by := submitted_by r; submitted_at := submitted_at r;
     u_created_at := u_created_at r; u_updated_at := u_updated_at r |}.

Definition rejectUpdate (c : Ctx) (db : Db) (updateId : string)
  : Result AirtableUpdateRecord * Db :=
  match await_write c db (update_updates_single c db set_rejected updateId)
  with
  | (Threw, db') => (cannot_connect, db')
  | (Resolved r, db') =>
      match error r, data r with
      | Some _, _ => (Throw (DatabaseError "Failed to reject update"), db')
      | None, Some row => (Ok (toAirtableUpdateRecord row), db')
      | None, None => (cannot_connect, db')
      end
  end.

(** *** Sponsorship catalogue *)

Definition decimal (n : Z) : string := NilZero.string_of_int (Z.to_int n).

(** [`BAN-${year}-${randomNum}`] with
    [randomNum = Math.floor(Math.random() * 900) + 100]. *)
Definition generateSponsorCode (c : Ctx) : string :=
  let year := js_year c in
  let randomNum := js_draw c + 100 in
  "BAN-" ++ decimal year ++ "-" ++ decimal randomNum.

Record CreateSponsorshipData := {
  cs_sponsorEmail : string;
  cs_sponsorName : option string;
  cs_childId : string;
  cs_childDisplayName : string;
  cs_childPhoto : option (list Photo);
  cs_childAge : option string;
  cs_childLocation : option string
}.

Definition createSponsorship (c : Ctx) (db : Db) (d : CreateSponsorshipData)
  : Result AirtableSponsorshipRecord * Db :=
  let sponsorCode := generateSponsorCode c in
  let row :=
    {| id := pg_uuid c;
       sponsor_code := sponsorCode;
       sponsor_email := cs_sponsorEmail d;
       sponsor_name := or_undefined (cs_sponsorName d);
       child_id := cs_childId d;
       child_display_name := cs_childDisplayName d;
       child_photo := cs_childPhoto d;
       child_age := or_undefined (cs_childAge d);
       child_location := or_undefined (cs_childLocation d);
       sponsorship_start_date := Some (js_today c);
       auth_status := Active;
       status := Some StatusActive;
       visible_to_sponsor := true;
       last_request_at := None;
       next_request_eligible_at := None;
       created_at := pg_clock c;
       updated_at := pg_clock c |} in
  match await_write c db (insert_sponsorship c db row) with
  | (Threw, db') => (cannot_connect, db')
  | (Resolved r, db') =>
      match error r, data r with
      | Some _, _ =>
          (Throw (DatabaseError "Failed to create sponsorship"), db')
      | None, Some created => (Ok (toAirtableSponsorshipRecord created), db')
      | None, None => (cannot_connect, db')
      end
  end.

Record SponsorData := {
  as_sponsorEmail : string;
  as_sponsorName : option string;
  as_sponsorCode : string
}.

Definition set_assigned (c : Ctx) (d : SponsorData)
           (r : SupabaseSponsorshipRow) : SupabaseSponsorshipRow :=
  {| id := id r;
     sponsor_code := as_sponsorCode d;
     sponsor_email := as_sponsorEmail d;
     sponsor_name := match or_undefined (as_sponsorName d) with
                     | Some name => Some name
                     | None => sponsor_name r
                     end;
     child_id := child_id r; child_display_name := child_display_name r;
     child_photo := child_photo r; child_age := child_age r;
     child_location := child_location r;
     sponsorship_start_date := Some (js_today c);
     auth_status := Active;
     status := Some StatusActive;
     visible_to_sponsor := true;
     last_request_at := last_request_at r;
     next_request_eligible_at := next_request_eligible_at r;
     created_at := created_at r; updated_at := updated_at r |}.

Definition assignSponsorToChild (c : Ctx) (db : Db) (recordId : string)
           (sponsorData : SponsorData)
  : Result AirtableSponsorshipRecord * Db :=
  match await_write c db
          (update_sponsorships_single c db (set_assigned c sponsorData)
             recordId)
  with
  | (Threw, db') => (cannot_connect, db')
  | (Resolved r, db') =>
      match error r, data r with
      | Some _, _ => (Throw (DatabaseError "Failed to assign sponsor"), db')
      | None, Some row => (Ok (toAirtableSponsorshipRecord row), db')
      | None, None => (cannot_connect, db')
      end
  end.

End Database.

(** ** lib/auth.ts *)

Module Auth.
Import Pg Database.

(** *** Security utilities *)

(** [Buffer.from(s, 'utf8')]: the bytes of the string. *)
Definition Buffer_from (s : string) : list N :=
  map N_of_ascii (list_ascii_of_string s).

(** crypto.timingSafeEqual on two buffers: it throws (here [None]) when
    the lengths differ, and otherwise folds the bytewise differences
    into one accumulator, visiting every position. *)
Fixpoint fold_differences (a b : list N) (acc : N) : N :=
  match a, b with
  | x :: a', y :: b' => fold_differences a' b' (N.lor acc (N.lxor x y))
  | _, _ => acc
  end.

Definition timingSafeEqual (a b : list N) : option bool :=
  if Nat.eqb (List.length a) (List.length b)
  then Some (N.eqb (fold_differences a b 0%N) 0%N)
  else None.

Definition timingSafeCompare (a b : string) : bool :=
  let bufferA := Buffer_from a in
  let bufferB := Buffer_from b in
  if negb (Nat.eqb (List.length bufferA) (List.length bufferB))
  then
    match timingSafeEqual bufferA bufferA with
    | Some _ => false
    | None => false
    end
  else
    match timingSafeEqual bufferA bufferB with
    | Some equal => equal
    | None => false
    end.

(** *** Session management *)

Record SessionData := {
  email : string;
  sponsorCode : string;
  expires : string
}.

(** [date < now] on the time values of two Date objects; an Invalid
    Date (here [None]) compares false with everything. *)
Definition date_lt (date : option Timestamp) (now : Timestamp) : bool :=
  match date with
  | Some t => (t <? now)%Z
  | None => false
  end.

Section Runtime.

(** [JSON.parse] at the type the code gives its result; [None] when it
    throws, or yields a value whose fields cannot be read ([null]).  A
    field the text lacks reads as a text that is no date and no stored
    code. *)
Variable JSON_parse : string -> option SessionData.
(** The time value of [new Date(text)]; [None] for an Invalid Date. *)
Variable Date_parse : string -> option Timestamp.
(** ERROR_MESSAGES.SESSION_EXPIRED of lib/constants. *)
Variable SESSION_EXPIRED : string.

(** [sessionCookie] is [cookieStore.get(SESSION.COOKIE_NAME)], its
    value when the cookie is there. *)
Definition getSession (c : Ctx) (sessionCookie : option string)
  : option SessionData :=
  match sessionCookie with
  | None => None
  | Some value =>
      match JSON_parse value with
      | None => None
      | Some session =>
          if date_lt (Date_parse (expires session)) (js_clock c)
          then None
          else Some session
      end
  end.

Definition verifySession (c : Ctx) (db : Db) (sessionCookie : option string)
  : Result (option AirtableSponsorshipRecord) :=
  match getSession c sessionCookie with
  | None => Ok None
  | Some session =>
      match findSponsorshipByCode c db (sponsorCode session) with
      | Throw e => Throw e
      | Ok None => Ok None
      | Ok (Some sponsorship) => Ok (Some sponsorship)
      end
  end.

Definition requireAuth (c : Ctx) (db : Db) (sessionCookie : option string)
  : Result AirtableSponsorshipRecord :=
  match verifySession c db sessionCookie with
  | Throw e => Throw e
  | Ok None => Throw (AuthenticationError SESSION_EXPIRED)
  | Ok (Some sponsorship) => Ok sponsorship
  end.

Definition verifySessionForCode (c : Ctx) (sessionCookie : option string)
           (code : string) : bool :=
  match getSession c sessionCookie with
  | None => false
  | Some session => sponsorCode session =? code
  end.

End Runtime.

(** *** Admin authentication *)

(** The two headers the verifier reads, as [request.headers.get] returns
    them. *)
Record Headers := {
  X_Admin_Token : option string;
  Authorization : option string
}.

Definition byte (c : ascii) : N := N_of_ascii c.

(** A header value as [request.headers.get] can return it, within
    visible ASCII: the runtime strips TAB, LF, CR and SPACE from both
    ends of a value and admits no NUL, LF or CR inside it.  Here the
    bytes are 0x21..0x7E, with SPACE and TAB only between them. *)
Definition visible (a : ascii) : bool :=
  ((33 <=? byte a) && (byte a <=? 126))%N.

Definition blank (a : ascii) : bool :=
  ((byte a =? 32) || (byte a =? 9))%N.

Fixpoint ends_visible (s : string) : bool :=
  match s with
  | EmptyString => true
  | String a EmptyString => visible a
  | String a rest => (visible a || blank a) && ends_visible rest
  end.

Definition header_text (s : string) : bool :=
  match s with
  | EmptyString => true
  | String a _ => visible a && ends_visible s
  end.

(** One letter of the pattern against one byte of the text, ignoring
    ASCII case (the [i] flag; a non-ASCII character never matches an
    ASCII letter). *)
Definition same_letter (p c : ascii) : bool :=
  let lower := fun x =>
    if ((65 <=? byte x) && (byte x <=? 90))%N then (byte x + 32)%N
    else byte x in
  N.eqb (lower p) (lower c).

Fixpoint match_prefix_ci (pattern text : string) : option string :=
  match pattern, text with
  | EmptyString, rest => Some rest
  | String p pattern', String c text' =>
      if same_letter p c then match_prefix_ci pattern' text' else None
  | String _ _, EmptyString => None
  end.

(** [\s] on one-byte characters: TAB, LF, VT, FF, CR, SPACE. *)
Definition space1 (a : N) : bool :=
  ((9 <=? a) && (a <=? 13) || (a =? 32))%N.
(** U+00A0. *)
Definition space2 (a b : N) : bool := ((a =? 194) && (b =? 160))%N.
(** U+1680, U+2000..U+200A, U+2028, U+2029, U+202F, U+205F, U+3000,
    U+FEFF. *)
Definition space3 (a b c : N) : bool :=
  ((a =? 225) && (b =? 154) && (c =? 128)
   || (a =? 226) && (b =? 128)
      && ((128 <=? c) && (c <=? 138) || (c =? 168) || (c =? 169)
          || (c =? 175))
   || (a =? 226) && (b =? 129) && (c =? 159)
   || (a =? 227) && (b =? 128) && (c =? 128)
   || (a =? 239) && (b =? 187) && (c =? 191))%N.

(** The text after its leading run of [\s] characters. *)
Fixpoint skip_spaces (text : string) : string :=
  match text with
  | EmptyString => text
  | String c1 rest1 =>
      if space1 (byte c1) then skip_spaces rest1
      else
        match rest1 with
        | EmptyString => text
        | String c2 rest2 =>
            if space2 (byte c1) (byte c2) then skip_spaces rest2
            else
              match rest2 with
              | EmptyString => text
              | String c3 rest3 =>
                  if space3 (byte c1) (byte c2) (byte c3)
                  then skip_spaces rest3
                  else text
              end
        end
  end.

(** [text.replace(/^Bearer\s+/i, '')] *)
Definition strip_bearer (text : string) : string :=
  match match_prefix_ci "Bearer" text with
  | None => text
  | Some rest =>
      let rest' := skip_spaces rest in
      if Nat.ltb (String.length rest') (String.length rest)
      then rest'
      else text
  end.

(** [headers.get('X-Admin-Token') ||
     headers.get('Authorization')?.replace(/^Bearer\s+/i, '') || null] *)
Definition requestToken (headers : Headers) : option string :=
  match or_undefined (X_Admin_Token headers) with
  | Some token => Some token
  | None =>
      match Authorization headers with
      | Some value => or_undefined (Some (strip_bearer value))
      | None => None
      end
  end.

(** [ADMIN_API_TOKEN] is [process.env.ADMIN_API_TOKEN]. *)
Definition verifyAdminToken (ADMIN_API_TOKEN : option string)
           (headers : Headers) : bool :=
  match or_undefined ADMIN_API_TOKEN with
  | None => false
  | Some adminToken =>
      match requestToken headers with
      | None => false
      | Some token => timingSafeCompare token adminToken
      end
  end.

Definition requireAdminAuth (ADMIN_API_TOKEN : option string)
           (headers : Headers) : Result unit :=
  if verifyAdminToken ADMIN_API_TOKEN headers
  then Ok tt
  else Throw (AuthenticationError "Admin authentication required").

End Auth.

(** ** The admin update-submission route *)

Module SubmitRoute.
Import Auth.

(** A form entry is a string or a file. *)
Inductive FormDataEntryValue :=
| FormText (text : string)
| FormFile.

(** [formData.get(name)] for the names the handler reads. *)
Record FormData := {
  f_adminPassword : option FormDataEntryValue;
  f_sponsorCode : option FormDataEntryValue;
  f_updateType : option FormDataEntryValue;
  f_title : option FormDataEntryValue;
  f_content : option FormDataEntryValue;
  f_submittedBy : option FormDataEntryValue
}.

(** What a [throw] carries to the handler's [catch]: an [Error] with its
    message, or some other value. *)
Inductive Thrown :=
| ThrownError (message : string)
| ThrownValue.

Record ProcessEnv := {
  ADMIN_API_TOKEN : option string;
  AIRTABLE_API_KEY : option string;
  AIRTABLE_BASE_ID : option string;
  AIRTABLE_SPONSORSHIPS_TABLE : option string;
  AIRTABLE_UPDATES_TABLE : option string
}.

(** The request as the handler sees it: its headers, what the rate
    limiter says about it ([None], or a limit error with its optional
    [retryAfter]), and its form body ([inr] when [request.formData()]
    throws). *)
Record NextRequest := {
  headers : Headers;
  rateLimitError : option (option Z);
  formData : FormData + Thrown
}.

(** The fields of the record the handler creates. *)
Record NewUpdateFields := {
  n_ChildID : string;
  n_SponsorCode : string;
  n_UpdateType : string;
  n_Title : string;
  n_Content : string;
  n_Status : string;
  n_VisibleToSponsor : bool;
  n_RequestedBySponsor : bool;
  n_RequestedAt : Timestamp;
  n_SubmittedBy : string
}.

(** The answer to the sponsorship lookup: the exchange throws, or a
    response arrives, not ok, or ok with the ChildID field of each
    record it lists. *)
Inductive LookupAnswer :=
| LookupThrows (t : Thrown)
| LookupNotOk
| LookupOk (child_ids : list (option string)).

(** The answer to the create request: the exchange throws, or a response
    arrives, not ok with its body text, or ok with the new record's
    id. *)
Inductive CreateAnswer :=
| CreateThrows (t : Thrown)
| CreateNotOk (text : string)
| CreateOk (id : option string).

(** The Airtable REST API, by table name: a filtered listing with
    [maxRecords=1], and a record creation. *)
Record Airtable := {
  list_records : string -> string -> string -> LookupAnswer;
  create_record : string -> string -> NewUpdateFields -> CreateAnswer
}.

Inductive Body :=
| ErrorBody (error : option string)
| SubmittedBody (updateId : option string) (message : string).

Record Response := {
  status : Z;
  retry_after : option string;
  body : Body
}.

Definition json_error (error : option string) (status : Z) : Response :=
  {| status := status; retry_after := None; body := ErrorBody error |}.

(** The verdict of a validator of lib/validation: the cleaned value, or
    the message for the client. *)
Inductive ValidationResult :=
| Valid (data : string)
| Invalid (error : option string).

Definition verifyFormToken (ADMIN_API_TOKEN : option string)
           (token : option FormDataEntryValue) : bool :=
  match token with
  | None | Some (FormText EmptyString) => false
  | Some entry =>
      match or_undefined ADMIN_API_TOKEN with
      | None => false
      | Some expectedToken =>
          match entry with
          | FormFile => false   (* Buffer.from throws; caught *)
          | FormText token =>
              let tokenBuffer := Buffer_from token in
              let expectedBuffer := Buffer_from expectedToken in
              if negb (Nat.eqb (List.length tokenBuffer)
                               (List.length expectedBuffer))
              then
                match timingSafeEqual tokenBuffer tokenBuffer with
                | Some _ => false
                | None => false
                end
              else
                match timingSafeEqual tokenBuffer expectedBuffer with
                | Some equal => equal
                | None => false
                end
          end
      end
  end.

Section Handler.

(** lib/validation and lib/constants, and the string method the
    handler applies to the update type. *)
Variable validateSponsorCode : option FormDataEntryValue -> ValidationResult.
Variable validateUpdateTitle : option FormDataEntryValue -> ValidationResult.
Variable validateUpdateContent : option FormDataEntryValue -> ValidationResult.
Variable validateRequiredString :
  option FormDataEntryValue -> string -> Z -> Z -> ValidationResult.
Variable sanitizeString : option FormDataEntryValue -> string.
Variable escapeForAirtable : string -> string.
Variable slice_0_100 : string -> string.
Variable TOO_MANY_REQUESTS : string.

(** The [try] block of POST from the form data on; [inr] is a
    [throw]. *)
Definition POST_body (env : ProcessEnv) (airtable : Airtable)
           (now : Timestamp) (request : NextRequest) (form : FormData)
  : Response + Thrown :=
  let adminPassword := f_adminPassword form in
  if negb (verifyAdminToken (ADMIN_API_TOKEN env) (headers request))
     && negb (verifyFormToken (ADMIN_API_TOKEN env) adminPassword)
  then inl (json_error (Some "Unauthorized - Invalid admin password") 401)
  else
    let updateType := slice_0_100 (sanitizeString (f_updateType form)) in
    match validateSponsorCode (f_sponsorCode form) with
    | Invalid e => inl (json_error e 400)
    | Valid sponsorCode =>
    match validateUpdateTitle (f_title form) with
    | Invalid e => inl (json_error e 400)
    | Valid title =>
    match validateUpdateContent (f_content form) with
    | Invalid e => inl (json_error e 400)
    | Valid content =>
    match validateRequiredString (f_submittedBy form) "Submitted by" 1 200
    with
    | Invalid e => inl (json_error e 400)
    | Valid submittedBy =>
    match or_undefined (AIRTABLE_API_KEY env),
          or_undefined (AIRTABLE_BASE_ID env) with
    | Some _, Some base =>
        let sponsorships_table :=
          match or_undefined (AIRTABLE_SPONSORSHIPS_TABLE env) with
          | Some t => t | None => "Sponsorships" end in
        let updates_table :=
          match or_undefined (AIRTABLE_UPDATES_TABLE env) with
          | Some t => t | None => "Updates" end in
        let escapedCode := escapeForAirtable sponsorCode in
        let sponsorshipFormula :=
          "{SponsorCode} = " ++ double_quote ++ escapedCode
                             ++ double_quote in
        match list_records airtable base sponsorships_table
                           sponsorshipFormula with
        | LookupThrows t => inr t
        | answer =>
            let childID :=
              match answer with
              | LookupOk (first :: _) => or_undefined first
              | _ => None
              end in
            match childID with
            | None =>
                inl (json_error
                       (Some "Child ID not found for this sponsor code")
                       404)
            | Some childID =>
                let fields :=
                  {| n_ChildID := childID;
                     n_SponsorCode := sponsorCode;
                     n_UpdateType :=
                       match or_undefined (Some updateType) with
                       | Some t => t | None => "Progress Report" end;
                     n_Title := title;
                     n_Content := content;
                     n_Status := "Pending Review";
                     n_VisibleToSponsor := false;
                     n_RequestedBySponsor := false;
                     n_RequestedAt := now;
                     n_SubmittedBy := submittedBy |} in
                match create_record airtable base updates_table fields
                with
                | CreateThrows t => inr t
                | CreateNotOk error =>
                    inr (ThrownError ("Airtable API error: " ++ error))
                | CreateOk id =>
                    inl {| status := 200; retry_after := None;
                           body :=
                             SubmittedBody id
                               "Update submitted successfully. Photos can be added in Airtable." |}
                end
            end
        end
    | _, _ => inr (ThrownError "Airtable credentials not configured")
    end end end end end.

Definition POST (env : ProcessEnv) (airtable : Airtable)
           (now : Timestamp) (request : NextRequest) : Response :=
  let attempt :=
    match rateLimitError request with
    | Some retryAfter =>
        inl {| status := 429;
               retry_after :=
                 Some (match retryAfter with
                       | Some seconds => Database.decimal seconds
                       | None => "60"
                       end);
               body := ErrorBody (Some TOO_MANY_REQUESTS) |}
    | None =>
        match formData request with
        | inr t => inr t
        | inl form => POST_body env airtable now request form
        end
    end in
  match attempt with
  | inl response => response
  | inr thrown =>
      let errorMessage :=
        match thrown with
        | ThrownError message => message
        | ThrownValue => "Failed to submit update"
        end in
      json_error (Some errorMessage) 500
  end.

End Handler.

End SubmitRoute.

(** ** The update lifecycle as a transition system *)

Module Lifecycle.
Import Pg Database.

(** The operations that create an update or move it through review. *)
Inductive Call :=
| CreateUpdateRequest (childId sponsorCode : string)
| SubmitUpdate (d : SubmitUpdateData)
| PublishUpdate (updateId : string)
| RejectUpdate (updateId : string).

(** The store after one call, whatever the call returned. *)
Definition step (c : Ctx) (call : Call) (db : Db) : Db :=
  match call with
  | CreateUpdateRequest childId sponsorCode =>
      snd (createUpdateRequest c db childId sponsorCode)
  | SubmitUpdate d => snd (submitUpdate c db d)
  | PublishUpdate updateId => snd (publishUpdate c db updateId)
  | RejectUpdate updateId => snd (rejectUpdate c db updateId)
  end.

(** The store after a sequence of calls, first call first. *)
Fixpoint run (calls : list (Ctx * Call)) (db : Db) : Db :=
  match calls with
  | [] => db
  | (c, call) :: rest => run rest (step c call db)
  end.

(** The visibility flag is set exactly on the Published rows. *)
Definition visible_iff_published (db : Db) : Prop :=
  forall u, In u (updates db) ->
            (u_visible_to_sponsor u = true <-> u_status u = Published).

End Lifecycle.

(** ** The typed writes of the database layer *)

(** The seven writes the layer exports as functions of their own.  The
    generic [databaseClient.updateRecord], which writes whatever columns
    its caller names (status, visible_to_sponsor and published_at among
    them, each on its own), and the raw client of
    [databaseClient.getClient] are not among them. *)

Module Writes.
Import Pg Database.

Inductive Call :=
| CreateSponsorship (d : CreateSponsorshipData)
| AssignSponsorToChild (recordId : string) (sponsorData : SponsorData)
| UpdateSponsorshipRequestTracking (recordId : string)
                                   (lastRequestAt nextEligibleAt : Timestamp)
| Review (call : Lifecycle.Call).

Definition step (c : Ctx) (call : Call) (db : Db) : Db :=
  match call with
  | CreateSponsorship d => snd (createSponsorship c db d)
  | AssignSponsorToChild recordId sponsorData =>
      snd (assignSponsorToChild c db recordId sponsorData)
  | UpdateSponsorshipRequestTracking recordId lastRequestAt nextEligibleAt =>
      snd (updateSponsorshipRequestTracking c db recordId lastRequestAt
                                            nextEligibleAt)
  | Review call => Lifecycle.step c call db
  end.

Fixpoint run (calls : list (Ctx * Call)) (db : Db) : Db :=
  match calls with
  | [] => db
  | (c, call) :: rest => run rest (step c call db)
  end.

End Writes.

(** ** Sample data, for the concrete instances below *)

Module Sample.
Import Pg Database.

Definition ctx (t : Timestamp) (uuid : string) : Ctx :=
  {| js_clock := t; js_year := 2025; js_today := "2025-06-01";
     js_draw := 4; pg_clock := t; pg_uuid := uuid; weather := Fine |}.

Definition sponsorship (key code mail : string) (auth : AuthStatus)
           (visible : bool) (eligible : option Timestamp)
  : SupabaseSponsorshipRow :=
  {| id := key; sponsor_code := code; sponsor_email := mail;
     sponsor_name := Some "Ada"; child_id := "CH-7";
     child_display_name := "Okello"; child_photo := None;
     child_age := None; child_location := None;
     sponsorship_start_date := Some "2025-01-15";
     auth_status := auth; status := Some StatusActive;
     visible_to_sponsor := visible;
     last_request_at := None; next_request_eligible_at := eligible;
     created_at := 10; updated_at := 10 |}.

Definition update (key : string) (st : UpdateStatus) (visible : bool)
           (published : option Timestamp) : SupabaseUpdateRow :=
  {| u_id := key; u_child_id := "CH-7";
     u_sponsor_code := Some "BAN-2025-104"; update_type := ProgressReport;
     title := "Term report"; content := "Doing well."; photos := None;
     u_status := st; u_visible_to_sponsor := visible;
     requested_by_sponsor := Some false; requested_at := None;
     published_at := published; submitted_by := Some "field team";
     submitted_at := Some 20; u_created_at := 20; u_updated_at := 20 |}.

Definition db_one_sponsor : Db :=
  {| sponsorships :=
       [sponsorship "s1" "BAN-2025-104" "a@x.com" Active true None];
     updates := [] |}.

Definition db_eligible_since_100 : Db :=
  {| sponsorships :=
       [sponsorship "s1" "BAN-2025-104" "a@x.com" Active true (Some 100)];
     updates := [] |}.

Definition db_rejected : Db :=
  {| sponsorships :=
       [sponsorship "s1" "BAN-2025-104" "a@x.com" Active true None];
     updates := [update "u1" Rejected false None] |}.

Definition db_published : Db :=
  {| sponsorships :=
       [sponsorship "s1" "BAN-2025-104" "a@x.com" Active true None];
     updates := [update "u1" Published true (Some 100)] |}.

(** A child without a sponsor yet: the record carries a placeholder code
    and is hidden. *)
Definition awaiting_child (key code name : string) : SupabaseSponsorshipRow :=
  {| id := key; sponsor_code := code; sponsor_email := "none@beanumber.org";
     sponsor_name := None; child_id := "CH-9";
     child_display_name := name; child_photo := None;
     child_age := None; child_location := None;
     sponsorship_start_date := None;
     auth_status := Inactive; status := Some AwaitingSponsor;
     visible_to_sponsor := false;
     last_request_at := None; next_request_eligible_at := None;
     created_at := 10; updated_at := 10 |}.

Definition db_with_awaiting_child : Db :=
  {| sponsorships :=
       [sponsorship "s1" "BAN-2025-104" "a@x.com" Active true None;
        awaiting_child "s2" "WAIT-1" "Akello"];
     updates := [] |}.

(** The cookie text the login route writes:
    [JSON.stringify({ email, sponsorCode, expires })]. *)
Definition JSON_stringify (s : Auth.SessionData) : string :=
  let q := double_quote in
  "{" ++ q ++ "email" ++ q ++ ":" ++ q ++ Auth.email s ++ q
      ++ "," ++ q ++ "sponsorCode" ++ q ++ ":" ++ q ++ Auth.sponsorCode s ++ q
      ++ "," ++ q ++ "expires" ++ q ++ ":" ++ q ++ Auth.expires s ++ q
      ++ "}".

Definition session : Auth.SessionData :=
  {| Auth.email := "a@x.com";
     Auth.sponsorCode := "BAN-2025-104";
     Auth.expires := "2025-07-01T00:00:00.000Z" |}.

(** [JSON.parse] and [new Date] on the texts of this sample; anything
    else does not parse. *)
Definition JSON_parse (text : string) : option Auth.SessionData :=
  if text =? JSON_stringify session then Some session else None.

(** The sample session with an expiry text that is no date, as a
    client can write it into its own cookie. *)
Definition session_without_date : Auth.SessionData :=
  {| Auth.email := "a@x.com";
     Auth.sponsorCode := "BAN-2025-104";
     Auth.expires := "never" |}.

(** [JSON.parse] on the two cookie texts of this sample. *)
Definition JSON_parse_either (text : string) : option Auth.SessionData :=
  if text =? JSON_stringify session_without_date
  then Some session_without_date
  else JSON_parse text.

Definition Date_parse (text : string) : option Timestamp :=
  if text =? "2025-07-01T00:00:00.000Z" then Some 1751328000000
  else None.

End Sample.

(** ** The other queries of the database layer *)

Module Queries.
Import Pg Database.

(** The rows the query of findPendingUpdates selects, in its order. *)
Definition findPendingUpdates_rows (db : Db) : list SupabaseUpdateRow :=
  order_desc submitted_at
    (eq_ (fun r => UpdateStatus_eqb (u_status r) PendingReview)
       (updates db)).

Definition findPendingUpdates (c : Ctx) (db : Db)
  : Result (list AirtableUpdateRecord) :=
  let query := success (findPendingUpdates_rows db) in
  match await_read c query with
  | Threw => cannot_connect
  | Resolved r =>
      if has_error r
      then Throw (DatabaseError "Failed to find pending updates")
      else Ok (map toAirtableUpdateRecord
                   (match data r with Some rows => rows | None => [] end))
  end.

Definition findSponsorshipBySponsorCode (c : Ctx) (db : Db)
           (sponsorCode : string)
  : Result (option AirtableSponsorshipRecord) :=
  let query :=
    single
      (limit 1
         (eq_ (fun r => sponsor_code r =? sponsorCode) (sponsorships db))) in
  match await_read c query with
  | Threw => cannot_connect
  | Resolved r =>
      if error_other_than_PGRST116 r
      then Throw (DatabaseError "Failed to find sponsorship")
      else Ok (match data r with
               | Some row => Some (toAirtableSponsorshipRecord row)
               | None => None
               end)
  end.

(** The rows findMostRecentUpdateForChild orders, before its
    [.limit(1).single()]. *)
Definition findMostRecentUpdateForChild_rows (db : Db) (childId : string)
  : list SupabaseUpdateRow :=
  order_desc published_at
    (eq_ (fun r => UpdateStatus_eqb (u_status r) Published)
       (eq_ (fun r => u_child_id r =? childId) (updates db))).

Definition findMostRecentUpdateForChild (c : Ctx) (db : Db)
           (childId : string)
  : Result (option AirtableUpdateRecord) :=
  let query := single (limit 1 (findMostRecentUpdateForChild_rows db childId)) in
  match await_read c query with
  | Threw => cannot_connect
  | Resolved r =>
      if error_other_than_PGRST116 r
      then Throw (DatabaseError "Failed to find update")
      else Ok (match data r with
               | Some row => Some (toAirtableUpdateRecord row)
               | None => None
               end)
  end.

Definition findAllPublishedUpdates_rows (db : Db) : list SupabaseUpdateRow :=
  order_desc published_at
    (eq_ (fun r => UpdateStatus_eqb (u_status r) Published) (updates db)).

Definition findAllPublishedUpdates (c : Ctx) (db : Db)
  : Result (list AirtableUpdateRecord) :=
  let query := success (findAllPublishedUpdates_rows db) in
  match await_read c query with
  | Threw => cannot_connect
  | Resolved r =>
      if has_error r
      then Throw (DatabaseError "Failed to find published updates")
      else Ok (map toAirtableUpdateRecord
                   (match data r with Some rows => rows | None => [] end))
  end.

Definition getSponsorshipById (c : Ctx) (db : Db) (recordId : string)
  : Result (option AirtableSponsorshipRecord) :=
  let query := single (eq_ (fun r => id r =? recordId) (sponsorships db)) in
  match await_read c query with
  | Threw => cannot_connect
  | Resolved r =>
      if error_other_than_PGRST116 r
      then Throw (DatabaseError "Failed to get sponsorship")
      else Ok (match data r with
               | Some row => Some (toAirtableSponsorshipRecord row)
               | None => None
               end)
  end.

Section Collation.

(** The order of the database's collation on text: [text_le a b] when
    [a] sorts before or with [b]. *)
Variable text_le : string -> string -> bool.

Fixpoint insert_asc {A} (key : A -> string) (r : A) (sorted : list A)
  : list A :=
  match sorted with
  | [] => [r]
  | x :: rest =>
      if text_le (key r) (key x) then r :: x :: rest
      else x :: insert_asc key r rest
  end.

(** [.order(column, { ascending: true })] on a text column. *)
Fixpoint order_asc {A} (key : A -> string) (rows : list A) : list A :=
  match rows with
  | [] => []
  | r :: rest => insert_asc key r (order_asc key rest)
  end.

Definition findAllActiveSponsorships_rows (db : Db)
  : list SupabaseSponsorshipRow :=
  order_asc sponsor_code
    (eq_ (fun r => Bool.eqb (visible_to_sponsor r) true)
       (eq_ (fun r => AuthStatus_eqb (auth_status r) Active)
          (sponsorships db))).

Definition findAllActiveSponsorships (c : Ctx) (db : Db)
  : Result (list AirtableSponsorshipRecord) :=
  let query := success (findAllActiveSponsorships_rows db) in
  match await_read c query with
  | Threw => cannot_connect
  | Resolved r =>
      if has_error r
      then Throw (DatabaseError "Failed to find active sponsorships")
      else Ok (map toAirtableSponsorshipRecord
                   (match data r with Some rows => rows | None => [] end))
  end.

(** [.eq('status', 'Awaiting Sponsor')]: a NULL status equals nothing. *)
Definition awaiting (r : SupabaseSponsorshipRow) : bool :=
  match status r with
  | Some s => SponsorshipStatus_eqb s AwaitingSponsor
  | None => false
  end.

Definition findAvailableChildren_rows (db : Db)
  : list SupabaseSponsorshipRow :=
  order_asc child_display_name (eq_ awaiting (sponsorships db)).

Definition findAvailableChildren (c : Ctx) (db : Db)
  : Result (list AirtableSponsorshipRecord) :=
  let query := success (findAvailableChildren_rows db) in
  match await_read c query with
  | Threw => cannot_connect
  | Resolved r =>
      if has_error r
      then Throw (DatabaseError "Failed to find available children")
      else Ok (map toAirtableSponsorshipRecord
                   (match data r with Some rows => rows | None => [] end))
  end.

End Collation.

(** *** Views for the sponsor *)

Record PhotoRef := {
  ref_url : string;
  ref_filename : string
}.

Record ChildProfile := {
  profile_id : string;
  displayName : string;
  age : option string;
  location : option string;
  profile_photo : option PhotoRef;
  sponsorshipStartDate : option string
}.

Definition sponsorshipToChildProfile (record : AirtableSponsorshipRecord)
  : ChildProfile :=
  let fields := s_fields record in
  {| profile_id := ChildID fields;
     displayName := ChildDisplayName fields;
     age := ChildAge fields;
     location := ChildLocation fields;
     profile_photo :=
       match ChildPhoto fields with
       | Some (first :: _) =>
           Some {| ref_url := url first; ref_filename := filename first |}
       | _ => None
       end;
     sponsorshipStartDate := SponsorshipStartDate fields |}.

Record SponsorUpdate := {
  su_id : string;
  su_type : UpdateType;
  su_title_ : string;
  su_content_ : string;
  su_photos : option (list PhotoRef);
  publishedAt : option Timestamp;
  submittedBy : option string
}.

Definition updateRecordToSponsorUpdate (record : AirtableUpdateRecord)
  : SponsorUpdate :=
  let fields := r_fields record in
  {| su_id := r_id record;
     su_type := UpdateType_ fields;
     su_title_ := Title fields;
     su_content_ := Content fields;
     su_photos :=
       match Photos fields with
       | Some photos =>
           Some (map (fun photo => {| ref_url := url photo;
                                      ref_filename := filename photo |})
                     photos)
       | None => None
       end;
     publishedAt := PublishedAt fields;
     submittedBy := SubmittedBy fields |}.

(** Every Published update has a publication time. *)
Definition published_is_dated (db : Db) : Prop :=
  forall u, In u (updates db) ->
            u_status u = Published -> exists t, published_at u = Some t.

(** Newest first, on the sponsor's view: both entries are dated and the
    first is not older than the second. *)
Definition view_newest_first (a b : SponsorUpdate) : Prop :=
  exists ta tb,
    publishedAt a = Some ta /\ publishedAt b = Some tb /\ (tb <= ta)%Z.

End Queries.

(** ** The Supabase client singleton *)

Module Supabase.

Record Config := {
  cfg_url : string;
  serviceRoleKey : string
}.

(** A client object: what it was created from, and which creation of the
    process it is (two creations give two objects). *)
Record SupabaseClient := {
  client_url : string;
  client_key : string;
  serial : nat
}.

(** The module's state: the variable [supabaseClient], and the number of
    clients [createClient] has built so far. *)
Record ModuleState := {
  supabaseClient : option SupabaseClient;
  created : nat
}.

Definition initial : ModuleState :=
  {| supabaseClient := None; created := 0 |}.

Definition createClient (st : ModuleState) (config : Config)
  : SupabaseClient * ModuleState :=
  ({| client_url := cfg_url config; client_key := serviceRoleKey config;
      serial := created st |},
   {| supabaseClient := supabaseClient st; created := S (created st) |}).

(** [config] is what [getSupabaseConfig()] of lib/env gives at the time
    of the call; [Throw] when it throws, or when [createClient] refuses
    the values, which leaves the variable as it was. *)
Definition getSupabaseClient (st : ModuleState) (config : Result Config)
  : Result SupabaseClient * ModuleState :=
  match supabaseClient st with
  | Some client => (Ok client, st)
  | None =>
      match config with
      | Throw e => (Throw e, st)
      | Ok cfg =>
          let (client, st') := createClient st cfg in
          (Ok client,
           {| supabaseClient := Some client; created := created st' |})
      end
  end.

Definition createSupabaseClient (st : ModuleState) (config : Result Config)
  : Result SupabaseClient * ModuleState :=
  match config with
  | Throw e => (Throw e, st)
  | Ok cfg => let (client, st') := createClient st cfg in (Ok client, st')
  end.

(** A call of one of the two exported functions, with the configuration
    lib/env reads at that time. *)
Inductive Call :=
| GetClient (config : Result Config)
| CreateClient (config : Result Config).

Definition perform (st : ModuleState) (call : Call)
  : Result SupabaseClient * ModuleState :=
  match call with
  | GetClient config => getSupabaseClient st config
  | CreateClient config => createSupabaseClient st config
  end.

(** The state after a sequence of calls, first call first. *)
Fixpoint run (calls : list Call) (st : ModuleState) : ModuleState :=
  match calls with
  | [] => st
  | call :: rest => run rest (snd (perform st call))
  end.

(** The clients a sequence of calls hands out, each with the kind of call
    that returned it ([true] for getSupabaseClient). *)
Fixpoint handed_out (calls : list Call) (st : ModuleState)
  : list (bool * SupabaseClient) :=
  match calls with
  | [] => []
  | call :: rest =>
      let kind := match call with GetClient _ => true | _ => false end in
      match perform st call with
      | (Ok client, st') => (kind, client) :: handed_out rest st'
      | (Throw _, st') => handed_out rest st'
      end
  end.

(** What the module keeps true: the cached client, if any, is one of the
    clients built so far. *)
Definition cached_is_old (st : ModuleState) : Prop :=
  forall client, supabaseClient st = Some client ->
                 (serial client < created st)%nat.

End Supabase.

(** ** The sponsor login route *)

Module LoginRoute.
Import Auth.
Import SubmitRoute (Thrown, ThrownError, ThrownValue, ValidationResult,
                    Valid, Invalid, ProcessEnv, AIRTABLE_API_KEY,
                    AIRTABLE_BASE_ID, AIRTABLE_SPONSORSHIPS_TABLE).

(** A JSON value as far as the handler tells values apart; [JsNumber]
    is an integral number, any other number is [JsOther]. *)
Inductive JsValue :=
| JsUndefined
| JsNull
| JsBool (b : bool)
| JsNumber (n : Z)
| JsString (s : string)
| JsOther.

(** What [await request.json()] yields: [null], or a value with what
    reading its [email] and [sponsorCode] gives. *)
Inductive JsonBody :=
| BodyNull
| BodyValue (email sponsorCode : JsValue).

(** The request as the handler sees it: what the rate limiter says about
    it, and its JSON body ([inr] when [request.json()] throws). *)
Record NextRequest := {
  rateLimitError : option (option Z);
  json : JsonBody + Thrown
}.

(** The fields of a record of the Sponsorships table that verifySponsor
    reads.  The text fields are absent or a text; an attachment is read
    for its url. *)
Record RecordFields := {
  a_AuthStatus : JsValue;
  a_VisibleToSponsor : JsValue;
  a_SponsorCode : option string;
  a_SponsorEmail : option string;
  a_SponsorName : option string;
  a_ChildID : option string;
  a_ChildDisplayName : option string;
  a_ChildPhoto : option (list (option string));
  a_SponsorshipStartDate : option string
}.

(** The answer to the listing: the exchange (or reading its body)
    throws, or a response arrives, not ok with its body text, or ok with
    [data.records]. *)
Inductive ListAnswer :=
| ListThrows (t : Thrown)
| ListNotOk (text : string)
| ListOk (records : option (list RecordFields)).

(** The Airtable REST API: a filtered listing, by base, table and
    formula. *)
Record Airtable := {
  list_sponsors : string -> string -> string -> ListAnswer
}.

Record SponsorData := {
  v_sponsorCode : string;
  v_email : string;
  v_name : string;
  v_childID : string;
  v_childName : string;
  v_childPhoto : option string;
  v_sponsorshipStartDate : string
}.

Record Cookie := {
  ck_name : string;
  ck_value : string;
  httpOnly : bool;
  secure : bool;
  sameSite : string;
  ck_expires : Timestamp;
  path : string
}.

Inductive Body :=
| ErrorBody (error : option string)
| VerifiedBody (sponsorCode name : string).

(** The response, with the cookie the handler has set on the way. *)
Record Response := {
  status : Z;
  retry_after : option string;
  body : Body;
  set_cookie : option Cookie
}.

Definition json_error (error : option string) (status : Z) : Response :=
  {| status := status; retry_after := None; body := ErrorBody error;
     set_cookie := None |}.

(** [text || fallback]. *)
Definition or_else (text : option string) (fallback : string) : string :=
  match or_undefined text with
  | Some t => t
  | None => fallback
  end.

(** [authStatus !== 'Active']. *)
Definition not_Active (authStatus : JsValue) : bool :=
  match authStatus with
  | JsString s => negb (s =? "Active")
  | _ => true
  end.

(** [visibleToSponsor !== true && visibleToSponsor !== 1]. *)
Definition not_true_nor_1 (visibleToSponsor : JsValue) : bool :=
  match visibleToSponsor with
  | JsBool true => false
  | JsNumber n => negb (n =? 1)%Z
  | _ => true
  end.

Section Handler.

(** lib/validation and lib/constants. *)
Variable validateEmail : JsValue -> ValidationResult.
Variable validateSponsorCode : JsValue -> ValidationResult.
Variable escapeForAirtable : string -> string.
Variable TOO_MANY_REQUESTS : string.
(** [JSON.stringify] on the session object, [Date.prototype.toISOString],
    and the time value after [expires.setDate(expires.getDate() + 30)]
    (thirty calendar days later in the server's time zone). *)
Variable JSON_stringify : SessionData -> string.
Variable toISOString : Timestamp -> string.
Variable setDate_plus_30 : Timestamp -> Timestamp.
(** The message of the TypeError for reading a property of [null]. *)
Variable TypeError_message : string.

Definition verifySponsor (env : ProcessEnv) (airtable : Airtable)
           (email sponsorCode : string) : option SponsorData + Thrown :=
  match or_undefined (AIRTABLE_API_KEY env),
        or_undefined (AIRTABLE_BASE_ID env) with
  | Some _, Some base =>
      let table :=
        match or_undefined (AIRTABLE_SPONSORSHIPS_TABLE env) with
        | Some t => t | None => "Sponsorships" end in
      let escapedEmail := escapeForAirtable email in
      let escapedCode := escapeForAirtable sponsorCode in
      let q := double_quote in
      let formula :=
        "AND({SponsorEmail}=" ++ q ++ escapedEmail ++ q
          ++ ",{SponsorCode}=" ++ q ++ escapedCode ++ q
          ++ ",{AuthStatus}=" ++ q ++ "Active" ++ q
          ++ ",{VisibleToSponsor}=1)" in
      match list_sponsors airtable base table formula with
      | ListThrows t => inr t
      | ListNotOk error =>
          inr (ThrownError ("Airtable API error: " ++ error))
      | ListOk (Some (fields :: _)) =>
          if not_Active (a_AuthStatus fields) then inl None
          else if not_true_nor_1 (a_VisibleToSponsor fields) then inl None
          else
            inl (Some
                   {| v_sponsorCode := or_else (a_SponsorCode fields)
                                               sponsorCode;
                      v_email := or_else (a_SponsorEmail fields) email;
                      v_name := or_else (a_SponsorName fields) EmptyString;
                      v_childID := or_else (a_ChildID fields) EmptyString;
                      v_childName :=
                        or_else (a_ChildDisplayName fields) EmptyString;
                      v_childPhoto :=
                        match a_ChildPhoto fields with
                        | Some (first :: _) => or_undefined first
                        | _ => None
                        end;
                      v_sponsorshipStartDate :=
                        or_else (a_SponsorshipStartDate fields)
                                EmptyString |})
      | ListOk _ => inl None
      end
  | _, _ => inr (ThrownError "Airtable credentials not configured")
  end.

(** The [try] block of POST from the parsed body on; [inr] is a
    [throw]. *)
Definition POST_body (env : ProcessEnv) (airtable : Airtable)
           (now : Timestamp) (parsed : JsonBody) : Response + Thrown :=
  match parsed with
  | BodyNull => inr (ThrownError TypeError_message)
  | BodyValue body_email body_sponsorCode =>
      match validateEmail body_email with
      | Invalid e => inl (json_error e 400)
      | Valid email =>
      match validateSponsorCode body_sponsorCode with
      | Invalid e => inl (json_error e 400)
      | Valid sponsorCode =>
      match verifySponsor env airtable email sponsorCode with
      | inr t => inr t
      | inl None =>
          inl (json_error
                 (Some "Invalid email or sponsor code, or sponsorship is not active")
                 401)
      | inl (Some sponsor) =>
          let expires := setDate_plus_30 now in
          let cookieValue :=
            JSON_stringify {| Auth.email := v_email sponsor;
                              Auth.sponsorCode := v_sponsorCode sponsor;
                              Auth.expires := toISOString expires |} in
          inl {| status := 200; retry_after := None;
                 body := VerifiedBody (v_sponsorCode sponsor)
                                      (v_name sponsor);
                 set_cookie :=
                   Some {| ck_name := "sponsor_session";
                           ck_value := cookieValue;
                           httpOnly := true;
                           secure := true;
                           sameSite := "lax";
                           ck_expires := expires;
                           path := "/" |} |}
      end end end
  end.

Definition POST (env : ProcessEnv) (airtable : Airtable)
           (now : Timestamp) (request : NextRequest) : Response :=
  let attempt :=
    match rateLimitError request with
    | Some retryAfter =>
        inl {| status := 429;
               retry_after :=
                 Some (match retryAfter with
                       | Some seconds => Database.decimal seconds
                       | None => "60"
                       end);
               body := ErrorBody (Some TOO_MANY_REQUESTS);
               set_cookie := None |}
    | None =>
        match json request with
        | inr t => inr t
        | inl parsed => POST_body env airtable now parsed
        end
    end in
  match attempt with
  | inl response => response
  | inr thrown =>
      let errorMessage :=
        match thrown with
        | ThrownError message => message
        | ThrownValue => "Failed to verify sponsor"
        end in
      json_error (Some errorMessage) 500
  end.

End Handler.

End LoginRoute.

(** ** The checkout route *)

Module CheckoutRoute.
Import LoginRoute (JsValue, JsUndefined, JsNull, JsBool, JsNumber,
                   JsString, JsOther).
Import SubmitRoute (Thrown, ThrownError, ThrownValue, ValidationResult,
                    Valid, Invalid).

(** U+2014, as the description texts have it. *)
Definition em_dash : string :=
  String (ascii_of_nat 226)
         (String (ascii_of_nat 128) (String (ascii_of_nat 148) EmptyString)).

Record ProcessEnv := {
  STRIPE_SECRET_KEY : option string;
  NEXT_PUBLIC_STRIPE_PUBLISHABLE_KEY : option string
}.

(** What [await request.json()] yields: [null], or a value with what
    reading its [amount], [email], [name] and [isMonthly] gives. *)
Inductive JsonBody :=
| BodyNull
| BodyValue (amount email name isMonthly : JsValue).

Record NextRequest := {
  origin : option string;
  rateLimitError : option (option Z);
  json : JsonBody + Thrown
}.

(** The verdict of validateDonationAmount: the amount in cents, or the
    message for the client. *)
Inductive AmountValidation :=
| AmountValid (cents : Z)
| AmountInvalid (error : option string).

Inductive Mode := Payment | Subscription.
Inductive Interval := Month.

Record SubscriptionData := {
  sd_donation_type : string;
  sd_amount : string
}.

Record CustomField := {
  cf_key : string;
  cf_label : string;
  cf_type : string;
  cf_optional : bool
}.

(** The parameters of the Checkout Session the handler asks for. *)
Record SessionCreateParams := {
  payment_method_types : list string;
  currency : string;
  product_name : string;
  product_description : string;
  unit_amount : Z;
  recurring : option Interval;
  quantity : Z;
  mode : Mode;
  success_url : string;
  cancel_url : string;
  customer_email : option string;
  donor_name : string;
  donation_type : string;
  allow_promotion_codes : bool;
  billing_address_collection : string;
  custom_fields : list CustomField;
  subscription_data : option SubscriptionData
}.

(** The answer of [stripe.checkout.sessions.create]: it throws, or
    yields a session with its id and url. *)
Inductive CreateAnswer :=
| CreateThrows (t : Thrown)
| Created (id : string) (url : option string).

(** The Stripe API, by the secret key the client was built with. *)
Record Stripe := {
  create_session : string -> SessionCreateParams -> CreateAnswer
}.

Inductive Body :=
| ErrorBody (error : option string)
| SessionBody (sessionId : string) (url : option string).

Record Response := {
  status : Z;
  retry_after : option string;
  body : Body
}.

Definition json_error (error : option string) (status : Z) : Response :=
  {| status := status; retry_after := None; body := ErrorBody error |}.

(** Whether a JSON value counts as true in a condition. *)
Definition truthy (v : JsValue) : bool :=
  match v with
  | JsUndefined | JsNull => false
  | JsBool b => b
  | JsNumber n => negb (n =? 0)%Z
  | JsString s => negb (s =? EmptyString)
  | JsOther => true
  end.

Definition configuration_error : Thrown :=
  ThrownError "Payment system configuration error. Please contact support.".

(** [None] when nothing is thrown. *)
Definition validateEnvVars (env : ProcessEnv) : option Thrown :=
  match or_undefined (STRIPE_SECRET_KEY env),
        or_undefined (NEXT_PUBLIC_STRIPE_PUBLISHABLE_KEY env) with
  | Some _, Some _ => None
  | _, _ => Some configuration_error
  end.

(** The client is known by the secret key it was built with; the
    [stripe] module is taken to load. *)
Definition getStripe (env : ProcessEnv) : string + Thrown :=
  match or_undefined (STRIPE_SECRET_KEY env) with
  | Some secretKey => inl secretKey
  | None => inr configuration_error
  end.

Section Handler.

(** lib/validation and lib/constants, and the string methods the handler
    applies. *)
Variable validateDonationAmount : JsValue -> AmountValidation.
Variable validateEmail : JsValue -> ValidationResult.
Variable sanitizeString : JsValue -> string.
Variable slice_0_200 : string -> string.
Variable TOO_MANY_REQUESTS : string.
(** The text of [cents / 100] as a number prints. *)
Variable dollars : Z -> string.
(** The message of the TypeError for reading a property of [null]. *)
Variable TypeError_message : string.

Definition sessionConfig (request : NextRequest) (amountInCents : Z)
           (email : option string) (body_name body_isMonthly : JsValue)
  : SessionCreateParams :=
  let amountInDollars := dollars amountInCents in
  let name :=
    match or_undefined (Some (slice_0_200 (sanitizeString body_name))) with
    | Some n => n | None => "Anonymous" end in
  let isMonthly :=
    match body_isMonthly with JsBool true => true | _ => false end in
  let origin :=
    match or_undefined (origin request) with
    | Some o => o | None => "https://www.beanumber.org" end in
  let tail :=
    " supports sustainable community systems in Northern Uganda "
      ++ em_dash
      ++ " healthcare, education, workforce development, and economic empowerment that transform communities." in
  {| payment_method_types := ["card"];
     currency := "usd";
     product_name :=
       if isMonthly
       then "Monthly Donation to Be A Number, International"
       else "Donation to Be A Number, International";
     product_description :=
       if isMonthly
       then "Thank you for changing lives. Your monthly gift of $"
              ++ amountInDollars ++ tail
       else "Thank you for changing lives. Your contribution of $"
              ++ amountInDollars ++ tail;
     unit_amount := amountInCents;
     recurring := if isMonthly then Some Month else None;
     quantity := 1;
     mode := if isMonthly then Subscription else Payment;
     success_url :=
       origin ++ "/donate/success?session_id={CHECKOUT_SESSION_ID}";
     cancel_url := origin ++ "/#donate";
     customer_email := or_undefined email;
     donor_name := name;
     donation_type := if isMonthly then "monthly" else "one-time";
     allow_promotion_codes := false;
     billing_address_collection := "required";
     custom_fields :=
       [{| cf_key := "organization";
           cf_label := "Organization Name (if applicable)";
           cf_type := "text";
           cf_optional := true |}];
     subscription_data :=
       if isMonthly
       then Some {| sd_donation_type := "monthly";
                    sd_amount := amountInDollars |}
       else None |}.

(** The [try] block of POST after the rate limit; [inr] is a
    [throw]. *)
Definition POST_body (env : ProcessEnv) (stripe : Stripe)
           (request : NextRequest) : Response + Thrown :=
  match validateEnvVars env with
  | Some t => inr t
  | None =>
  match getStripe env with
  | inr t => inr t
  | inl secretKey =>
  match json request with
  | inr t => inr t
  | inl BodyNull => inr (ThrownError TypeError_message)
  | inl (BodyValue body_amount body_email body_name body_isMonthly) =>
      match validateDonationAmount body_amount with
      | AmountInvalid e => inl (json_error e 400)
      | AmountValid amountInCents =>
          let checked :=
            if truthy body_email
            then match validateEmail body_email with
                 | Invalid e => inl e
                 | Valid data => inr (Some data)
                 end
            else inr None in
          match checked with
          | inl e => inl (json_error e 400)
          | inr email =>
              let config :=
                sessionConfig request amountInCents email body_name
                              body_isMonthly in
              match create_session stripe secretKey config with
              | CreateThrows t => inr t
              | Created id url =>
                  inl {| status := 200; retry_after := None;
                         body := SessionBody id url |}
              end
          end
      end
  end end end.

Definition POST (env : ProcessEnv) (stripe : Stripe)
           (request : NextRequest) : Response :=
  let attempt :=
    match rateLimitError request with
    | Some retryAfter =>
        inl {| status := 429;
               retry_after :=
                 Some (match retryAfter with
                       | Some seconds => Database.decimal seconds
                       | None => "60"
                       end);
               body := ErrorBody (Some TOO_MANY_REQUESTS) |}
    | None => POST_body env stripe request
    end in
  match attempt with
  | inl response => response
  | inr thrown =>
      let errorMessage :=
        match thrown with
        | ThrownError message => message
        | ThrownValue => "Failed to create checkout session"
        end in
      json_error (Some errorMessage) 500
  end.

End Handler.

End CheckoutRoute.

(** ** The donation section *)

Module DonationSection.

(** The component's state: [useState(false)] and
    [useState<number | undefined>(undefined)].  Amounts are integral. *)
Record State := {
  isModalOpen : bool;
  donationAmount : option Z
}.

Definition initial : State :=
  {| isModalOpen := false; donationAmount := None |}.

Definition handleDonate (amount : option Z) (st : State) : State :=
  {| isModalOpen := true; donationAmount := amount |}.

Definition closeModal (st : State) : State :=
  {| isModalOpen := false; donationAmount := None |}.

(** [document.body.style.overflow] once the effect has run for this
    state. *)
Definition body_overflow (st : State) : string :=
  if isModalOpen st then "hidden" else "unset".

Definition getDonorboxUrl (donorboxUrl : string) (st : State) : string :=
  let params :=
    match donationAmount st with
    | Some amount =>
        if (amount =? 0)%Z then EmptyString
        else "amount=" ++ Database.decimal amount
    | None => EmptyString
    end in
  donorboxUrl ++ (if params =? EmptyString then EmptyString
                  else "?" ++ params).

(** The [src] of the form's iframe, when the modal is rendered. *)
Definition iframe_src (donorboxUrl : string) (st : State) : option string :=
  if isModalOpen st then Some (getDonorboxUrl donorboxUrl st) else None.

(** The elements of the section that carry a click handler. *)
Inductive Click :=
| Tier25 | Tier50 | Tier100 | Tier250
| Donate
| Backdrop
| ModalPanel
| CloseButton.

(** One click.  The backdrop, the panel and the close button exist only
    while the modal is open; the panel stops the click from reaching the
    backdrop. *)
Definition click (ev : Click) (st : State) : State :=
  match ev with
  | Tier25 => handleDonate (Some 25%Z) st
  | Tier50 => handleDonate (Some 50%Z) st
  | Tier100 => handleDonate (Some 100%Z) st
  | Tier250 => handleDonate (Some 250%Z) st
  | Donate => handleDonate None st
  | Backdrop | CloseButton => if isModalOpen st then closeModal st else st
  | ModalPanel => st
  end.

Fixpoint run (clicks : list Click) (st : State) : State :=
  match clicks with
  | [] => st
  | ev :: rest => run rest (click ev st)
  end.

End DonationSection.

(** ** A sample deployment of the admin submission route *)

Module SubmitSample.
Import Auth SubmitRoute.

(** Validators that accept any non-empty text as it is. *)
Definition required (what : string) (entry : option FormDataEntryValue)
  : ValidationResult :=
  match entry with
  | Some (FormText (String c rest)) => Valid (String c rest)
  | _ => Invalid (Some (what ++ " is required"))
  end.

Definition required_string (entry : option FormDataEntryValue)
           (what : string) (low high : Z) : ValidationResult :=
  required what entry.

Definition text_of (entry : option FormDataEntryValue) : string :=
  match entry with
  | Some (FormText text) => text
  | _ => EmptyString
  end.

Definition env : ProcessEnv :=
  {| ADMIN_API_TOKEN := Some "s3cret-token";
     AIRTABLE_API_KEY := Some "patKEY";
     AIRTABLE_BASE_ID := Some "appBASE";
     AIRTABLE_SPONSORSHIPS_TABLE := None;
     AIRTABLE_UPDATES_TABLE := None |}.

Definition form : FormData :=
  {| f_adminPassword := None;
     f_sponsorCode := Some (FormText "BAN-2025-104");
     f_updateType := Some (FormText "Progress Report");
     f_title := Some (FormText "Term report");
     f_content := Some (FormText "Doing well.");
     f_submittedBy := Some (FormText "field team") |}.

(** A request with the secret in the X-Admin-Token header. *)
Definition request : NextRequest :=
  {| headers := {| X_Admin_Token := Some "s3cret-token";
                   Authorization := None |};
     rateLimitError := None;
     formData := inl form |}.

(** The same request, held back by the rate limiter for 42 seconds. *)
Definition limited_request : NextRequest :=
  {| headers := {| X_Admin_Token := Some "s3cret-token";
                   Authorization := None |};
     rateLimitError := Some (Some 42%Z);
     formData := inl form |}.

(** An Airtable base that knows the child of every code and accepts
    every record as recNEW. *)
Definition airtable : Airtable :=
  {| list_records := fun _ _ _ => LookupOk [Some "CH-7"];
     create_record := fun _ _ _ => CreateOk (Some "recNEW") |}.

(** An Airtable base that refuses the listing. *)
Definition airtable_refusing : Airtable :=
  {| list_records := fun _ _ _ => LookupNotOk;
     create_record := fun _ _ _ => CreateOk (Some "recNEW") |}.

Definition POST (airtable : Airtable) (request : NextRequest) : Response :=
  SubmitRoute.POST (required "Sponsor code") (required "Title")
                   (required "Content") required_string text_of
                   (fun text => text) (fun text => text)
                   "Too many requests" env airtable 900 request.

End SubmitSample.

(** ** A sample deployment of the login route *)

Module LoginSample.
Import Auth LoginRoute.

(** Validators that accept any non-empty text as it is. *)
Definition text (what : string) (v : JsValue) : SubmitRoute.ValidationResult :=
  match v with
  | JsString (String c rest) => SubmitRoute.Valid (String c rest)
  | _ => SubmitRoute.Invalid (Some (what ++ " is required"))
  end.

(** [toISOString] on the time of this sample: 1 July 2025, midnight
    UTC. *)
Definition toISOString (t : Timestamp) : string :=
  if (t =? 1751328000000)%Z then "2025-07-01T00:00:00.000Z"
  else "1970-01-01T00:00:00.000Z".

(** Thirty days on a server running on UTC. *)
Definition setDate_plus_30 (t : Timestamp) : Timestamp :=
  (t + 30 * 86400000)%Z.

Definition record (authStatus visibleToSponsor : JsValue) : RecordFields :=
  {| a_AuthStatus := authStatus;
     a_VisibleToSponsor := visibleToSponsor;
     a_SponsorCode := Some "BAN-2025-104";
     a_SponsorEmail := Some "a@x.com";
     a_SponsorName := Some "Ada";
     a_ChildID := Some "CH-7";
     a_ChildDisplayName := Some "Okello";
     a_ChildPhoto := None;
     a_SponsorshipStartDate := Some "2025-01-15" |}.

(** An Airtable base that answers every listing with these records. *)
Definition airtable (records : option (list RecordFields)) : Airtable :=
  {| list_sponsors := fun _ _ _ => ListOk records |}.

(** An Airtable base that refuses every listing. *)
Definition airtable_refusing : Airtable :=
  {| list_sponsors := fun _ _ _ =>
       ListNotOk "AUTHENTICATION_REQUIRED: key patKEY is not valid for base appBASE" |}.

Definition request : NextRequest :=
  {| rateLimitError := None;
     json := inl (BodyValue (JsString "a@x.com")
                            (JsString "BAN-2025-104")) |}.

(** The handler on 1 June 2025, midnight UTC. *)
Definition POST (airtable : Airtable) (request : NextRequest) : Response :=
  LoginRoute.POST (text "Email") (text "Sponsor code") (fun t => t)
                  "Too many requests" Sample.JSON_stringify toISOString
                  setDate_plus_30
                  "Cannot read properties of null (reading 'email')"
                  SubmitSample.env airtable 1748736000000 request.

End LoginSample.

(** ** A sample deployment of the checkout route *)

Module CheckoutSample.
Import LoginRoute (JsValue, JsUndefined, JsNull, JsBool, JsNumber,
                   JsString, JsOther).
Import CheckoutRoute.

(** Whole dollars from 1 up, in cents. *)
Definition amount (v : JsValue) : AmountValidation :=
  match v with
  | JsNumber n =>
      if (1 <=? n)%Z then AmountValid (n * 100)%Z
      else AmountInvalid (Some "Minimum donation is $1")
  | _ => AmountInvalid (Some "Amount is required")
  end.

Definition text_of (v : JsValue) : string :=
  match v with
  | JsString s => s
  | _ => EmptyString
  end.

(** Whole dollars print without a fraction. *)
Definition dollars (cents : Z) : string := Database.decimal (cents / 100)%Z.

Definition env : ProcessEnv :=
  {| STRIPE_SECRET_KEY := Some "sk_test_1";
     NEXT_PUBLIC_STRIPE_PUBLISHABLE_KEY := Some "pk_test_1" |}.

(** A server without its publishable key. *)
Definition env_without_publishable_key : ProcessEnv :=
  {| STRIPE_SECRET_KEY := Some "sk_test_1";
     NEXT_PUBLIC_STRIPE_PUBLISHABLE_KEY := None |}.

Definition stripe : Stripe :=
  {| create_session := fun _ _ =>
       Created "cs_test_1"
               (Some "https://checkout.stripe.com/c/pay/cs_test_1") |}.

(** Fifty dollars a month, from Ada. *)
Definition request : NextRequest :=
  {| origin := Some "https://www.beanumber.org";
     rateLimitError := None;
     json := inl (BodyValue (JsNumber 50) (JsString "a@x.com")
                            (JsString "Ada") (JsBool true)) |}.

Definition POST (env : ProcessEnv) (request : NextRequest) : Response :=
  CheckoutRoute.POST amount (LoginSample.text "Email") text_of
                     (fun t => t) "Too many requests" dollars
                     "Cannot read properties of null (reading 'amount')"
                     env stripe request.

End CheckoutSample.

(** * Properties *)

Import Pg Database Auth SubmitRoute Lifecycle.

(** ** The store's constraints *)

Section StoreFacts.

Lemma mem_In (s : string) (l : list string) : mem s l = true <-> In s l.
Proof.
  induction l as [| x rest IH]; simpl.
  - split; [discriminate | contradiction].
  - rewrite orb_true_iff, IH, String.eqb_eq. tauto.
Qed.

Lemma mem_false_not_In (s : string) (l : list string) :
  mem s l = false <-> ~ In s l.
Proof.
  rewrite <- mem_In. destruct (mem s l); split; congruence.
Qed.

Lemma distinct_NoDup (l : list string) : distinct l = true <-> NoDup l.
Proof.
  induction l as [| x rest IH]; simpl.
  - split; [constructor | reflexivity].
  - rewrite andb_true_iff, negb_true_iff, mem_false_not_In, IH.
    split.
    + intros [Hx Hrest]. now constructor.
    + intros H. inversion H; subst. now split.
Qed.

Lemma distinct_app_fresh (l : list string) (s : string) :
  distinct l = true -> mem s l = false -> distinct (l ++ [s]) = true.
Proof.
  rewrite !distinct_NoDup, mem_false_not_In. intros Hl Hs.
  apply NoDup_incl_NoDup with (l := s :: l).
  - now constructor.
  - rewrite length_app. simpl. lia.
  - intros x Hx. apply in_or_app. simpl in *. tauto.
Qed.

(** With distinct keys, selecting one key from a table rewritten at
    that key gives the rewritten row alone. *)
Lemma select_rewritten {A} (key : A -> string) (f : A -> A)
      (rows : list A) (row : A) :
  (forall r, key (f r) = key r) ->
  distinct (map key rows) = true ->
  In row rows ->
  filter (fun r => key r =? key row)
         (map (fun r => if key r =? key row then f r else r) rows)
  = [f row].
Proof.
  intros Hkey. induction rows as [| x rest IH]; simpl; [contradiction |].
  rewrite andb_true_iff, negb_true_iff, mem_false_not_In.
  intros [Hfresh Hrest] [-> | Hin].
  - rewrite String.eqb_refl. rewrite Hkey, String.eqb_refl. f_equal.
    clear IH Hrest. induction rest as [| y rest IH]; simpl; [reflexivity |].
    simpl in Hfresh.
    destruct (key y =? key row) eqn:E.
    + apply String.eqb_eq in E. tauto.
    + rewrite E. apply IH. tauto.
  - destruct (key x =? key row) eqn:E.
    + apply String.eqb_eq in E. exfalso. apply Hfresh. rewrite E.
      now apply in_map.
    + rewrite E. now apply IH.
Qed.

(** Without the key in the table, nothing is selected and nothing is
    rewritten. *)
Lemma select_absent {A} (key : A -> string) (f : A -> A)
      (rows : list A) (k : string) :
  ~ In k (map key rows) ->
  map (fun r => if key r =? k then f r else r) rows = rows
  /\ filter (fun r => key r =? k) rows = [].
Proof.
  induction rows as [| x rest IH]; simpl; [auto |].
  intros H. destruct (key x =? k) eqn:E.
  - apply String.eqb_eq in E. tauto.
  - destruct IH as [-> ->]; tauto.
Qed.

End StoreFacts.

(** ** Review transitions *)

Section ReviewFacts.

Lemma touch_update_id (c : Ctx) (r : SupabaseUpdateRow) :
  u_id (touch_update c r) = u_id r.
Proof. reflexivity. Qed.

(** An id the table holds once: the statement rewrites that row and
    returns it. *)
Lemma update_updates_single_hit (c : Ctx) (db : Db)
      (set : SupabaseUpdateRow -> SupabaseUpdateRow)
      (row : SupabaseUpdateRow) :
  (forall r, u_id (set r) = u_id r) ->
  distinct (map u_id (updates db)) = true ->
  In row (updates db) ->
  update_updates_single c db set (u_id row)
  = (success (touch_update c (set row)),
     {| sponsorships := sponsorships db;
        updates := map (fun r => if u_id r =? u_id row
                                 then touch_update c (set r) else r)
                       (updates db) |}).
Proof.
  intros Hset Hpk Hin. unfold update_updates_single.
  rewrite (select_rewritten u_id (fun r => touch_update c (set r))
                            (updates db) row); auto.
Qed.

(** An id the table does not hold: PGRST116, and no change. *)
Lemma update_updates_single_miss (c : Ctx) (db : Db)
      (set : SupabaseUpdateRow -> SupabaseUpdateRow) (key : string) :
  ~ In key (map u_id (updates db)) ->
  update_updates_single c db set key = (failure PGRST116, db).
Proof.
  intros Hmiss. unfold update_updates_single.
  destruct (select_absent u_id (fun r => touch_update c (set r))
                          (updates db) key Hmiss) as [-> ->].
  reflexivity.
Qed.

Lemma constraints_ok_updates (db : Db) :
  constraints_ok db = true -> distinct (map u_id (updates db)) = true.
Proof.
  unfold constraints_ok. rewrite !andb_true_iff. tauto.
Qed.

Lemma In_rewritten {A} (key : A -> string) (f : A -> A) (rows : list A)
      (row : A) :
  In row rows ->
  In (f row) (map (fun r => if key r =? key row then f r else r) rows).
Proof.
  intros Hin. apply in_map_iff. exists row.
  now rewrite String.eqb_refl.
Qed.

Lemma publishUpdate_hit (c : Ctx) (db : Db) (row : SupabaseUpdateRow) :
  weather c = Fine ->
  constraints_ok db = true ->
  In row (updates db) ->
  publishUpdate c db (u_id row)
  = (Ok (toAirtableUpdateRecord
           (touch_update c (set_published (js_clock c) row))),
     {| sponsorships := sponsorships db;
        updates :=
          map (fun r => if u_id r =? u_id row
                        then touch_update c (set_published (js_clock c) r)
                        else r)
              (updates db) |}).
Proof.
  intros Hw Hok Hin. unfold publishUpdate, await_write. rewrite Hw.
  rewrite update_updates_single_hit;
    auto using constraints_ok_updates.
Qed.

Lemma rejectUpdate_hit (c : Ctx) (db : Db) (row : SupabaseUpdateRow) :
  weather c = Fine ->
  constraints_ok db = true ->
  In row (updates db) ->
  rejectUpdate c db (u_id row)
  = (Ok (toAirtableUpdateRecord (touch_update c (set_rejected row))),
     {| sponsorships := sponsorships db;
        updates :=
          map (fun r => if u_id r =? u_id row
                        then touch_update c (set_rejected r)
                        else r)
              (updates db) |}).
Proof.
  intros Hw Hok Hin. unfold rejectUpdate, await_write. rewrite Hw.
  rewrite update_updates_single_hit;
    auto using constraints_ok_updates.
Qed.

End ReviewFacts.

(** C10.  publishUpdate and rejectUpdate look at no review status: on any
    stored update, whatever its state, publishUpdate succeeds and leaves
    the row Published, visible and stamped with the time of this call;
    rejectUpdate succeeds and leaves it Rejected and hidden.  So one
    publish call brings a Rejected update back to the sponsor. *)
Theorem C10_publish_reject_unconditional
        (c : Ctx) (db : Db) (row : SupabaseUpdateRow) :
  weather c = Fine ->
  constraints_ok db = true ->
  In row (updates db) ->
  (exists row' db',
      publishUpdate c db (u_id row) = (Ok (toAirtableUpdateRecord row'), db')
      /\ In row' (updates db')
      /\ u_id row' = u_id row
      /\ u_status row' = Published
      /\ u_visible_to_sponsor row' = true
      /\ published_at row' = Some (js_clock c))
  /\ (exists row' db',
         rejectUpdate c db (u_id row) = (Ok (toAirtableUpdateRecord row'), db')
         /\ In row' (updates db')
         /\ u_id row' = u_id row
         /\ u_status row' = Rejected
         /\ u_visible_to_sponsor row' = false).
Proof.
  intros Hw Hok Hin. split.
  - eexists _, _. split; [apply publishUpdate_hit; assumption |].
    split; [| repeat split].
    apply (In_rewritten u_id
             (fun r => touch_update c (set_published (js_clock c) r))
             (updates db) row Hin).
  - eexists _, _. split; [apply rejectUpdate_hit; assumption |].
    split; [| repeat split].
    apply (In_rewritten u_id (fun r => touch_update c (set_rejected r))
             (updates db) row Hin).
Qed.

(** A Rejected, hidden update: one publish call at time 500 makes it
    Published and visible. *)
Lemma C10_witness_rejected_republished :
  u_status (Sample.update "u1" Rejected false None) = Rejected
  /\ exists row' db',
      publishUpdate (Sample.ctx 500 "x") Sample.db_rejected "u1"
      = (Ok (toAirtableUpdateRecord row'), db')
      /\ In row' (updates db')
      /\ u_id row' = "u1"
      /\ u_status row' = Published
      /\ u_visible_to_sponsor row' = true
      /\ published_at row' = Some 500.
Proof.
  split; [reflexivity |].
  apply (C10_publish_reject_unconditional
           (Sample.ctx 500 "x") Sample.db_rejected
           (Sample.update "u1" Rejected false None)).
  - reflexivity.
  - vm_compute. reflexivity.
  - simpl. left. reflexivity.
Defined.

(** ** The visibility invariant *)

Section LifecycleFacts.

(** What an UPDATE ... RETURNING single object can do: rewrite one row
    that carries the key, or fail and change nothing. *)
Lemma update_updates_single_cases (c : Ctx) (db : Db)
      (set : SupabaseUpdateRow -> SupabaseUpdateRow) (key : string) :
  (exists x,
      In x (updates db) /\ u_id x = key
      /\ update_updates_single c db set key
         = (success (touch_update c (set x)),
            {| sponsorships := sponsorships db;
               updates := map (fun r => if u_id r =? key
                                        then touch_update c (set r) else r)
                              (updates db) |}))
  \/ update_updates_single c db set key = (failure PGRST116, db).
Proof.
  unfold update_updates_single.
  set (rows' := map _ (updates db)).
  destruct (filter (fun r => u_id r =? key) rows')
    as [| r [| r2 rest]] eqn:E; simpl; auto.
  left.
  assert (Hr : In r (filter (fun r => u_id r =? key) rows'))
    by (rewrite E; now left).
  apply filter_In in Hr. destruct Hr as [Hr Hkey].
  apply in_map_iff in Hr. destruct Hr as (x & Hx & Hin).
  exists x. destruct (u_id x =? key) eqn:Ex.
  - apply String.eqb_eq in Ex. subst r. auto.
  - subst r. congruence.
Qed.

Lemma insert_update_cases (c : Ctx) (db : Db) (row : SupabaseUpdateRow) :
  (~ In (u_id row) (map u_id (updates db))
   /\ insert_update c db row
      = (success row,
         {| sponsorships := sponsorships db;
            updates := updates db ++ [row] |}))
  \/ insert_update c db row = (failure unique_violation, db).
Proof.
  unfold insert_update.
  destruct (mem (u_id row) (map u_id (updates db))) eqn:E; auto.
  left. split; [now apply mem_false_not_In | reflexivity].
Qed.

Lemma visible_iff_published_rewrite (c : Ctx) (db : Db)
      (set : SupabaseUpdateRow -> SupabaseUpdateRow) (key : string) :
  (forall r, u_visible_to_sponsor (set r) = true
             <-> u_status (set r) = Published) ->
  visible_iff_published db ->
  visible_iff_published
    {| sponsorships := sponsorships db;
       updates := map (fun r => if u_id r =? key
                                then touch_update c (set r) else r)
                      (updates db) |}.
Proof.
  intros Hset Hinv u Hu. simpl in Hu.
  apply in_map_iff in Hu. destruct Hu as (x & <- & Hx).
  destruct (u_id x =? key); [apply Hset | now apply Hinv].
Qed.

Lemma visible_iff_published_append (db : Db) (row : SupabaseUpdateRow) :
  (u_visible_to_sponsor row = true <-> u_status row = Published) ->
  visible_iff_published db ->
  visible_iff_published
    {| sponsorships := sponsorships db; updates := updates db ++ [row] |}.
Proof.
  intros Hrow Hinv u Hu. simpl in Hu. apply in_app_or in Hu.
  destruct Hu as [Hu | [<- | []]]; [now apply Hinv | exact Hrow].
Qed.

Lemma pending_hidden :
  false = true <-> PendingReview = Published.
Proof. split; discriminate. Qed.

Lemma step_preserves (c : Ctx) (call : Call) (db : Db) :
  visible_iff_published db -> visible_iff_published (step c call db).
Proof.
  intros Hinv. destruct call as [childId code | d | key | key]; simpl.
  - unfold createUpdateRequest, await_write.
    destruct (weather c); simpl; auto;
      match goal with
      | |- context [insert_update c db ?row] =>
          destruct (insert_update_cases c db row) as [[_ ->] | ->]
      end; simpl; auto;
      apply visible_iff_published_append; auto using pending_hidden.
  - unfold submitUpdate, await_write.
    destruct (weather c); simpl; auto;
      destruct (parse_update_type (su_updateType d)); simpl; auto;
      match goal with
      | |- context [insert_update c db ?row] =>
          destruct (insert_update_cases c db row) as [[_ ->] | ->]
      end; simpl; auto;
      apply visible_iff_published_append; auto using pending_hidden.
  - unfold publishUpdate, await_write.
    destruct (weather c); simpl; auto;
      destruct (update_updates_single_cases c db
                  (set_published (js_clock c)) key)
        as [(x & _ & _ & ->) | ->]; simpl; auto;
      apply visible_iff_published_rewrite; auto;
      intros r; simpl; tauto.
  - unfold rejectUpdate, await_write.
    destruct (weather c); simpl; auto;
      destruct (update_updates_single_cases c db set_rejected key)
        as [(x & _ & _ & ->) | ->]; simpl; auto;
      apply visible_iff_published_rewrite; auto;
      intros r; simpl; split; discriminate.
Qed.

Lemma run_preserves (calls : list (Ctx * Call)) :
  forall db, visible_iff_published db ->
             visible_iff_published (run calls db).
Proof.
  induction calls as [| [c call] rest IH]; simpl; intros db Hinv.
  - exact Hinv.
  - apply IH. now apply step_preserves.
Qed.

End LifecycleFacts.

Section LifecycleResults.

(** A successful createUpdateRequest appended the returned row under a
    fresh id, pending and hidden. *)
Lemma createUpdateRequest_ok (c : Ctx) (db db' : Db)
      (childId code : string) (rec : AirtableUpdateRecord) :
  createUpdateRequest c db childId code = (Ok rec, db') ->
  exists row,
    rec = toAirtableUpdateRecord row
    /\ db' = {| sponsorships := sponsorships db;
                updates := updates db ++ [row] |}
    /\ ~ In (u_id row) (map u_id (updates db))
    /\ u_child_id row = childId
    /\ u_status row = PendingReview
    /\ u_visible_to_sponsor row = false.
Proof.
  unfold createUpdateRequest, await_write.
  destruct (weather c); simpl; try discriminate.
  match goal with
  | |- context [insert_update c db ?row] =>
      destruct (insert_update_cases c db row) as [[Hfresh ->] | ->];
      simpl; try discriminate; intros H; exists row
  end.
  inversion H; subst. auto 10.
Qed.

Lemma submitUpdate_ok (c : Ctx) (db db' : Db) (d : SubmitUpdateData)
      (rec : AirtableUpdateRecord) :
  submitUpdate c db d = (Ok rec, db') ->
  exists row,
    rec = toAirtableUpdateRecord row
    /\ db' = {| sponsorships := sponsorships db;
                updates := updates db ++ [row] |}
    /\ ~ In (u_id row) (map u_id (updates db))
    /\ u_child_id row = su_childId d
    /\ u_status row = PendingReview
    /\ u_visible_to_sponsor row = false.
Proof.
  unfold submitUpdate, await_write.
  destruct (weather c); simpl; try discriminate.
  destruct (parse_update_type (su_updateType d)); simpl; try discriminate.
  match goal with
  | |- context [insert_update c db ?row] =>
      destruct (insert_update_cases c db row) as [[Hfresh ->] | ->];
      simpl; try discriminate; intros H; exists row
  end.
  inversion H; subst. auto 10.
Qed.

(** A successful publishUpdate rewrote a stored row of that id. *)
Lemma publishUpdate_ok (c : Ctx) (db db' : Db) (key : string)
      (rec : AirtableUpdateRecord) :
  publishUpdate c db key = (Ok rec, db') ->
  exists x,
    In x (updates db) /\ u_id x = key
    /\ rec = toAirtableUpdateRecord
               (touch_update c (set_published (js_clock c) x))
    /\ db' = {| sponsorships := sponsorships db;
                updates :=
                  map (fun r => if u_id r =? key
                                then touch_update c
                                       (set_published (js_clock c) r)
                                else r)
                      (updates db) |}.
Proof.
  unfold publishUpdate, await_write.
  destruct (weather c); simpl; try discriminate.
  destruct (update_updates_single_cases c db
              (set_published (js_clock c)) key)
    as [(x & Hx & Hkey & ->) | ->]; simpl; try discriminate.
  intros H. inversion H; subst. exists x. auto.
Qed.

Lemma rejectUpdate_ok (c : Ctx) (db db' : Db) (key : string)
      (rec : AirtableUpdateRecord) :
  rejectUpdate c db key = (Ok rec, db') ->
  exists x,
    In x (updates db) /\ u_id x = key
    /\ rec = toAirtableUpdateRecord (touch_update c (set_rejected x))
    /\ db' = {| sponsorships := sponsorships db;
                updates :=
                  map (fun r => if u_id r =? key
                                then touch_update c (set_rejected r)
                                else r)
                      (updates db) |}.
Proof.
  unfold rejectUpdate, await_write.
  destruct (weather c); simpl; try discriminate.
  destruct (update_updates_single_cases c db set_rejected key)
    as [(x & Hx & Hkey & ->) | ->]; simpl; try discriminate.
  intros H. inversion H; subst. exists x. auto.
Qed.

End LifecycleResults.

(** C2.  The visibility flag of an update is set exactly when its status
    is Published, and the lifecycle operations keep it so: each of
    createUpdateRequest, submitUpdate, publishUpdate and rejectUpdate
    takes a store with the property to a store with the property, hence
    every store reached from the empty one has it; a row that
    createUpdateRequest or submitUpdate creates is PendingReview and
    hidden, a row publishUpdate returns is Published and visible, a row
    rejectUpdate returns is Rejected and hidden.  And the operations do
    what they are for: with the store answering, createUpdateRequest
    and submitUpdate (given an update type of the schema) under a fresh
    id succeed and store a PendingReview, hidden row; on a stored
    update, publishUpdate succeeds and stores it Published and visible,
    rejectUpdate succeeds and stores it Rejected and hidden. *)
Theorem C2_visibility_iff_published :
  (forall c call db,
      visible_iff_published db -> visible_iff_published (step c call db))
  /\ (forall calls, visible_iff_published (run calls Pg.empty))
  /\ (forall c db db' childId code rec,
         createUpdateRequest c db childId code = (Ok rec, db') ->
         U_Status (r_fields rec) = PendingReview
         /\ U_VisibleToSponsor (r_fields rec) = false
         /\ exists row, In row (updates db')
                        /\ toAirtableUpdateRecord row = rec
                        /\ u_status row = PendingReview
                        /\ u_visible_to_sponsor row = false)
  /\ (forall c db db' d rec,
         submitUpdate c db d = (Ok rec, db') ->
         U_Status (r_fields rec) = PendingReview
         /\ U_VisibleToSponsor (r_fields rec) = false
         /\ exists row, In row (updates db')
                        /\ toAirtableUpdateRecord row = rec
                        /\ u_status row = PendingReview
                        /\ u_visible_to_sponsor row = false)
  /\ (forall c db db' key rec,
         publishUpdate c db key = (Ok rec, db') ->
         U_Status (r_fields rec) = Published
         /\ U_VisibleToSponsor (r_fields rec) = true
         /\ exists row, In row (updates db')
                        /\ toAirtableUpdateRecord row = rec
                        /\ u_id row = key
                        /\ u_status row = Published
                        /\ u_visible_to_sponsor row = true)
  /\ (forall c db db' key rec,
         rejectUpdate c db key = (Ok rec, db') ->
         U_Status (r_fields rec) = Rejected
         /\ U_VisibleToSponsor (r_fields rec) = false
         /\ exists row, In row (updates db')
                        /\ toAirtableUpdateRecord row = rec
                        /\ u_id row = key
                        /\ u_status row = Rejected
                        /\ u_visible_to_sponsor row = false)
  /\ (forall c db childId code,
         weather c = Fine ->
         ~ In (pg_uuid c) (map u_id (updates db)) ->
         exists row,
           createUpdateRequest c db childId code
           = (Ok (toAirtableUpdateRecord row),
              {| sponsorships := sponsorships db;
                 updates := updates db ++ [row] |})
           /\ u_child_id row = childId
           /\ u_status row = PendingReview
           /\ u_visible_to_sponsor row = false)
  /\ (forall c db d ty,
         weather c = Fine ->
         ~ In (pg_uuid c) (map u_id (updates db)) ->
         parse_update_type (su_updateType d) = Some ty ->
         exists row,
           submitUpdate c db d
           = (Ok (toAirtableUpdateRecord row),
              {| sponsorships := sponsorships db;
                 updates := updates db ++ [row] |})
           /\ u_child_id row = su_childId d
           /\ u_status row = PendingReview
           /\ u_visible_to_sponsor row = false)
  /\ (forall c db row,
         weather c = Fine ->
         constraints_ok db = true ->
         In row (updates db) ->
         exists row' db',
           publishUpdate c db (u_id row)
           = (Ok (toAirtableUpdateRecord row'), db')
           /\ In row' (updates db')
           /\ u_id row' = u_id row
           /\ u_status row' = Published
           /\ u_visible_to_sponsor row' = true)
  /\ (forall c db row,
         weather c = Fine ->
         constraints_ok db = true ->
         In row (updates db) ->
         exists row' db',
           rejectUpdate c db (u_id row)
           = (Ok (toAirtableUpdateRecord row'), db')
           /\ In row' (updates db')
           /\ u_id row' = u_id row
           /\ u_status row' = Rejected
           /\ u_visible_to_sponsor row' = false).
Proof.
  split; [exact step_preserves |].
  split.
  { intros calls. apply run_preserves. intros u []. }
  split.
  { intros c db db' childId code rec H.
    apply createUpdateRequest_ok in H.
    destruct H as (row & -> & -> & _ & _ & Hs & Hv). simpl.
    repeat split; auto.
    exists row. repeat split; auto. apply in_or_app. simpl. auto. }
  split.
  { intros c db db' d rec H.
    apply submitUpdate_ok in H.
    destruct H as (row & -> & -> & _ & _ & Hs & Hv). simpl.
    repeat split; auto.
    exists row. repeat split; auto. apply in_or_app. simpl. auto. }
  split.
  { intros c db db' key rec H.
    apply publishUpdate_ok in H.
    destruct H as (x & Hx & <- & -> & ->). simpl.
    repeat split.
    eexists. split; [| repeat split].
    apply (In_rewritten u_id
             (fun r => touch_update c (set_published (js_clock c) r))
             (updates db) x Hx). }
  split.
  { intros c db db' key rec H.
    apply rejectUpdate_ok in H.
    destruct H as (x & Hx & <- & -> & ->). simpl.
    repeat split.
    eexists. split; [| repeat split].
    apply (In_rewritten u_id (fun r => touch_update c (set_rejected r))
             (updates db) x Hx). }
  split.
  { intros c db childId code Hw Hfresh.
    unfold createUpdateRequest, await_write. rewrite Hw.
    unfold insert_update. simpl.
    apply mem_false_not_In in Hfresh. rewrite Hfresh. simpl.
    eexists. split; [reflexivity |]. repeat split. }
  split.
  { intros c db d ty Hw Hfresh Hty.
    unfold submitUpdate, await_write. rewrite Hw, Hty.
    unfold insert_update. simpl.
    apply mem_false_not_In in Hfresh. rewrite Hfresh. simpl.
    eexists. split; [reflexivity |]. repeat split. }
  split.
  { intros c db row Hw Hok Hin.
    eexists _, _. split; [apply publishUpdate_hit; assumption |].
    split; [| repeat split].
    apply (In_rewritten u_id
             (fun r => touch_update c (set_published (js_clock c) r))
             (updates db) row Hin). }
  { intros c db row Hw Hok Hin.
    eexists _, _. split; [apply rejectUpdate_hit; assumption |].
    split; [| repeat split].
    apply (In_rewritten u_id (fun r => touch_update c (set_rejected r))
             (updates db) row Hin). }
Qed.

(** A Rejected, hidden update is published at 700: the call succeeds,
    the stored row is Published and visible, and the store it leaves has
    the property; so has the store in which that row is rejected again
    at 800. *)
Lemma C2_witness_publish_sets_both :
  exists row' db',
    publishUpdate (Sample.ctx 700 "x") Sample.db_rejected "u1"
    = (Ok (toAirtableUpdateRecord row'), db')
    /\ In row' (updates db')
    /\ u_status row' = Published
    /\ u_visible_to_sponsor row' = true
    /\ visible_iff_published db'
    /\ visible_iff_published
         (step (Sample.ctx 800 "x") (RejectUpdate "u1") db').
Proof.
  pose proof C2_visibility_iff_published as (Hstep & _ & _ & _ & _ & _
                                              & _ & _ & Hpublish & _).
  destruct (Hpublish (Sample.ctx 700 "x") Sample.db_rejected
                     (Sample.update "u1" Rejected false None)
                     eq_refl eq_refl (or_introl eq_refl))
    as (row' & db' & Hcall & Hin & _ & Hst & Hvis).
  exists row', db'.
  assert (Hbefore : visible_iff_published Sample.db_rejected).
  { intros u [<- | []]. simpl. split; discriminate. }
  assert (Hafter : visible_iff_published db').
  { assert (E : step (Sample.ctx 700 "x") (PublishUpdate "u1")
                     Sample.db_rejected = db')
      by (unfold step; simpl u_id in Hcall; rewrite Hcall; reflexivity).
    rewrite <- E. now apply Hstep. }
  repeat (split; [assumption |]).
  now apply Hstep.
Defined.

(** ** Listing a child's updates *)

Section OrderFacts.

Context {A : Type} (key : A -> option Timestamp).

Lemma desc_le_newest_first (a b : option Timestamp) :
  desc_le a b = true <-> newest_first a b.
Proof.
  destruct a as [x |], b as [y |]; simpl;
    rewrite ?Z.leb_le; intuition congruence.
Qed.

Lemma desc_le_total (a b : option Timestamp) :
  desc_le a b = false -> newest_first b a.
Proof.
  destruct a as [x |], b as [y |]; simpl; try discriminate; auto.
  rewrite Z.leb_gt. lia.
Qed.

Lemma newest_first_trans (a b c : option Timestamp) :
  newest_first a b -> newest_first b c -> newest_first a c.
Proof.
  destruct a, b, c; simpl; try tauto. lia.
Qed.

Lemma insert_desc_perm (r : A) (l : list A) :
  Permutation (r :: l) (insert_desc key r l).
Proof.
  induction l as [| x rest IH]; simpl.
  - reflexivity.
  - destruct (desc_le (key r) (key x)).
    + reflexivity.
    + rewrite perm_swap. now apply perm_skip.
Qed.

Lemma order_desc_perm (l : list A) : Permutation l (order_desc key l).
Proof.
  induction l as [| r rest IH]; simpl.
  - reflexivity.
  - rewrite <- insert_desc_perm. now apply perm_skip.
Qed.

Lemma insert_desc_sorted (r : A) (l : list A) :
  StronglySorted (fun a b => newest_first (key a) (key b)) l ->
  StronglySorted (fun a b => newest_first (key a) (key b))
                 (insert_desc key r l).
Proof.
  induction 1 as [| x rest Hrest IH Hx]; simpl.
  - repeat constructor.
  - destruct (desc_le (key r) (key x)) eqn:E.
    + apply desc_le_newest_first in E.
      constructor; [now constructor |].
      constructor; [exact E |].
      eapply Forall_impl; [| exact Hx].
      intros y Hy. eapply newest_first_trans; eauto.
    + apply desc_le_total in E.
      constructor; [exact IH |].
      rewrite <- insert_desc_perm. now constructor.
Qed.

Lemma order_desc_sorted (l : list A) :
  StronglySorted (fun a b => newest_first (key a) (key b))
                 (order_desc key l).
Proof.
  induction l as [| r rest IH]; simpl.
  - constructor.
  - now apply insert_desc_sorted.
Qed.

End OrderFacts.

Section ListingFacts.

Lemma findUpdatesForChild_fine (c : Ctx) (db : Db) (childId : string) :
  weather c = Fine ->
  findUpdatesForChild c db childId
  = Ok (map toAirtableUpdateRecord (findUpdatesForChild_rows db childId)).
Proof.
  intros Hw. unfold findUpdatesForChild, await_read. now rewrite Hw.
Qed.

Lemma UpdateStatus_eqb_eq (a b : UpdateStatus) :
  UpdateStatus_eqb a b = true <-> a = b.
Proof. destruct a, b; simpl; split; congruence. Qed.

Lemma In_rows (db : Db) (childId : string) (r : SupabaseUpdateRow) :
  In r (findUpdatesForChild_rows db childId)
  <-> In r (updates db) /\ u_child_id r = childId
      /\ u_status r = Published /\ u_visible_to_sponsor r = true.
Proof.
  unfold findUpdatesForChild_rows, eq_. split.
  - intros H. apply (Permutation_in _ (Permutation_sym (order_desc_perm _ _)))
      in H.
    repeat (apply filter_In in H; destruct H as [H ?]).
    rewrite String.eqb_eq in *. rewrite UpdateStatus_eqb_eq in *.
    rewrite Bool.eqb_true_iff in *. auto.
  - intros (Hin & Hc & Hs & Hv).
    apply (Permutation_in _ (order_desc_perm _ _)).
    repeat (apply filter_In; split); auto.
    + now apply String.eqb_eq.
    + now apply UpdateStatus_eqb_eq.
    + now apply Bool.eqb_true_iff.
Qed.

Lemma filter_twice {A} (p q : A -> bool) (l : list A) :
  filter q (filter p l) = filter (fun x => p x && q x) l.
Proof.
  induction l as [| x rest IH]; simpl; [reflexivity |].
  destruct (p x); simpl; [destruct (q x) |]; now rewrite IH.
Qed.

Lemma rows_perm (db : Db) (childId : string) :
  Permutation
    (findUpdatesForChild_rows db childId)
    (filter (fun r => (u_child_id r =? childId)
                      && UpdateStatus_eqb (u_status r) Published
                      && Bool.eqb (u_visible_to_sponsor r) true)
            (updates db)).
Proof.
  unfold findUpdatesForChild_rows, eq_. rewrite <- order_desc_perm.
  rewrite !filter_twice.
  erewrite filter_ext; [reflexivity |].
  intros r. simpl. now rewrite andb_assoc.
Qed.

End ListingFacts.

(** C7.  With the store answering, findUpdatesForChild returns the
    conversion of exactly the stored updates of that child that are
    Published and visible (each as often as it is stored), newest
    publication first (a row without publication time, if there is one,
    stands first).  An update that createUpdateRequest has just created is
    not in the list for its child, and once publishUpdate has run on it,
    it is. *)
Theorem C7_list_for_child :
  (forall c db childId,
      weather c = Fine ->
      exists rows,
        findUpdatesForChild c db childId
        = Ok (map toAirtableUpdateRecord rows)
        /\ Permutation rows
             (filter (fun r => (u_child_id r =? childId)
                               && UpdateStatus_eqb (u_status r) Published
                               && Bool.eqb (u_visible_to_sponsor r) true)
                     (updates db))
        /\ (forall r, In r rows
                      <-> In r (updates db) /\ u_child_id r = childId
                          /\ u_status r = Published
                          /\ u_visible_to_sponsor r = true)
        /\ StronglySorted
             (fun a b => newest_first (published_at a) (published_at b))
             rows)
  /\ (forall c1 c2 c3 c4 db db1 childId code rec,
         constraints_ok db = true ->
         createUpdateRequest c1 db childId code = (Ok rec, db1) ->
         weather c2 = Fine -> weather c3 = Fine -> weather c4 = Fine ->
         (exists before,
             findUpdatesForChild c2 db1 childId = Ok before
             /\ ~ In (r_id rec) (map r_id before))
         /\ (exists published db2 after,
                publishUpdate c3 db1 (r_id rec) = (Ok published, db2)
                /\ findUpdatesForChild c4 db2 childId = Ok after
                /\ r_id published = r_id rec
                /\ In published after)).
Proof.
  split.
  - intros c db childId Hw. exists (findUpdatesForChild_rows db childId).
    split; [now apply findUpdatesForChild_fine |].
    split; [apply rows_perm |].
    split; [apply In_rows |].
    apply order_desc_sorted.
  - intros c1 c2 c3 c4 db db1 childId code rec Hok Hcreate Hw2 Hw3 Hw4.
    apply createUpdateRequest_ok in Hcreate.
    destruct Hcreate as (row & -> & -> & Hfresh & Hchild & Hst & Hvis).
    split.
    + eexists. split; [now apply findUpdatesForChild_fine |].
      rewrite map_map. simpl. intros Hin.
      apply in_map_iff in Hin. destruct Hin as (r & Hid & Hr).
      apply In_rows in Hr. simpl in Hr.
      destruct Hr as (Hr & _ & Hpub & _).
      apply in_app_or in Hr. destruct Hr as [Hr | [<- | []]].
      * apply Hfresh. rewrite <- Hid. now apply in_map.
      * congruence.
    + set (db1 := {| sponsorships := sponsorships db;
                     updates := updates db ++ [row] |}).
      assert (Hok1 : constraints_ok db1 = true).
      { unfold constraints_ok in *. simpl.
        rewrite !andb_true_iff in *. destruct Hok as [[H1 H2] H3].
        repeat split; auto.
        rewrite map_app. simpl. apply distinct_app_fresh; auto.
        now apply mem_false_not_In. }
      assert (Hin1 : In row (updates db1))
        by (simpl; apply in_or_app; simpl; auto).
      eexists _, _, _.
      split; [simpl r_id; now apply publishUpdate_hit |].
      split; [now apply findUpdatesForChild_fine |].
      split; [reflexivity |].
      apply in_map. apply In_rows. simpl updates.
      split; [| simpl; auto].
      apply (In_rewritten u_id
               (fun r => touch_update c3 (set_published (js_clock c3) r))
               (updates db1) row Hin1).
Qed.

(** A sponsor's request for child CH-7 is absent from the child's list,
    and listed once published. *)
Lemma C7_witness_request_then_publish :
  exists rec db1,
    createUpdateRequest (Sample.ctx 300 "u9") Sample.db_one_sponsor
                        "CH-7" "BAN-2025-104"
    = (Ok rec, db1)
    /\ (exists before,
           findUpdatesForChild (Sample.ctx 310 "x") db1 "CH-7" = Ok before
           /\ ~ In (r_id rec) (map r_id before))
    /\ (exists published db2 after,
           publishUpdate (Sample.ctx 320 "x") db1 (r_id rec)
           = (Ok published, db2)
           /\ findUpdatesForChild (Sample.ctx 330 "x") db2 "CH-7" = Ok after
           /\ r_id published = r_id rec
           /\ In published after).
Proof.
  eexists _, _. split; [reflexivity |].
  apply (proj2 C7_list_for_child
               (Sample.ctx 300 "u9") (Sample.ctx 310 "x")
               (Sample.ctx 320 "x") (Sample.ctx 330 "x")
               Sample.db_one_sponsor _ "CH-7" "BAN-2025-104");
    reflexivity.
Defined.

(** ** Repeating a review decision *)

Section RepeatFacts.

Lemma set_rejected_fixed (row : SupabaseUpdateRow) :
  u_status row = Rejected ->
  u_visible_to_sponsor row = false ->
  set_rejected row = row.
Proof.
  destruct row; simpl. intros -> ->. reflexivity.
Qed.

End RepeatFacts.

(** C5, as the code has it.  A repeated decision is never refused.
    rejectUpdate on a stored update that is already Rejected succeeds and
    keeps its publication time; when the row is hidden, as a Rejected row
    is, nothing in it changes but the store's own [updated_at] stamp (the
    updates table has no rejection reason).  publishUpdate on a stored
    update that is already Published succeeds as well, keeps status and
    visibility, and sets [published_at] to the time of this second call. *)
Theorem C5_repeat_reject_keeps_repeat_publish_restamps
        (c : Ctx) (db : Db) (row : SupabaseUpdateRow) :
  weather c = Fine ->
  constraints_ok db = true ->
  In row (updates db) ->
  (u_status row = Rejected ->
   exists row' db',
     rejectUpdate c db (u_id row) = (Ok (toAirtableUpdateRecord row'), db')
     /\ In row' (updates db')
     /\ u_id row' = u_id row
     /\ u_status row' = Rejected
     /\ published_at row' = published_at row
     /\ (u_visible_to_sponsor row = false -> row' = touch_update c row))
  /\ (u_status row = Published ->
      exists row' db',
        publishUpdate c db (u_id row) = (Ok (toAirtableUpdateRecord row'), db')
        /\ In row' (updates db')
        /\ u_id row' = u_id row
        /\ u_status row' = Published
        /\ u_visible_to_sponsor row' = true
        /\ published_at row' = Some (js_clock c)).
Proof.
  intros Hw Hok Hin. split; intros Hst.
  - exists (touch_update c (set_rejected row)). eexists.
    split; [now apply rejectUpdate_hit |].
    split.
    { apply (In_rewritten u_id (fun r => touch_update c (set_rejected r))
               (updates db) row Hin). }
    repeat split. intros Hvis. now rewrite set_rejected_fixed.
  - exists (touch_update c (set_published (js_clock c) row)). eexists.
    split; [now apply publishUpdate_hit |].
    split; [| repeat split].
    apply (In_rewritten u_id
             (fun r => touch_update c (set_published (js_clock c) r))
             (updates db) row Hin).
Qed.

(** An update published at 100 and published again at 500 carries 500. *)
Lemma C5_witness_second_publish :
  u_status (Sample.update "u1" Published true (Some 100)) = Published
  /\ exists row' db',
      publishUpdate (Sample.ctx 500 "x") Sample.db_published "u1"
      = (Ok (toAirtableUpdateRecord row'), db')
      /\ In row' (updates db')
      /\ u_id row' = "u1"
      /\ u_status row' = Published
      /\ u_visible_to_sponsor row' = true
      /\ published_at row' = Some 500.
Proof.
  split; [reflexivity |].
  apply (proj2 (C5_repeat_reject_keeps_repeat_publish_restamps
                  (Sample.ctx 500 "x") Sample.db_published
                  (Sample.update "u1" Published true (Some 100))
                  eq_refl eq_refl (or_introl eq_refl))).
  reflexivity.
Defined.

(** C5 as stated fails: the update published at 100 is published a second
    time at 500; the call is not refused, and the stored row no longer
    carries 100. *)
Lemma C5_counterexample_second_publish_restamps :
  ~ (let (result, db') :=
       publishUpdate (Sample.ctx 500 "x") Sample.db_published "u1" in
     (exists e, result = Throw e)
     \/ (forall row, In row (updates db') -> u_id row = "u1" ->
                     published_at row = Some 100)).
Proof.
  vm_compute. intros [[e He] | Hkept].
  - discriminate He.
  - specialize (Hkept _ (or_introl eq_refl) eq_refl). discriminate Hkept.
Qed.

(** ** Sponsorship writes *)

Section SponsorshipFacts.

Lemma map_key_rewritten {A} (key : A -> string) (hit : A -> bool)
      (f : A -> A) (rows : list A) :
  (forall r, key (f r) = key r) ->
  map key (map (fun r => if hit r then f r else r) rows) = map key rows.
Proof.
  intros Hkey. rewrite map_map. apply map_ext.
  intros r. now destruct (hit r).
Qed.

(** updateSponsorshipRequestTracking with the store answering: the
    statement runs whatever the rows hold. *)
Lemma updateSponsorshipRequestTracking_fine
      (c : Ctx) (db : Db) (recordId : string)
      (lastRequestAt nextEligibleAt : Timestamp) :
  weather c = Fine ->
  constraints_ok db = true ->
  updateSponsorshipRequestTracking c db recordId lastRequestAt
                                   nextEligibleAt
  = (Ok tt,
     {| sponsorships :=
          map (fun r =>
                 if id r =? recordId
                 then touch_sponsorship c
                        (set_request_tracking lastRequestAt nextEligibleAt r)
                 else r)
              (sponsorships db);
        updates := updates db |}).
Proof.
  intros Hw Hok.
  unfold updateSponsorshipRequestTracking, await_write, update_sponsorships.
  rewrite Hw.
  rewrite (map_key_rewritten sponsor_code) by reflexivity.
  unfold constraints_ok in Hok. rewrite !andb_true_iff in Hok.
  destruct Hok as [[_ ->] _]. reflexivity.
Qed.

End SponsorshipFacts.

(** ** Sponsor codes *)

Section CodeFacts.

Lemma insert_sponsorship_cases (c : Ctx) (db : Db)
      (row : SupabaseSponsorshipRow) :
  (~ In (id row) (map id (sponsorships db))
   /\ ~ In (sponsor_code row) (map sponsor_code (sponsorships db))
   /\ insert_sponsorship c db row
      = (success row,
         {| sponsorships := sponsorships db ++ [row];
            updates := updates db |}))
  \/ ((In (id row) (map id (sponsorships db))
       \/ In (sponsor_code row) (map sponsor_code (sponsorships db)))
      /\ insert_sponsorship c db row = (failure unique_violation, db)).
Proof.
  unfold insert_sponsorship.
  destruct (mem (id row) (map id (sponsorships db))) eqn:E1; simpl.
  - right. split; [left; now apply mem_In | reflexivity].
  - destruct (mem (sponsor_code row)
                  (map sponsor_code (sponsorships db))) eqn:E2.
    + right. split; [right; now apply mem_In | reflexivity].
    + left. repeat split; now apply mem_false_not_In.
Qed.

Lemma update_sponsorships_single_cases (c : Ctx) (db : Db)
      (set : SupabaseSponsorshipRow -> SupabaseSponsorshipRow)
      (key : string) :
  let rows' := map (fun r => if id r =? key
                             then touch_sponsorship c (set r) else r)
                   (sponsorships db) in
  (distinct (map sponsor_code rows') = true
   /\ exists x,
       In x (sponsorships db) /\ id x = key
       /\ update_sponsorships_single c db set key
          = (success (touch_sponsorship c (set x)),
             {| sponsorships := rows'; updates := updates db |}))
  \/ exists e, update_sponsorships_single c db set key = (failure e, db).
Proof.
  intros rows'. unfold update_sponsorships_single. fold rows'.
  destruct (distinct (map sponsor_code rows')) eqn:Ecodes;
    [| right; eexists; reflexivity].
  destruct (filter (fun r => id r =? key) rows')
    as [| r [| r2 rest]] eqn:E; simpl;
    try (right; eexists; reflexivity).
  left. split; [reflexivity |].
  assert (Hr : In r (filter (fun r => id r =? key) rows'))
    by (rewrite E; now left).
  apply filter_In in Hr. destruct Hr as [Hr Hkey].
  apply in_map_iff in Hr. destruct Hr as (x & Hx & Hin).
  exists x. destruct (id x =? key) eqn:Ex.
  - apply String.eqb_eq in Ex. subst r. auto.
  - subst r. congruence.
Qed.

Lemma constraints_ok_intro (db : Db) :
  distinct (map id (sponsorships db)) = true ->
  distinct (map sponsor_code (sponsorships db)) = true ->
  distinct (map u_id (updates db)) = true ->
  constraints_ok db = true.
Proof.
  intros H1 H2 H3. unfold constraints_ok. now rewrite H1, H2, H3.
Qed.

Lemma constraints_ok_elim (db : Db) :
  constraints_ok db = true ->
  distinct (map id (sponsorships db)) = true
  /\ distinct (map sponsor_code (sponsorships db)) = true
  /\ distinct (map u_id (updates db)) = true.
Proof.
  unfold constraints_ok. rewrite !andb_true_iff. tauto.
Qed.

Lemma review_step_constraints (c : Ctx) (call : Lifecycle.Call) (db : Db) :
  constraints_ok db = true -> constraints_ok (Lifecycle.step c call db) = true.
Proof.
  intros Hok. destruct (constraints_ok_elim db Hok) as (H1 & H2 & H3).
  destruct call as [childId code | d | key | key]; simpl.
  - unfold createUpdateRequest, await_write.
    destruct (weather c); simpl; auto;
      match goal with
      | |- context [insert_update c db ?row] =>
          destruct (insert_update_cases c db row) as [[Hfresh ->] | ->]
      end; simpl; auto;
      apply constraints_ok_intro; simpl; auto;
      rewrite map_app; apply distinct_app_fresh; auto;
      now apply mem_false_not_In.
  - unfold submitUpdate, await_write.
    destruct (weather c); simpl; auto;
      destruct (parse_update_type (su_updateType d)); simpl; auto;
      match goal with
      | |- context [insert_update c db ?row] =>
          destruct (insert_update_cases c db row) as [[Hfresh ->] | ->]
      end; simpl; auto;
      apply constraints_ok_intro; simpl; auto;
      rewrite map_app; apply distinct_app_fresh; auto;
      now apply mem_false_not_In.
  - unfold publishUpdate, await_write.
    destruct (weather c); simpl; auto;
      destruct (update_updates_single_cases c db
                  (set_published (js_clock c)) key)
        as [(x & _ & _ & ->) | ->]; simpl; auto;
      apply constraints_ok_intro; simpl; auto;
      now rewrite (map_key_rewritten u_id).
  - unfold rejectUpdate, await_write.
    destruct (weather c); simpl; auto;
      destruct (update_updates_single_cases c db set_rejected key)
        as [(x & _ & _ & ->) | ->]; simpl; auto;
      apply constraints_ok_intro; simpl; auto;
      now rewrite (map_key_rewritten u_id).
Qed.

Lemma write_step_constraints (c : Ctx) (call : Writes.Call) (db : Db) :
  constraints_ok db = true -> constraints_ok (Writes.step c call db) = true.
Proof.
  intros Hok. destruct (constraints_ok_elim db Hok) as (H1 & H2 & H3).
  destruct call as [d | key d | key t1 t2 | call]; simpl.
  - unfold createSponsorship, await_write.
    destruct (weather c); simpl; auto;
      match goal with
      | |- context [insert_sponsorship c db ?row] =>
          destruct (insert_sponsorship_cases c db row)
          as [(Hid & Hcode & ->) | [_ ->]]
      end; simpl; auto;
      apply constraints_ok_intro; simpl; auto;
      rewrite map_app; apply distinct_app_fresh; auto;
      now apply mem_false_not_In.
  - unfold assignSponsorToChild, await_write.
    destruct (weather c); simpl; auto;
      destruct (update_sponsorships_single_cases c db (set_assigned c d) key)
        as [(Hcodes & x & _ & _ & ->) | (e & ->)]; simpl; auto;
      apply constraints_ok_intro; simpl; auto;
      now rewrite (map_key_rewritten id).
  - unfold updateSponsorshipRequestTracking, await_write,
      update_sponsorships.
    destruct (weather c); simpl; auto;
      rewrite (map_key_rewritten sponsor_code) by reflexivity;
      rewrite H2; simpl;
      apply constraints_ok_intro; simpl; auto;
      first [now rewrite (map_key_rewritten id)
            | now rewrite (map_key_rewritten sponsor_code)].
  - now apply review_step_constraints.
Qed.

Lemma write_run_constraints (calls : list (Ctx * Writes.Call)) :
  forall db, constraints_ok db = true ->
             constraints_ok (Writes.run calls db) = true.
Proof.
  induction calls as [| [c call] rest IH]; simpl; intros db Hok.
  - exact Hok.
  - apply IH. now apply write_step_constraints.
Qed.

End CodeFacts.

(** C8, as the code has it.  The store operation that records a request,
    updateSponsorshipRequestTracking, is an update by record id alone:
    with the store answering it succeeds whatever the row's current
    [next_request_eligible_at] is, and leaves the given two timestamps in
    every row of that id.  It denies nothing, a check of eligibility is no
    part of it: a second write for the same record succeeds as well,
    whatever the first one stored, and overwrites it. *)
Theorem C8_request_tracking_is_unconditional
        (c : Ctx) (db : Db) (recordId : string)
        (lastRequestAt nextEligibleAt : Timestamp) :
  weather c = Fine ->
  constraints_ok db = true ->
  exists db',
    updateSponsorshipRequestTracking c db recordId lastRequestAt
                                     nextEligibleAt
    = (Ok tt, db')
    /\ updates db' = updates db
    /\ map id (sponsorships db') = map id (sponsorships db)
    /\ (forall row',
           In row' (sponsorships db') -> id row' = recordId ->
           last_request_at row' = Some lastRequestAt
           /\ next_request_eligible_at row' = Some nextEligibleAt)
    /\ (forall row,
           In row (sponsorships db) -> id row <> recordId ->
           In row (sponsorships db'))
    /\ (forall c2 lastRequestAt2 nextEligibleAt2,
           weather c2 = Fine ->
           exists db2,
             updateSponsorshipRequestTracking c2 db' recordId lastRequestAt2
                                              nextEligibleAt2
             = (Ok tt, db2)
             /\ forall row2,
                 In row2 (sponsorships db2) -> id row2 = recordId ->
                 last_request_at row2 = Some lastRequestAt2
                 /\ next_request_eligible_at row2 = Some nextEligibleAt2).
Proof.
  intros Hw Hok.
  assert (Hrows :
            forall c0 db0 t1 t2 row',
              In row'
                 (map (fun r =>
                         if id r =? recordId
                         then touch_sponsorship c0 (set_request_tracking t1 t2 r)
                         else r)
                      (sponsorships db0)) ->
              id row' = recordId ->
              last_request_at row' = Some t1
              /\ next_request_eligible_at row' = Some t2).
  { intros c0 db0 t1 t2 row' Hin Hid. apply in_map_iff in Hin.
    destruct Hin as (r & <- & _).
    destruct (id r =? recordId) eqn:E; [simpl; auto |].
    apply String.eqb_neq in E. contradiction. }
  eexists.
  split; [now apply updateSponsorshipRequestTracking_fine |]. simpl.
  split; [reflexivity |].
  split; [now apply map_key_rewritten |].
  split; [apply Hrows |].
  split.
  - intros row Hin Hid. apply in_map_iff. exists row.
    apply String.eqb_neq in Hid. now rewrite Hid.
  - intros c2 t1 t2 Hw2.
    pose proof (write_step_constraints c
                  (Writes.UpdateSponsorshipRequestTracking
                     recordId lastRequestAt nextEligibleAt) db Hok) as Hok'.
    simpl in Hok'.
    rewrite updateSponsorshipRequestTracking_fine in Hok' by assumption.
    simpl in Hok'.
    eexists.
    split; [now apply updateSponsorshipRequestTracking_fine |].
    intros row2 Hin2 Hid2. exact (Hrows c2 _ t1 t2 row2 Hin2 Hid2).
Qed.

(** A sponsorship not eligible before 1000: recording a request at 500
    goes through. *)
Lemma C8_witness_write_while_ineligible :
  exists db',
    updateSponsorshipRequestTracking
      (Sample.ctx 500 "x")
      {| sponsorships :=
           [Sample.sponsorship "s1" "BAN-2025-104" "a@x.com" Active true
                               (Some 1000)];
         updates := [] |}
      "s1" 500 1500
    = (Ok tt, db')
    /\ forall row', In row' (sponsorships db') -> id row' = "s1" ->
                    last_request_at row' = Some 500
                    /\ next_request_eligible_at row' = Some 1500.
Proof.
  destruct (C8_request_tracking_is_unconditional
              (Sample.ctx 500 "x")
              {| sponsorships :=
                   [Sample.sponsorship "s1" "BAN-2025-104" "a@x.com" Active
                                       true (Some 1000)];
                 updates := [] |}
              "s1" 500 1500 eq_refl eq_refl)
    as (db' & Hrun & _ & _ & Hrows & _ & _).
  exists db'. split; [exact Hrun | exact Hrows].
Defined.

(** C8 as stated fails: for a sponsorship eligible since 100, a request
    is recorded at 500 with the next one due at 1500, and a second one at
    501.  It is not the case that one of the two succeeds and the other is
    denied: both succeed, the second although the store then says 1500. *)
Lemma C8_counterexample_both_writes_succeed :
  ~ (let (first, db1) :=
       updateSponsorshipRequestTracking
         (Sample.ctx 500 "x") Sample.db_eligible_since_100 "s1" 500 1500 in
     let (second, db2) :=
       updateSponsorshipRequestTracking
         (Sample.ctx 501 "y") db1 "s1" 501 1501 in
     (first = Ok tt /\ exists e, second = Throw e)
     \/ ((exists e, first = Throw e) /\ second = Ok tt)).
Proof.
  vm_compute. intros [[_ (e & He)] | [(e & He) _]]; discriminate He.
Qed.

Section AssignFacts.

Lemma distinct_codes_reassigned (rows : list SupabaseSponsorshipRow)
      (key newcode : string)
      (f : SupabaseSponsorshipRow -> SupabaseSponsorshipRow) :
  (forall r, sponsor_code (f r) = newcode) ->
  distinct (map id rows) = true ->
  distinct (map sponsor_code rows) = true ->
  ~ In newcode (map sponsor_code rows) ->
  distinct (map sponsor_code
                (map (fun r => if id r =? key then f r else r) rows))
  = true.
Proof.
  intros Hf. induction rows as [| x rest IH]; simpl; [reflexivity |].
  rewrite !andb_true_iff, !negb_true_iff, !mem_false_not_In.
  intros [Hid Hids] [Hcode Hcodes] Hnew.
  destruct (id x =? key) eqn:E.
  - apply String.eqb_eq in E. subst key.
    destruct (select_absent id f rest (id x) Hid) as [-> _].
    rewrite Hf. split; [tauto | exact Hcodes].
  - split; [| apply IH; tauto].
    intros Hin. apply in_map_iff in Hin. destruct Hin as (y & Hy & Hin).
    apply in_map_iff in Hin. destruct Hin as (r & <- & Hr).
    destruct (id r =? key).
    + rewrite Hf in Hy. apply Hnew. left. congruence.
    + apply Hcode. rewrite <- Hy. now apply in_map.
Qed.

(** assignSponsorToChild on a stored record, with a code no record
    carries: the record is rewritten with that code. *)
Lemma assignSponsorToChild_hit (c : Ctx) (db : Db)
      (row : SupabaseSponsorshipRow) (d : SponsorData) :
  weather c = Fine ->
  constraints_ok db = true ->
  In row (sponsorships db) ->
  ~ In (as_sponsorCode d) (map sponsor_code (sponsorships db)) ->
  assignSponsorToChild c db (id row) d
  = (Ok (toAirtableSponsorshipRecord
           (touch_sponsorship c (set_assigned c d row))),
     {| sponsorships :=
          map (fun r => if id r =? id row
                        then touch_sponsorship c (set_assigned c d r)
                        else r)
              (sponsorships db);
        updates := updates db |}).
Proof.
  intros Hw Hok Hin Hfresh.
  destruct (constraints_ok_elim db Hok) as (H1 & H2 & _).
  unfold assignSponsorToChild, await_write, update_sponsorships_single.
  rewrite Hw.
  rewrite distinct_codes_reassigned with (newcode := as_sponsorCode d);
    auto.
  rewrite (select_rewritten id
             (fun r => touch_sponsorship c (set_assigned c d r))
             (sponsorships db) row); auto.
Qed.

Lemma createSponsorship_ok (c : Ctx) (db db' : Db)
      (d : CreateSponsorshipData) (rec : AirtableSponsorshipRecord) :
  createSponsorship c db d = (Ok rec, db') ->
  exists row,
    rec = toAirtableSponsorshipRecord row
    /\ sponsor_code row = generateSponsorCode c
    /\ ~ In (sponsor_code row) (map sponsor_code (sponsorships db))
    /\ db' = {| sponsorships := sponsorships db ++ [row];
                updates := updates db |}.
Proof.
  unfold createSponsorship, await_write.
  destruct (weather c); simpl; try discriminate.
  match goal with
  | |- context [insert_sponsorship c db ?row] =>
      destruct (insert_sponsorship_cases c db row)
        as [(Hid & Hcode & ->) | [_ ->]];
      simpl; try discriminate; intros H; exists row
  end.
  inversion H; subst. auto.
Qed.

Lemma createSponsorship_collision (c : Ctx) (db : Db)
      (d : CreateSponsorshipData) :
  weather c = Fine ->
  In (generateSponsorCode c) (map sponsor_code (sponsorships db)) ->
  createSponsorship c db d
  = (Throw (DatabaseError "Failed to create sponsorship"), db).
Proof.
  intros Hw Hin. unfold createSponsorship, await_write, insert_sponsorship.
  rewrite Hw. simpl.
  apply mem_In in Hin. rewrite Hin, orb_true_r. reflexivity.
Qed.

End AssignFacts.

(** C9, as the code has it.  The sponsor codes of the stored sponsorships
    are pairwise different in every store the layer's writes reach from
    the empty one: the store's UNIQUE constraint sees to it.
    createSponsorship builds its code from the year and the draw alone,
    without looking at the store; when it succeeds the code is carried by
    no other record, and when a record already carries the code it fails
    with DatabaseError and stores nothing.  A code is not fixed for the
    life of its record: assignSponsorToChild on a stored record, with a
    code no record carries, succeeds and leaves the record with that
    code. *)
Theorem C9_codes_unique_but_reassignable :
  (forall calls,
      NoDup (map sponsor_code (sponsorships (Writes.run calls Pg.empty))))
  /\ (forall c db db' d rec,
         createSponsorship c db d = (Ok rec, db') ->
         SponsorCode (s_fields rec) = generateSponsorCode c
         /\ ~ In (generateSponsorCode c)
                 (map sponsor_code (sponsorships db)))
  /\ (forall c db d,
         weather c = Fine ->
         In (generateSponsorCode c) (map sponsor_code (sponsorships db)) ->
         createSponsorship c db d
         = (Throw (DatabaseError "Failed to create sponsorship"), db))
  /\ (forall c1 c2,
         js_year c1 = js_year c2 -> js_draw c1 = js_draw c2 ->
         generateSponsorCode c1 = generateSponsorCode c2)
  /\ (forall c db row d,
         weather c = Fine ->
         constraints_ok db = true ->
         In row (sponsorships db) ->
         ~ In (as_sponsorCode d) (map sponsor_code (sponsorships db)) ->
         exists row' db',
           assignSponsorToChild c db (id row) d
           = (Ok (toAirtableSponsorshipRecord row'), db')
           /\ In row' (sponsorships db')
           /\ id row' = id row
           /\ sponsor_code row' = as_sponsorCode d).
Proof.
  split.
  { intros calls. apply distinct_NoDup.
    apply (constraints_ok_elim _ (write_run_constraints calls Pg.empty eq_refl)). }
  split.
  { intros c db db' d rec H. apply createSponsorship_ok in H.
    destruct H as (row & -> & Hcode & Hfresh & _). simpl.
    rewrite <- Hcode. auto. }
  split; [exact createSponsorship_collision |].
  split.
  { intros c1 c2 Hy Hd. unfold generateSponsorCode. now rewrite Hy, Hd. }
  intros c db row d Hw Hok Hin Hfresh.
  eexists _, _. split; [now apply assignSponsorToChild_hit |].
  split; [| split; reflexivity].
  apply (In_rewritten id (fun r => touch_sponsorship c (set_assigned c d r))
           (sponsorships db) row Hin).
Qed.

(** A second createSponsorship in the same year with the same draw fails
    on the code of the first. *)
Lemma C9_witness_same_draw_fails :
  exists rec db1,
    createSponsorship
      (Sample.ctx 400 "s2") Pg.empty
      {| cs_sponsorEmail := "a@x.com"; cs_sponsorName := None;
         cs_childId := "CH-7"; cs_childDisplayName := "Okello";
         cs_childPhoto := None; cs_childAge := None;
         cs_childLocation := None |}
    = (Ok rec, db1)
    /\ SponsorCode (s_fields rec) = "BAN-2025-104"
    /\ createSponsorship
         (Sample.ctx 450 "s3") db1
         {| cs_sponsorEmail := "b@y.org"; cs_sponsorName := None;
            cs_childId := "CH-8"; cs_childDisplayName := "Akello";
            cs_childPhoto := None; cs_childAge := None;
            cs_childLocation := None |}
       = (Throw (DatabaseError "Failed to create sponsorship"), db1).
Proof.
  eexists _, _. split; [reflexivity |]. split; [reflexivity |].
  apply (proj1 (proj2 (proj2 C9_codes_unique_but_reassignable))).
  - reflexivity.
  - simpl. left. reflexivity.
Defined.

(** C9 as stated fails: the sponsorship created with code BAN-2025-104
    does not keep it; after assignSponsorToChild the same record carries
    BAN-2026-555. *)
Lemma C9_counterexample_code_replaced :
  ~ (let (result, db') :=
       assignSponsorToChild
         (Sample.ctx 600 "x") Sample.db_one_sponsor "s1"
         {| as_sponsorEmail := "b@y.org"; as_sponsorName := None;
            as_sponsorCode := "BAN-2026-555" |} in
     forall row, In row (sponsorships db') -> id row = "s1" ->
                 sponsor_code row = "BAN-2025-104").
Proof.
  vm_compute. intros Hkept.
  specialize (Hkept _ (or_introl eq_refl) eq_refl). discriminate Hkept.
Qed.

(** ** Credential and session checks *)

Section QueryFacts.

Lemma AuthStatus_eqb_eq (a b : AuthStatus) :
  AuthStatus_eqb a b = true <-> a = b.
Proof. destruct a, b; simpl; split; congruence. Qed.

(** [.limit(1).single()]: the first selected row, or PGRST116. *)
Lemma single_limit_1 {A} (rows : list A) :
  single (limit 1 rows)
  = match rows with
    | [] => failure PGRST116
    | r :: _ => success r
    end.
Proof. destruct rows as [| r [| r2 rest]]; reflexivity. Qed.

Lemma first_selected {A} (p : A -> bool) (rows : list A) :
  match filter p rows with
  | [] => forall r, In r rows -> p r = false
  | r :: _ => In r rows /\ p r = true
  end.
Proof.
  destruct (filter p rows) as [| r rest] eqn:E.
  - intros r Hr. destruct (p r) eqn:Ep; [| reflexivity].
    assert (H : In r (filter p rows)) by (apply filter_In; auto).
    rewrite E in H. contradiction.
  - apply filter_In. rewrite E. now left.
Qed.

Lemma by_code_filter (code : string) (rows : list SupabaseSponsorshipRow) :
  eq_ (fun r => Bool.eqb (visible_to_sponsor r) true)
      (eq_ (fun r => AuthStatus_eqb (auth_status r) Active)
           (eq_ (fun r => sponsor_code r =? code) rows))
  = filter (fun r => (sponsor_code r =? code)
                     && AuthStatus_eqb (auth_status r) Active
                     && Bool.eqb (visible_to_sponsor r) true)
           rows.
Proof.
  unfold eq_. rewrite !filter_twice. apply filter_ext.
  intros r. simpl. now rewrite andb_assoc.
Qed.

Lemma by_code_true (code : string) (r : SupabaseSponsorshipRow) :
  (sponsor_code r =? code) && AuthStatus_eqb (auth_status r) Active
  && Bool.eqb (visible_to_sponsor r) true = true
  <-> by_code code r.
Proof.
  unfold by_code.
  rewrite !andb_true_iff, String.eqb_eq, AuthStatus_eqb_eq,
    Bool.eqb_true_iff. tauto.
Qed.

(** findSponsorshipByCode with the store answering. *)
Lemma findSponsorshipByCode_fine (c : Ctx) (db : Db) (code : string) :
  weather c = Fine ->
  (exists row,
      In row (sponsorships db) /\ by_code code row
      /\ findSponsorshipByCode c db code
         = Ok (Some (toAirtableSponsorshipRecord row)))
  \/ ((forall row, In row (sponsorships db) -> ~ by_code code row)
      /\ findSponsorshipByCode c db code = Ok None).
Proof.
  intros Hw. unfold findSponsorshipByCode, await_read. rewrite Hw.
  rewrite single_limit_1, by_code_filter.
  match goal with
  | |- context [filter ?p ?rows] =>
      pose proof (first_selected p rows) as H;
      destruct (filter p rows) as [| r rest]
  end; simpl.
  - right. split; [| reflexivity].
    intros row Hin Hrow. apply by_code_true in Hrow.
    rewrite (H row Hin) in Hrow. discriminate.
  - left. exists r. destruct H as [Hin Hp].
    apply by_code_true in Hp. auto.
Qed.

(** Whatever the store does, a record findSponsorshipByCode returns is
    a stored row that satisfies the query's predicate. *)
Lemma findSponsorshipByCode_some (c : Ctx) (db : Db) (code : string)
      (rec : AirtableSponsorshipRecord) :
  findSponsorshipByCode c db code = Ok (Some rec) ->
  exists row,
    In row (sponsorships db) /\ by_code code row
    /\ rec = toAirtableSponsorshipRecord row.
Proof.
  destruct (weather c) eqn:Hw.
  - destruct (findSponsorshipByCode_fine c db code Hw)
      as [(row & Hin & Hrow & ->) | [_ ->]]; [| discriminate].
    intros H. inversion H. eauto.
  - unfold findSponsorshipByCode, await_read. rewrite Hw. discriminate.
  - unfold findSponsorshipByCode, await_read. rewrite Hw. simpl.
    unfold error_other_than_PGRST116. simpl.
    destruct (negb _); discriminate.
  - unfold findSponsorshipByCode, await_read. rewrite Hw. discriminate.
  - unfold findSponsorshipByCode, await_read. rewrite Hw. discriminate.
Qed.

End QueryFacts.

Section SessionFacts.

Variable JSON_parse : string -> option SessionData.
Variable Date_parse : string -> option Timestamp.

(** getSession gives a session exactly when the cookie is there, its
    text parses, and its expiry does not lie before the clock. *)
Lemma getSession_some (c : Ctx) (sessionCookie : option string)
      (session : SessionData) :
  getSession JSON_parse Date_parse c sessionCookie = Some session
  <-> exists value,
      sessionCookie = Some value
      /\ JSON_parse value = Some session
      /\ ~ (exists t, Date_parse (expires session) = Some t
                      /\ (t < js_clock c)%Z).
Proof.
  unfold getSession, date_lt. split.
  - destruct sessionCookie as [value |]; [| discriminate].
    destruct (JSON_parse value) as [s |] eqn:Hparse; [| discriminate].
    destruct (Date_parse (expires s)) as [t |] eqn:Hdate.
    + destruct (t <? js_clock c)%Z eqn:Hlt; [discriminate |].
      intros H. inversion H; subst. exists value.
      repeat split; auto. intros (t' & Ht' & Hbefore).
      rewrite Hdate in Ht'. inversion Ht'; subst.
      apply Z.ltb_ge in Hlt. lia.
    + intros H. inversion H; subst. exists value.
      repeat split; auto. intros (t' & Ht' & _). congruence.
  - intros (value & -> & -> & Hlive).
    destruct (Date_parse (expires session)) as [t |]; [| reflexivity].
    destruct (t <? js_clock c)%Z eqn:Hlt; [| reflexivity].
    exfalso. apply Hlive. exists t. split; [reflexivity |].
    now apply Z.ltb_lt.
Qed.

(** What holds of verifySession.  It returns a sponsorship record only
    when the session cookie is there, its text parses, its expiry does
    not lie before the clock (an expiry that is no date does not), and
    the store holds a sponsorship with the
    session's sponsor code, activation Active and visibility true, which
    is the record returned.  Without a cookie, with a cookie that does
    not parse, and with an expiry before the clock it returns None
    without consulting the store (no error is raised for an expired
    session); with a live session and the store answering it returns
    None when the store holds no such sponsorship, and a record when it
    does. *)
Theorem verifySession_outcomes (c : Ctx) (db : Db) (sessionCookie : option string) :
  (forall sponsorship,
      verifySession JSON_parse Date_parse c db sessionCookie
      = Ok (Some sponsorship) ->
      exists value session row,
        sessionCookie = Some value
        /\ JSON_parse value = Some session
        /\ ~ (exists t, Date_parse (expires session) = Some t
                        /\ (t < js_clock c)%Z)
        /\ In row (sponsorships db)
        /\ sponsor_code row = sponsorCode session
        /\ auth_status row = Active
        /\ visible_to_sponsor row = true
        /\ sponsorship = toAirtableSponsorshipRecord row)
  /\ (sessionCookie = None ->
      verifySession JSON_parse Date_parse c db sessionCookie = Ok None)
  /\ (forall value,
         sessionCookie = Some value -> JSON_parse value = None ->
         verifySession JSON_parse Date_parse c db sessionCookie = Ok None)
  /\ (forall value session t,
         sessionCookie = Some value -> JSON_parse value = Some session ->
         Date_parse (expires session) = Some t -> (t < js_clock c)%Z ->
         getSession JSON_parse Date_parse c sessionCookie = None
         /\ verifySession JSON_parse Date_parse c db sessionCookie
            = Ok None)
  /\ (forall session,
         weather c = Fine ->
         getSession JSON_parse Date_parse c sessionCookie = Some session ->
         (forall row, In row (sponsorships db) ->
                      ~ (sponsor_code row = sponsorCode session
                         /\ auth_status row = Active
                         /\ visible_to_sponsor row = true)) ->
         verifySession JSON_parse Date_parse c db sessionCookie = Ok None)
  /\ (forall session row,
         weather c = Fine ->
         getSession JSON_parse Date_parse c sessionCookie = Some session ->
         In row (sponsorships db) ->
         sponsor_code row = sponsorCode session ->
         auth_status row = Active ->
         visible_to_sponsor row = true ->
         exists sponsorship,
           verifySession JSON_parse Date_parse c db sessionCookie
           = Ok (Some sponsorship)).
Proof.
  split; [| split; [| split; [| split; [| split]]]].
  - intros sp H. unfold verifySession in H.
    destruct (getSession JSON_parse Date_parse c sessionCookie)
      as [session |] eqn:Hs; [| discriminate].
    apply getSession_some in Hs. destruct Hs as (value & Hc & Hp & Hlive).
    destruct (findSponsorshipByCode c db (sponsorCode session))
      as [[rec |] | e] eqn:Hfind; try discriminate.
    inversion H; subst sp.
    apply findSponsorshipByCode_some in Hfind.
    destruct Hfind as (row & Hin & (Hcode & Hauth & Hvis) & ->).
    exists value, session, row. auto 10.
  - intros ->. reflexivity.
  - intros value -> Hp. unfold verifySession, getSession. now rewrite Hp.
  - intros value session t -> Hp Hd Hlt.
    assert (Hnone : getSession JSON_parse Date_parse c (Some value) = None).
    { unfold getSession, date_lt. rewrite Hp, Hd.
      apply Z.ltb_lt in Hlt. now rewrite Hlt. }
    split; [exact Hnone |]. unfold verifySession. now rewrite Hnone.
  - intros session Hw Hs Hnone. unfold verifySession. rewrite Hs.
    destruct (findSponsorshipByCode_fine c db (sponsorCode session) Hw)
      as [(row & Hin & Hrow & _) | [_ ->]]; [| reflexivity].
    exfalso. exact (Hnone row Hin Hrow).
  - intros session row Hw Hs Hin Hcode Hauth Hvis.
    unfold verifySession. rewrite Hs.
    destruct (findSponsorshipByCode_fine c db (sponsorCode session) Hw)
      as [(row' & _ & _ & ->) | [Hnone _]]; [eauto |].
    exfalso. apply (Hnone row Hin). unfold by_code. auto.
Qed.

End SessionFacts.

(** With the sample cookie, read a week before its expiry, verifySession
    finds the sponsorship BAN-2025-104. *)
Lemma verifySession_outcomes_live_session :
  exists sponsorship,
    verifySession Sample.JSON_parse Sample.Date_parse
                  (Sample.ctx 1750723200000 "x") Sample.db_one_sponsor
                  (Some (Sample.JSON_stringify Sample.session))
    = Ok (Some sponsorship).
Proof.
  apply (proj2 (proj2 (proj2 (proj2 (proj2
           (verifySession_outcomes Sample.JSON_parse Sample.Date_parse
              (Sample.ctx 1750723200000 "x") Sample.db_one_sponsor
              (Some (Sample.JSON_stringify Sample.session)))))))
         Sample.session
         (Sample.sponsorship "s1" "BAN-2025-104" "a@x.com" Active true None));
    try reflexivity.
  simpl. left. reflexivity.
Defined.

(** The same cookie read after its expiry: no session, and no error. *)
Example session_expired_is_absent :
  verifySession Sample.JSON_parse Sample.Date_parse
                (Sample.ctx 1751400000000 "x") Sample.db_one_sponsor
                (Some (Sample.JSON_stringify Sample.session))
  = Ok None.
Proof. reflexivity. Qed.

(** An expiry text that is no date is not before the clock: such a
    session counts as live. *)
Remark getSession_keeps_unreadable_expiry
       (JSON_parse : string -> option SessionData)
       (Date_parse : string -> option Timestamp)
       (c : Ctx) (value : string) (session : SessionData) :
  JSON_parse value = Some session ->
  Date_parse (expires session) = None ->
  getSession JSON_parse Date_parse c (Some value) = Some session.
Proof.
  intros Hp Hd. unfold getSession, date_lt. now rewrite Hp, Hd.
Qed.

Section StaleSessionFacts.

Variable JSON_parse : string -> option SessionData.
Variable Date_parse : string -> option Timestamp.

(** C1 on the code.  A cookie that parses to a session whose expiry text
    is no date is never taken for expired: [new Date(session.expires) <
    new Date()] is false for an Invalid Date.  So at every time of the
    clock getSession returns that session, and verifySession, the store
    answering and holding an Active, visible sponsorship with the
    session's code, returns a sponsorship record with that code; it does
    not return None, as it does for the other malformed cookies and as
    the check on the expiry is there to bring about. *)
Theorem C1_session_without_date_never_expires
        (c : Ctx) (db : Db) (value : string) (session : SessionData)
        (row : SupabaseSponsorshipRow) :
  weather c = Fine ->
  JSON_parse value = Some session ->
  Date_parse (expires session) = None ->
  In row (sponsorships db) ->
  sponsor_code row = sponsorCode session ->
  auth_status row = Active ->
  visible_to_sponsor row = true ->
  getSession JSON_parse Date_parse c (Some value) = Some session
  /\ exists sponsorship,
      verifySession JSON_parse Date_parse c db (Some value)
      = Ok (Some sponsorship)
      /\ SponsorCode (s_fields sponsorship) = sponsorCode session
      /\ AuthStatus_ (s_fields sponsorship) = Active
      /\ VisibleToSponsor (s_fields sponsorship) = true.
Proof.
  intros Hw Hp Hd Hin Hcode Hauth Hvis.
  assert (Hs : getSession JSON_parse Date_parse c (Some value)
               = Some session)
    by (unfold getSession, date_lt; now rewrite Hp, Hd).
  split; [exact Hs |].
  unfold verifySession. rewrite Hs.
  destruct (findSponsorshipByCode_fine c db (sponsorCode session) Hw)
    as [(row' & _ & (Hc' & Ha' & Hv') & ->) | [Hnone _]].
  - eexists. split; [reflexivity |]. simpl. auto.
  - exfalso. apply (Hnone row Hin). unfold by_code. auto.
Qed.

End StaleSessionFacts.

(** The cookie {email a@x.com, sponsorCode BAN-2025-104, expires
    "never"}, read on 1 January 2100: verifySession returns the
    sponsorship BAN-2025-104. *)
Lemma C1_witness_cookie_without_date :
  Sample.Date_parse (expires Sample.session_without_date) = None
  /\ exists sponsorship,
      verifySession Sample.JSON_parse_either Sample.Date_parse
                    (Sample.ctx 4102444800000 "x") Sample.db_one_sponsor
                    (Some (Sample.JSON_stringify
                             Sample.session_without_date))
      = Ok (Some sponsorship)
      /\ SponsorCode (s_fields sponsorship) = "BAN-2025-104".
Proof.
  split; [reflexivity |].
  destruct (@C1_session_without_date_never_expires
              Sample.JSON_parse_either Sample.Date_parse
              (Sample.ctx 4102444800000 "x") Sample.db_one_sponsor
              (Sample.JSON_stringify Sample.session_without_date)
              Sample.session_without_date
              (Sample.sponsorship "s1" "BAN-2025-104" "a@x.com" Active true
                                  None)
              eq_refl eq_refl eq_refl (or_introl eq_refl)
              eq_refl eq_refl eq_refl)
    as (_ & sponsorship & Hcall & Hcode & _).
  exists sponsorship. split; [exact Hcall | exact Hcode].
Defined.

Section CredentialFacts.

Lemma by_credentials_filter (email code : string)
      (rows : list SupabaseSponsorshipRow) :
  eq_ (fun r => Bool.eqb (visible_to_sponsor r) true)
      (eq_ (fun r => AuthStatus_eqb (auth_status r) Active)
           (eq_ (fun r => sponsor_code r =? code)
                (eq_ (fun r => sponsor_email r =? email) rows)))
  = filter (fun r => (sponsor_email r =? email)
                     && ((sponsor_code r =? code)
                         && AuthStatus_eqb (auth_status r) Active
                         && Bool.eqb (visible_to_sponsor r) true))
           rows.
Proof.
  unfold eq_. rewrite !filter_twice. apply filter_ext.
  intros r. simpl. now rewrite !andb_assoc.
Qed.

(** findSponsorshipByCredentials with the store answering: the first
    stored row that satisfies the four filters, or none. *)
Lemma findSponsorshipByCredentials_fine (c : Ctx) (db : Db)
      (email code : string) :
  weather c = Fine ->
  (exists row,
      In row (sponsorships db)
      /\ sponsor_email row = email /\ by_code code row
      /\ findSponsorshipByCredentials c db email code
         = Ok (Some (toAirtableSponsorshipRecord row)))
  \/ ((forall row, In row (sponsorships db) ->
                   ~ (sponsor_email row = email /\ by_code code row))
      /\ findSponsorshipByCredentials c db email code = Ok None).
Proof.
  intros Hw.
  unfold findSponsorshipByCredentials, findSponsorshipByCredentials_query,
    await_read.
  rewrite Hw, single_limit_1, by_credentials_filter.
  match goal with
  | |- context [filter ?p ?rows] =>
      pose proof (first_selected p rows) as H;
      destruct (filter p rows) as [| r rest]
  end; simpl.
  - right. split; [| reflexivity].
    intros row Hin [Hmail Hrow]. apply by_code_true in Hrow.
    apply String.eqb_eq in Hmail.
    specialize (H row Hin). simpl in H.
    rewrite Hmail, Hrow in H. discriminate.
  - left. exists r. destruct H as [Hin Hp].
    apply andb_true_iff in Hp. destruct Hp as [Hmail Hrow].
    apply String.eqb_eq in Hmail. apply by_code_true in Hrow. auto.
Qed.

End CredentialFacts.

(** C3, as the code has it.  findSponsorshipByCredentials checks nothing
    after its query: whatever row the settled query carries is converted
    and returned, its activation status and visibility flag unread.  The
    four conditions (email, code, activation Active, visibility true) are
    the query's filters alone: with the store answering, the function
    returns a stored row that meets them when there is one, and None when
    there is none. *)
Theorem C3_credentials_rest_on_the_query :
  (forall row,
      findSponsorshipByCredentials_settled (Resolved (success row))
      = Ok (Some (toAirtableSponsorshipRecord row)))
  /\ (forall c db email code,
         weather c = Fine ->
         (exists row,
             In row (sponsorships db)
             /\ sponsor_email row = email
             /\ sponsor_code row = code
             /\ auth_status row = Active
             /\ visible_to_sponsor row = true
             /\ findSponsorshipByCredentials c db email code
                = Ok (Some (toAirtableSponsorshipRecord row)))
         \/ ((forall row, In row (sponsorships db) ->
                          ~ (sponsor_email row = email
                             /\ sponsor_code row = code
                             /\ auth_status row = Active
                             /\ visible_to_sponsor row = true))
             /\ findSponsorshipByCredentials c db email code = Ok None)).
Proof.
  split; [reflexivity |].
  intros c db email code Hw.
  destruct (findSponsorshipByCredentials_fine c db email code Hw)
    as [(row & Hin & Hmail & (Hcode & Hauth & Hvis) & Hres) | [Hnone Hres]].
  - left. exists row. auto 10.
  - right. split; [| exact Hres].
    intros row Hin (Hmail & Hrest). apply (Hnone row Hin). now split.
Qed.

(** The scenario of the specification: a@x.com with BAN-2025-104 finds
    the record, with BAN-2025-999 nothing. *)
Lemma C3_witness_lookup :
  findSponsorshipByCredentials (Sample.ctx 300 "x") Sample.db_one_sponsor
                               "a@x.com" "BAN-2025-104"
  = Ok (Some (toAirtableSponsorshipRecord
                (Sample.sponsorship "s1" "BAN-2025-104" "a@x.com" Active
                                    true None)))
  /\ findSponsorshipByCredentials (Sample.ctx 300 "x") Sample.db_one_sponsor
                                  "a@x.com" "BAN-2025-999"
     = Ok None.
Proof.
  split.
  - destruct (proj2 C3_credentials_rest_on_the_query
                    (Sample.ctx 300 "x") Sample.db_one_sponsor
                    "a@x.com" "BAN-2025-104" eq_refl)
      as [(row & [<- | []] & _ & _ & _ & _ & Hres) | [Hnone _]].
    + exact Hres.
    + exfalso. apply (Hnone _ (or_introl eq_refl)). repeat split.
  - destruct (proj2 C3_credentials_rest_on_the_query
                    (Sample.ctx 300 "x") Sample.db_one_sponsor
                    "a@x.com" "BAN-2025-999" eq_refl)
      as [(row & [<- | []] & _ & Hcode & _) | [_ Hres]].
    + discriminate Hcode.
    + exact Hres.
Defined.

(** C3 as stated fails: handed a Suspended, hidden row by the query,
    findSponsorshipByCredentials does not return null; it returns the
    row. *)
Lemma C3_counterexample_no_recheck :
  auth_status (Sample.sponsorship "s1" "BAN-2025-104" "a@x.com"
                                  Suspended false None) <> Active
  /\ visible_to_sponsor (Sample.sponsorship "s1" "BAN-2025-104" "a@x.com"
                                            Suspended false None) = false
  /\ findSponsorshipByCredentials_settled
       (Resolved (success (Sample.sponsorship "s1" "BAN-2025-104" "a@x.com"
                                              Suspended false None)))
     <> Ok None.
Proof.
  repeat split; discriminate.
Qed.

(** ** The admin token *)

Section TokenFacts.

(** The fold of differences is zero exactly when nothing differed
    before and the two buffers agree byte for byte. *)
Lemma fold_differences_zero (a : list N) :
  forall (b : list N) (acc : N),
    List.length a = List.length b ->
    (fold_differences a b acc = 0%N <-> acc = 0%N /\ a = b).
Proof.
  induction a as [| x a IH]; intros [| y b] acc Hlen;
    simpl in *; try discriminate.
  - tauto.
  - injection Hlen as Hlen. rewrite (IH b _ Hlen).
    rewrite N.lor_eq_0_iff. split.
    + intros [[Hacc Hxy] Hab]. apply N.lxor_eq in Hxy. subst. auto.
    + intros [Hacc Hab]. injection Hab as -> ->.
      rewrite N.lxor_nilpotent. auto.
Qed.

Lemma timingSafeEqual_spec (a b : list N) :
  timingSafeEqual a b
  = if Nat.eqb (List.length a) (List.length b)
    then Some (if list_eq_dec N.eq_dec a b then true else false)
    else None.
Proof.
  unfold timingSafeEqual.
  destruct (Nat.eqb (List.length a) (List.length b)) eqn:Hlen;
    [| reflexivity].
  apply Nat.eqb_eq in Hlen. f_equal.
  destruct (list_eq_dec N.eq_dec a b) as [Heq | Hneq].
  - apply N.eqb_eq. apply fold_differences_zero; auto.
  - apply N.eqb_neq. intros H.
    apply fold_differences_zero in H; tauto.
Qed.

(** timingSafeCompare is equality of the two byte sequences. *)
Lemma timingSafeCompare_true (a b : string) :
  timingSafeCompare a b = true <-> Buffer_from a = Buffer_from b.
Proof.
  unfold timingSafeCompare. rewrite !timingSafeEqual_spec.
  rewrite Nat.eqb_refl.
  destruct (Nat.eqb (List.length (Buffer_from a))
                    (List.length (Buffer_from b))) eqn:Hlen; simpl.
  - destruct (list_eq_dec N.eq_dec (Buffer_from a) (Buffer_from b));
      split; congruence.
  - split; [discriminate |]. intros Heq. rewrite Heq in Hlen.
    now rewrite Nat.eqb_refl in Hlen.
Qed.

(** Two strings with the same bytes are the same string. *)
Lemma Buffer_from_inj (a b : string) :
  Buffer_from a = Buffer_from b -> a = b.
Proof.
  unfold Buffer_from. intros H.
  rewrite <- (string_of_list_ascii_of_string a),
          <- (string_of_list_ascii_of_string b).
  f_equal.
  revert H. generalize (list_ascii_of_string a) (list_ascii_of_string b).
  induction l as [| x l IH]; intros [| y l']; simpl; try discriminate;
    [reflexivity |].
  intros H. injection H as Hxy Hrest. f_equal; [| now apply IH].
  rewrite <- (ascii_N_embedding x), <- (ascii_N_embedding y).
  now rewrite Hxy.
Qed.

Lemma verifyFormToken_true (secret : option string)
      (token : option FormDataEntryValue) :
  verifyFormToken secret token = true ->
  exists expected candidate,
    or_undefined secret = Some expected
    /\ token = Some (FormText candidate)
    /\ Buffer_from candidate = Buffer_from expected.
Proof.
  unfold verifyFormToken.
  destruct token as [[text |] |]; try discriminate.
  - destruct (or_undefined secret) as [expected |] eqn:Hs;
      [| destruct text; discriminate].
    intros H. exists expected, text. repeat split.
    apply timingSafeCompare_true. unfold timingSafeCompare.
    destruct text; [discriminate | exact H].
  - destruct (or_undefined secret); discriminate.
Qed.

End TokenFacts.

(** C4.  Without a configured secret (the variable unset, or set to the
    empty string) admin token verification returns false for every
    request and every form token.  With a secret, the header verifier
    returns true only if the token taken from the headers has exactly the
    bytes of the secret, and the form verifier only if the form token is a
    text with exactly the bytes of the secret; in both cases the token is
    then the secret itself. *)
Theorem C4_admin_token_fails_closed :
  (forall headers, verifyAdminToken None headers = false)
  /\ (forall headers, verifyAdminToken (Some EmptyString) headers = false)
  /\ (forall token, verifyFormToken None token = false)
  /\ (forall token, verifyFormToken (Some EmptyString) token = false)
  /\ (forall secret headers,
         verifyAdminToken (Some secret) headers = true ->
         exists candidate,
           requestToken headers = Some candidate
           /\ Buffer_from candidate = Buffer_from secret
           /\ candidate = secret)
  /\ (forall secret token,
         verifyFormToken (Some secret) token = true ->
         exists candidate,
           token = Some (FormText candidate)
           /\ Buffer_from candidate = Buffer_from secret
           /\ candidate = secret).
Proof.
  split; [reflexivity |].
  split; [reflexivity |].
  split; [intros [[[|] |] |]; reflexivity |].
  split; [intros [[[|] |] |]; reflexivity |].
  split.
  - intros secret headers. unfold verifyAdminToken.
    destruct (or_undefined (Some secret)) as [adminToken |] eqn:Hs;
      [| discriminate].
    assert (adminToken = secret) as ->
        by (destruct secret; simpl in Hs; congruence).
    destruct (requestToken headers) as [candidate |]; [| discriminate].
    intros H. apply timingSafeCompare_true in H.
    exists candidate. auto using Buffer_from_inj.
  - intros secret token H. apply verifyFormToken_true in H.
    destruct H as (expected & candidate & Hs & -> & Hbytes).
    assert (expected = secret) as ->
        by (destruct secret; simpl in Hs; congruence).
    exists candidate. auto using Buffer_from_inj.
Qed.

(** A bearer token in the Authorization header, accepted: it is the
    secret. *)
Lemma C4_witness_bearer_accepted :
  verifyAdminToken
    (Some "s3cret-token")
    {| X_Admin_Token := None;
       Authorization := Some "bearer   s3cret-token" |} = true
  /\ exists candidate,
      requestToken {| X_Admin_Token := None;
                      Authorization := Some "bearer   s3cret-token" |}
      = Some candidate
      /\ Buffer_from candidate = Buffer_from "s3cret-token"
      /\ candidate = "s3cret-token".
Proof.
  split; [reflexivity |].
  apply (proj1 (proj2 (proj2 (proj2 (proj2 C4_admin_token_fails_closed))))).
  reflexivity.
Defined.

Example token_one_byte_off_refused :
  verifyAdminToken (Some "s3cret-token")
                   {| X_Admin_Token := Some "s3cret-tokem";
                      Authorization := None |} = false
  /\ verifyFormToken (Some "s3cret-token") (Some (FormText "s3cret-toke"))
     = false
  /\ verifyFormToken (Some "s3cret-token") (Some FormFile) = false.
Proof. repeat split. Qed.

(** ** What a failure tells the client *)

(** The database layer words its errors itself: whatever the backend
    said, publishUpdate fails with one of two fixed messages. *)
Lemma publishUpdate_error_is_generic (c : Ctx) (db db' : Db) (key : string)
      (e : Error) :
  publishUpdate c db key = (Throw e, db') ->
  e = DatabaseError "Failed to publish update"
  \/ e = DatabaseError "Failed to connect to database".
Proof.
  unfold publishUpdate, await_write.
  destruct (weather c); simpl;
    try (intros H; inversion H; auto; fail).
  destruct (update_updates_single_cases c db
              (set_published (js_clock c)) key)
    as [(x & _ & _ & ->) | ->]; simpl; intros H; inversion H; auto.
Qed.

Section SubmitFacts.

Variable validateSponsorCode : option FormDataEntryValue -> ValidationResult.
Variable validateUpdateTitle : option FormDataEntryValue -> ValidationResult.
Variable validateUpdateContent : option FormDataEntryValue -> ValidationResult.
Variable validateRequiredString :
  option FormDataEntryValue -> string -> Z -> Z -> ValidationResult.
Variable sanitizeString : option FormDataEntryValue -> string.
Variable escapeForAirtable : string -> string.
Variable slice_0_100 : string -> string.
Variable TOO_MANY_REQUESTS : string.

(** Without a configured secret nobody passes the handler's admin
    check. *)
Lemma POST_unauthorized_without_secret
      (env : ProcessEnv) (airtable : Airtable) (now : Timestamp)
      (request : NextRequest) (form : FormData) :
  ADMIN_API_TOKEN env = None ->
  rateLimitError request = None ->
  formData request = inl form ->
  POST validateSponsorCode validateUpdateTitle validateUpdateContent
       validateRequiredString sanitizeString escapeForAirtable
       slice_0_100 TOO_MANY_REQUESTS env airtable now request
  = json_error (Some "Unauthorized - Invalid admin password") 401.
Proof.
  intros Hsecret Hrate Hform. unfold POST. rewrite Hrate, Hform.
  unfold POST_body. rewrite Hsecret.
  replace (verifyFormToken None (f_adminPassword form)) with false
    by (destruct (f_adminPassword form) as [[[|] |] |]; reflexivity).
  reflexivity.
Qed.

(** C6 on the code.  The admin update-submission handler, for a request
    that passes the rate limit, the admin check and validation, with
    Airtable configured and the sponsor's child found: when Airtable
    refuses the creation with body text [raw], the client receives
    status 500 whose error message is "Airtable API error: " followed
    by [raw] itself. *)
Theorem C6_submit_route_echoes_store_error
        (env : ProcessEnv) (airtable : Airtable) (now : Timestamp)
        (request : NextRequest) (form : FormData)
        (sponsorCode title content submittedBy key base childID raw : string) :
  rateLimitError request = None ->
  formData request = inl form ->
  verifyAdminToken (ADMIN_API_TOKEN env) (headers request)
  || verifyFormToken (ADMIN_API_TOKEN env) (f_adminPassword form) = true ->
  validateSponsorCode (f_sponsorCode form) = Valid sponsorCode ->
  validateUpdateTitle (f_title form) = Valid title ->
  validateUpdateContent (f_content form) = Valid content ->
  validateRequiredString (f_submittedBy form) "Submitted by" 1 200
  = Valid submittedBy ->
  or_undefined (AIRTABLE_API_KEY env) = Some key ->
  or_undefined (AIRTABLE_BASE_ID env) = Some base ->
  (forall table formula,
      list_records airtable base table formula = LookupOk [Some childID]) ->
  childID <> EmptyString ->
  (forall table fields,
      create_record airtable base table fields = CreateNotOk raw) ->
  POST validateSponsorCode validateUpdateTitle validateUpdateContent
       validateRequiredString sanitizeString escapeForAirtable
       slice_0_100 TOO_MANY_REQUESTS env airtable now request
  = {| status := 500; retry_after := None;
       body := ErrorBody (Some ("Airtable API error: " ++ raw)) |}.
Proof.
  intros Hrate Hform Hauth Hcode Htitle Hcontent Hby Hkey Hbase
         Hlookup Hchild Hcreate.
  unfold POST. rewrite Hrate, Hform. unfold POST_body.
  apply orb_true_iff in Hauth.
  replace (negb (verifyAdminToken (ADMIN_API_TOKEN env) (headers request))
           && negb (verifyFormToken (ADMIN_API_TOKEN env)
                                    (f_adminPassword form)))
    with false
    by (destruct Hauth as [-> | ->]; simpl;
        rewrite ?andb_false_r; reflexivity).
  rewrite Hcode, Htitle, Hcontent, Hby, Hkey, Hbase, Hlookup.
  assert (Hid : or_undefined (Some childID) = Some childID)
    by (destruct childID; [contradiction | reflexivity]).
  rewrite Hid, Hcreate. reflexivity.
Qed.

End SubmitFacts.

(** The failing request: an authorised, valid submission for
    BAN-2025-104 while Airtable answers the creation with 403 and a body
    that names the base, the table and the key's scopes. *)
Lemma C6_witness_backend_text_in_response :
  POST (fun entry => match entry with
                     | Some (FormText text) => Valid text
                     | _ => Invalid (Some "Sponsor code is required")
                     end)
       (fun entry => match entry with
                     | Some (FormText text) => Valid text
                     | _ => Invalid (Some "Title is required")
                     end)
       (fun entry => match entry with
                     | Some (FormText text) => Valid text
                     | _ => Invalid (Some "Content is required")
                     end)
       (fun entry name low high =>
          match entry with
          | Some (FormText text) => Valid text
          | _ => Invalid (Some (name ++ " is required"))
          end)
       (fun entry => match entry with
                     | Some (FormText text) => text
                     | _ => EmptyString
                     end)
       (fun text => text)
       (fun text => text)
       "Too many requests"
       {| ADMIN_API_TOKEN := Some "s3cret-token";
          AIRTABLE_API_KEY := Some "patKEY";
          AIRTABLE_BASE_ID := Some "appBASE";
          AIRTABLE_SPONSORSHIPS_TABLE := None;
          AIRTABLE_UPDATES_TABLE := None |}
       {| list_records := fun _ _ _ => LookupOk [Some "CH-7"];
          create_record := fun _ _ _ =>
            CreateNotOk
              "INVALID_PERMISSIONS: key patKEY (scopes data.records:read) may not create records in table Updates of base appBASE" |}
       900
       {| headers := {| X_Admin_Token := Some "s3cret-token";
                        Authorization := None |};
          rateLimitError := None;
          formData :=
            inl {| f_adminPassword := None;
                   f_sponsorCode := Some (FormText "BAN-2025-104");
                   f_updateType := Some (FormText "Progress Report");
                   f_title := Some (FormText "Term report");
                   f_content := Some (FormText "Doing well.");
                   f_submittedBy := Some (FormText "field team") |} |}
  = {| status := 500; retry_after := None;
       body :=
         ErrorBody
           (Some ("Airtable API error: "
                    ++ "INVALID_PERMISSIONS: key patKEY (scopes data.records:read) may not create records in table Updates of base appBASE")) |}.
Proof.
  eapply C6_submit_route_echoes_store_error
    with (key := "patKEY") (base := "appBASE") (childID := "CH-7");
    try reflexivity.
  discriminate.
Defined.

(** * Further properties of the code *)

(** ** Sessions bound to a code *)

Section SessionCodeFacts.

Variable JSON_parse : string -> option SessionData.
Variable Date_parse : string -> option Timestamp.
Variable SESSION_EXPIRED : string.

(** verifySessionForCode answers true exactly when the cookie is there,
    parses, has not expired, and carries the given sponsor code.  It reads
    no store: for a live cookie whose code no Active, visible sponsorship
    carries, it still answers true while verifySession finds nothing. *)
Theorem verifySessionForCode_cookie_only
        (c : Ctx) (sessionCookie : option string) (code : string) :
  (verifySessionForCode JSON_parse Date_parse c sessionCookie code = true
   <-> exists value session,
       sessionCookie = Some value
       /\ JSON_parse value = Some session
       /\ ~ (exists t, Date_parse (expires session) = Some t
                       /\ (t < js_clock c)%Z)
       /\ sponsorCode session = code)
  /\ (forall db session,
         weather c = Fine ->
         getSession JSON_parse Date_parse c sessionCookie = Some session ->
         (forall row, In row (sponsorships db) ->
                      ~ by_code (sponsorCode session) row) ->
         verifySessionForCode JSON_parse Date_parse c sessionCookie
                              (sponsorCode session) = true
         /\ verifySession JSON_parse Date_parse c db sessionCookie = Ok None).
Proof.
  split.
  - unfold verifySessionForCode. split.
    + destruct (getSession JSON_parse Date_parse c sessionCookie)
        as [session |] eqn:Hs; [| discriminate].
      intros Hcode. apply String.eqb_eq in Hcode.
      apply getSession_some in Hs. destruct Hs as (value & Hc & Hp & Hlive).
      exists value, session. auto.
    + intros (value & session & Hc & Hp & Hlive & Hcode).
      assert (Hs : getSession JSON_parse Date_parse c sessionCookie
                   = Some session)
        by (apply getSession_some; eauto).
      rewrite Hs. now apply String.eqb_eq.
  - intros db session Hw Hs Hnone. split.
    + unfold verifySessionForCode. rewrite Hs. apply String.eqb_refl.
    + unfold verifySession. rewrite Hs.
      destruct (findSponsorshipByCode_fine c db (sponsorCode session) Hw)
        as [(row & Hin & Hrow & _) | [_ ->]]; [| reflexivity].
      exfalso. exact (Hnone row Hin Hrow).
Qed.

(** requireAuth returns a sponsorship only for a live session whose code
    an Active, visible stored sponsorship carries (the one returned).
    Without such a session it throws AuthenticationError with the
    session-expired message, whatever the state of the store: the store is
    not asked.  A DatabaseError comes out only from the lookup of a live
    session. *)
Theorem requireAuth_outcomes
        (c : Ctx) (db : Db) (sessionCookie : option string) :
  (forall sponsorship,
      requireAuth JSON_parse Date_parse SESSION_EXPIRED c db sessionCookie
      = Ok sponsorship ->
      exists session row,
        getSession JSON_parse Date_parse c sessionCookie = Some session
        /\ In row (sponsorships db)
        /\ by_code (sponsorCode session) row
        /\ sponsorship = toAirtableSponsorshipRecord row)
  /\ (getSession JSON_parse Date_parse c sessionCookie = None ->
      requireAuth JSON_parse Date_parse SESSION_EXPIRED c db sessionCookie
      = Throw (AuthenticationError SESSION_EXPIRED))
  /\ (forall e,
         requireAuth JSON_parse Date_parse SESSION_EXPIRED c db sessionCookie
         = Throw e ->
         e = AuthenticationError SESSION_EXPIRED
         \/ (exists session,
                getSession JSON_parse Date_parse c sessionCookie
                = Some session
                /\ weather c <> Fine
                /\ (e = DatabaseError "Failed to find sponsorship"
                    \/ e = DatabaseError "Failed to connect to database"))).
Proof.
  unfold requireAuth, verifySession.
  destruct (getSession JSON_parse Date_parse c sessionCookie)
    as [session |] eqn:Hs.
  - split; [| split].
    + intros sp H.
      destruct (findSponsorshipByCode c db (sponsorCode session))
        as [[rec |] | e] eqn:Hfind; try discriminate.
      inversion H; subst sp.
      apply findSponsorshipByCode_some in Hfind.
      destruct Hfind as (row & Hin & Hrow & ->).
      exists session, row. auto.
    + discriminate.
    + intros e H.
      destruct (findSponsorshipByCode c db (sponsorCode session))
        as [[rec |] | e'] eqn:Hfind; try discriminate.
      * inversion H. auto.
      * inversion H; subst e'. right. exists session.
        split; [reflexivity |].
        unfold findSponsorshipByCode, await_read in Hfind.
        destruct (weather c) eqn:Hw;
          [rewrite single_limit_1 in Hfind;
           destruct (eq_ _ _) in Hfind; discriminate
          | | | |];
          (split; [discriminate |]); simpl in Hfind;
          try (destruct (error_other_than_PGRST116 _) in Hfind);
          inversion Hfind; auto.
  - split; [| split].
    + discriminate.
    + reflexivity.
    + intros e H. inversion H. auto.
Qed.

End SessionCodeFacts.

(** The sample cookie, live, is accepted for the code it carries, also
    against a store without that sponsorship. *)
Lemma verifySessionForCode_witness :
  verifySessionForCode Sample.JSON_parse Sample.Date_parse
                       (Sample.ctx 1750723200000 "x")
                       (Some (Sample.JSON_stringify Sample.session))
                       (sponsorCode Sample.session) = true
  /\ verifySession Sample.JSON_parse Sample.Date_parse
                   (Sample.ctx 1750723200000 "x") Pg.empty
                   (Some (Sample.JSON_stringify Sample.session))
     = Ok None.
Proof.
  apply (proj2 (verifySessionForCode_cookie_only
                  Sample.JSON_parse Sample.Date_parse
                  (Sample.ctx 1750723200000 "x")
                  (Some (Sample.JSON_stringify Sample.session))
                  "BAN-2025-104")
               Pg.empty Sample.session eq_refl eq_refl).
  intros row [].
Defined.

(** With the sample cookie read after its expiry, requireAuth throws the
    authentication error. *)
Lemma requireAuth_witness_expired :
  getSession Sample.JSON_parse Sample.Date_parse
             (Sample.ctx 1751400000000 "x")
             (Some (Sample.JSON_stringify Sample.session)) = None
  /\ requireAuth Sample.JSON_parse Sample.Date_parse "Session expired"
                 (Sample.ctx 1751400000000 "x") Sample.db_one_sponsor
                 (Some (Sample.JSON_stringify Sample.session))
     = Throw (AuthenticationError "Session expired").
Proof.
  split; [reflexivity |].
  apply (proj1 (proj2 (requireAuth_outcomes
                         Sample.JSON_parse Sample.Date_parse "Session expired"
                         (Sample.ctx 1751400000000 "x") Sample.db_one_sponsor
                         (Some (Sample.JSON_stringify Sample.session))))).
  reflexivity.
Defined.

(** ** Presenting the admin token *)

Section HeaderFacts.

Lemma or_undefined_some (s t : string) :
  or_undefined (Some s) = Some t <-> s = t /\ s <> EmptyString.
Proof.
  destruct s; simpl; split.
  - discriminate.
  - intros [_ H]. contradiction.
  - intros H. inversion H. split; [reflexivity | discriminate].
  - intros [-> _]. reflexivity.
Qed.

Lemma verifyAdminToken_true_iff (ADMIN_API_TOKEN : option string)
      (headers : Headers) :
  verifyAdminToken ADMIN_API_TOKEN headers = true
  <-> exists secret,
      ADMIN_API_TOKEN = Some secret
      /\ secret <> EmptyString
      /\ requestToken headers = Some secret.
Proof.
  unfold verifyAdminToken. split.
  - destruct ADMIN_API_TOKEN as [secret |]; [| discriminate].
    destruct (or_undefined (Some secret)) as [adminToken |] eqn:Hs;
      [| discriminate].
    apply or_undefined_some in Hs. destruct Hs as [<- Hne].
    destruct (requestToken headers) as [token |]; [| discriminate].
    intros H. apply timingSafeCompare_true, Buffer_from_inj in H.
    subst token. exists secret. auto.
  - intros (secret & -> & Hne & ->).
    assert (Hs : or_undefined (Some secret) = Some secret)
      by (apply or_undefined_some; auto).
    rewrite Hs. now apply timingSafeCompare_true.
Qed.

(** Skipping whitespace never lengthens a text. *)
Lemma skip_spaces_length (text : string) :
  (String.length (skip_spaces text) <= String.length text)%nat.
Proof.
  assert (H : forall n s, (String.length s <= n)%nat ->
                          (String.length (skip_spaces s)
                           <= String.length s)%nat).
  { induction n as [| n IH]; intros s Hs.
    - destruct s; [simpl; lia | simpl in Hs; lia].
    - destruct s as [| c1 [| c2 [| c3 rest]]]; simpl in *.
      + lia.
      + destruct (space1 (byte c1)); simpl; lia.
      + destruct (space1 (byte c1)).
        * specialize (IH (String c2 EmptyString)). simpl in IH.
          assert (Hn : (1 <= n)%nat) by lia. specialize (IH Hn). lia.
        * destruct (space2 (byte c1) (byte c2)); simpl; lia.
      + destruct (space1 (byte c1)).
        * specialize (IH (String c2 (String c3 rest))). simpl in IH.
          assert (Hn : (S (S (String.length rest)) <= n)%nat) by lia.
          specialize (IH Hn). lia.
        * destruct (space2 (byte c1) (byte c2)).
          -- specialize (IH (String c3 rest)). simpl in IH.
             assert (Hn : (S (String.length rest) <= n)%nat) by lia.
             specialize (IH Hn). lia.
          -- destruct (space3 (byte c1) (byte c2) (byte c3)).
             ++ specialize (IH rest).
                assert (Hn : (String.length rest <= n)%nat) by lia.
                specialize (IH Hn). lia.
             ++ simpl. lia. }
  apply (H (String.length text)). lia.
Qed.

(** The pattern on "Bearer", one space, and a text: what is left is the
    text without its leading whitespace. *)
Lemma strip_bearer_prefixed (text : string) :
  strip_bearer ("Bearer " ++ text) = skip_spaces text.
Proof.
  unfold strip_bearer. simpl match_prefix_ci. cbv beta iota.
  change (skip_spaces (String " " text)) with (skip_spaces text).
  pose proof (skip_spaces_length text) as Hlen.
  replace (Nat.ltb (String.length (skip_spaces text))
                   (String.length (String " " text)))
    with true; [reflexivity |].
  symmetry. apply Nat.ltb_lt. simpl. lia.
Qed.

End HeaderFacts.

(** verifyAdminToken accepts exactly the requests whose header token is
    the configured, non-empty secret, and requireAdminAuth throws
    AuthenticationError for all others.  The header token is the
    X-Admin-Token header whenever that header is non-empty: the
    Authorization header is then not looked at, so a wrong X-Admin-Token
    is refused even beside a right Authorization header; an empty
    X-Admin-Token counts as absent. *)
Theorem verifyAdminToken_exactly_the_secret
        (ADMIN_API_TOKEN : option string) (headers : Headers) :
  (verifyAdminToken ADMIN_API_TOKEN headers = true
   <-> exists secret,
       ADMIN_API_TOKEN = Some secret
       /\ secret <> EmptyString
       /\ requestToken headers = Some secret)
  /\ (requireAdminAuth ADMIN_API_TOKEN headers = Ok tt
      \/ requireAdminAuth ADMIN_API_TOKEN headers
         = Throw (AuthenticationError "Admin authentication required"))
  /\ (requireAdminAuth ADMIN_API_TOKEN headers = Ok tt
      <-> verifyAdminToken ADMIN_API_TOKEN headers = true)
  /\ (forall token,
         X_Admin_Token headers = Some token -> token <> EmptyString ->
         requestToken headers = Some token)
  /\ (X_Admin_Token headers = Some EmptyString ->
      requestToken headers
      = requestToken {| X_Admin_Token := None;
                        Authorization := Authorization headers |}).
Proof.
  split; [| split; [| split; [| split]]].
  - apply verifyAdminToken_true_iff.
  - unfold requireAdminAuth.
    destruct (verifyAdminToken ADMIN_API_TOKEN headers); auto.
  - unfold requireAdminAuth.
    destruct (verifyAdminToken ADMIN_API_TOKEN headers);
      split; congruence.
  - intros token Hx Hne. unfold requestToken. rewrite Hx.
    assert (Hs : or_undefined (Some token) = Some token)
      by (apply or_undefined_some; auto).
    now rewrite Hs.
  - intros Hx. unfold requestToken. rewrite Hx. reflexivity.
Qed.

(** A wrong X-Admin-Token beside the right bearer token: refused. *)
Lemma verifyAdminToken_witness_header_precedence :
  requestToken {| X_Admin_Token := Some "guess";
                  Authorization := Some "Bearer s3cret-token" |}
  = Some "guess"
  /\ verifyAdminToken (Some "s3cret-token")
                      {| X_Admin_Token := Some "guess";
                         Authorization := Some "Bearer s3cret-token" |}
     = false.
Proof.
  pose proof (verifyAdminToken_exactly_the_secret
                (Some "s3cret-token")
                {| X_Admin_Token := Some "guess";
                   Authorization := Some "Bearer s3cret-token" |})
    as (Hiff & _ & _ & Hfirst & _).
  assert (Htoken : requestToken
                     {| X_Admin_Token := Some "guess";
                        Authorization := Some "Bearer s3cret-token" |}
                   = Some "guess")
    by (apply Hfirst; [reflexivity | discriminate]).
  split; [exact Htoken |].
  apply not_true_is_false. intros Hv.
  apply Hiff in Hv. destruct Hv as (secret & Hs & _ & Ht).
  rewrite Htoken in Ht. inversion Hs. subst secret. discriminate Ht.
Defined.

(** When the Authorization header arrives as "Bearer ", one space, and
    a non-empty secret (a value the runtime can hand over: visible ASCII
    with blanks only inside, so the secret does not end in a blank), the
    request is accepted exactly when the secret does not begin with a
    whitespace character: the pattern takes every whitespace after
    "Bearer" with it. *)
Theorem bearer_secret_accepted_iff (secret : string) :
  secret <> EmptyString ->
  header_text ("Bearer " ++ secret) = true ->
  (verifyAdminToken (Some secret)
                    {| X_Admin_Token := None;
                       Authorization := Some ("Bearer " ++ secret) |}
   = true
   <-> skip_spaces secret = secret).
Proof.
  intros Hne _. rewrite verifyAdminToken_true_iff.
  assert (Hreq : requestToken
                   {| X_Admin_Token := None;
                      Authorization := Some ("Bearer " ++ secret) |}
                 = or_undefined (Some (skip_spaces secret)))
    by (rewrite <- strip_bearer_prefixed; reflexivity).
  rewrite Hreq. split.
  - intros (s & Hs & _ & Ht). inversion Hs; subst s.
    apply or_undefined_some in Ht. tauto.
  - intros Hfix. exists secret. rewrite Hfix.
    repeat split; auto. apply or_undefined_some. auto.
Qed.

Lemma bearer_secret_witness :
  verifyAdminToken (Some "s3cret-token")
                   {| X_Admin_Token := None;
                      Authorization := Some ("Bearer " ++ "s3cret-token") |}
  = true
  /\ verifyAdminToken (Some " padded")
                      {| X_Admin_Token := None;
                         Authorization := Some ("Bearer " ++ " padded") |}
     = false.
Proof.
  split.
  - apply (@bearer_secret_accepted_iff "s3cret-token");
      [discriminate | reflexivity | reflexivity].
  - apply not_true_is_false. intros Hv.
    apply (@bearer_secret_accepted_iff " padded") in Hv;
      [discriminate Hv | discriminate | reflexivity].
Defined.

(** ** The client singleton *)

Section SingletonFacts.
Import Supabase.

Lemma perform_keeps (st : ModuleState) (call : Call) :
  cached_is_old st ->
  cached_is_old (snd (perform st call))
  /\ (created st <= created (snd (perform st call)))%nat
  /\ (forall client, supabaseClient st = Some client ->
                     supabaseClient (snd (perform st call)) = Some client)
  /\ (forall client, fst (perform st call) = Ok client ->
        match call with
        | GetClient _ =>
            supabaseClient (snd (perform st call)) = Some client
        | CreateClient _ =>
            serial client = created st
            /\ created (snd (perform st call)) = S (created st)
            /\ supabaseClient (snd (perform st call)) = supabaseClient st
        end).
Proof.
  intros Hinv. unfold cached_is_old in *.
  destruct call as [config | config]; simpl;
    [unfold getSupabaseClient | unfold createSupabaseClient];
    destruct (supabaseClient st) as [cached |] eqn:Hc;
    destruct config as [cfg | e]; simpl; rewrite ?Hc;
    repeat split; intros; simpl in *; rewrite ?Hc in *;
    try discriminate;
    repeat match goal with
           | H : Ok _ = Ok _ |- _ => inversion H; clear H; subst
           | H : Some _ = Some _ |- _ => inversion H; clear H; subst
           end;
    simpl; auto; try lia;
    try (specialize (Hinv _ Hc); lia);
    try (specialize (Hinv _ eq_refl); lia).
Qed.

Lemma handed_out_cached (calls : list Call) :
  forall st cached,
    cached_is_old st ->
    supabaseClient st = Some cached ->
    forall kind client,
      In (kind, client) (handed_out calls st) ->
      if kind then client = cached
      else (created st <= serial client)%nat.
Proof.
  induction calls as [| call rest IH]; intros st cached Hinv Hc kind client;
    simpl; [contradiction |].
  destruct (@perform_keeps st call Hinv) as (Hinv' & Hmono & Hkeep & Hres).
  specialize (Hkeep cached Hc).
  destruct (perform st call) as [[got | e] st'] eqn:Hp; simpl in *.
  - intros [Heq | Hin].
    + inversion Heq; subst. specialize (Hres client eq_refl).
      destruct call; simpl.
      * congruence.
      * destruct Hres as (-> & _). lia.
    + specialize (IH st' cached Hinv' Hkeep kind client Hin).
      destruct kind; [exact IH | lia].
  - intros Hin.
    specialize (IH st' cached Hinv' Hkeep kind client Hin).
    destruct kind; [exact IH | lia].
Qed.

Lemma perform_uncached (st : ModuleState) (call : Call) :
  supabaseClient st = None ->
  match perform st call with
  | (Ok client, st') =>
      serial client = created st /\ created st' = S (created st)
      /\ supabaseClient st'
         = match call with GetClient _ => Some client | _ => None end
  | (Throw _, st') => st' = st
  end.
Proof.
  intros Hc. destruct call as [[cfg | e] | [cfg | e]]; simpl;
    unfold getSupabaseClient, createSupabaseClient; rewrite ?Hc; simpl; auto.
Qed.

Lemma handed_out_fresh (calls : list Call) :
  forall st,
    cached_is_old st ->
    supabaseClient st = None ->
    forall kind client,
      In (kind, client) (handed_out calls st) ->
      (created st <= serial client)%nat.
Proof.
  induction calls as [| call rest IH]; intros st Hinv Hc kind client;
    simpl; [contradiction |].
  pose proof (@perform_uncached st call Hc) as Hun.
  destruct (@perform_keeps st call Hinv) as (Hinv' & Hmono & _ & _).
  destruct (perform st call) as [[got | e] st'] eqn:Hp; simpl in *.
  - destruct Hun as (Hserial & Hcreated & Hcache).
    intros [Heq | Hin].
    + inversion Heq; subst. lia.
    + destruct call as [config | config].
      * pose proof (@handed_out_cached rest st' got Hinv' Hcache
                                       kind client Hin) as H.
        destruct kind; [subst; lia | lia].
      * specialize (IH st' Hinv' Hcache kind client Hin). lia.
  - subst st'. now apply IH.
Qed.

(** From any state the module can be in: the clients getSupabaseClient
    hands out are one and the same, and none of them is a client
    createSupabaseClient hands out. *)
Lemma handed_out_agree (calls : list Call) :
  forall st,
    cached_is_old st ->
    (forall a b,
        In (true, a) (handed_out calls st) ->
        In (true, b) (handed_out calls st) -> a = b)
    /\ (forall a b,
           In (true, a) (handed_out calls st) ->
           In (false, b) (handed_out calls st) -> serial a <> serial b).
Proof.
  induction calls as [| call rest IH]; intros st Hinv; simpl;
    [split; contradiction |].
  destruct (supabaseClient st) as [cached |] eqn:Hc.
  - (* a client is cached: every get returns it *)
    pose proof (@handed_out_cached (call :: rest) st cached Hinv Hc) as Hall.
    simpl in Hall. split.
    + intros a b Ha Hb.
      rewrite (Hall true a Ha), (Hall true b Hb). reflexivity.
    + intros a b Ha Hb.
      pose proof (Hall true a Ha) as ->. pose proof (Hall false b Hb) as Hlb.
      simpl in Hlb. specialize (Hinv cached Hc). lia.
  - pose proof (@perform_uncached st call Hc) as Hun.
    destruct (@perform_keeps st call Hinv) as (Hinv' & Hmono & _ & _).
    destruct (perform st call) as [[got | e] st'] eqn:Hp; simpl in *.
    + destruct Hun as (Hserial & Hcreated & Hcache).
      destruct call as [config | config].
      * (* the first successful get: its client is cached from now on *)
        pose proof (@handed_out_cached rest st' got Hinv' Hcache) as Hall.
        split.
        -- intros a b [Ha | Ha] [Hb | Hb];
             try (inversion Ha; subst); try (inversion Hb; subst);
             try reflexivity.
           ++ symmetry. exact (Hall true b Hb).
           ++ exact (Hall true a Ha).
           ++ rewrite (Hall true a Ha), (Hall true b Hb). reflexivity.
        -- intros a b [Ha | Ha] [Hb | Hb];
             try (inversion Ha; subst); try discriminate Hb.
           ++ pose proof (Hall false b Hb) as Hlb. simpl in Hlb. lia.
           ++ pose proof (Hall true a Ha) as ->.
              pose proof (Hall false b Hb) as Hlb. simpl in Hlb. lia.
      * (* a created client: later ones have later serials *)
        destruct (IH st' Hinv') as [Hgets Hmix].
        pose proof (@handed_out_fresh rest st' Hinv' Hcache) as Hlb.
        split.
        -- intros a b [Ha | Ha] [Hb | Hb]; try discriminate Ha;
             try discriminate Hb. now apply Hgets.
        -- intros a b [Ha | Ha] [Hb | Hb]; try discriminate Ha.
           ++ inversion Hb; subst. specialize (Hlb true a Ha). lia.
           ++ now apply Hmix.
    + subst st'. now apply IH.
Qed.

End SingletonFacts.

(** Over any sequence of calls in a fresh process, getSupabaseClient
    hands out one client only: all its successful calls return the same
    object, built from the configuration read at the first success and
    untouched by later configurations, while every client of
    createSupabaseClient is another object. *)
Theorem getSupabaseClient_hands_out_one_client (calls : list Supabase.Call) :
  (forall a b,
      In (true, a) (Supabase.handed_out calls Supabase.initial) ->
      In (true, b) (Supabase.handed_out calls Supabase.initial) ->
      a = b)
  /\ (forall a b,
         In (true, a) (Supabase.handed_out calls Supabase.initial) ->
         In (false, b) (Supabase.handed_out calls Supabase.initial) ->
         a <> b).
Proof.
  assert (Hinit : Supabase.cached_is_old Supabase.initial)
    by (intros client H; discriminate H).
  destruct (@handed_out_agree calls Supabase.initial Hinit) as [Hgets Hmix].
  split; [exact Hgets |].
  intros a b Ha Hb Heq. apply (Hmix a b Ha Hb). now rewrite Heq.
Qed.

(** A failed first call, then two calls under different configurations
    with a created client in between: the two gets agree. *)
Lemma getSupabaseClient_witness :
  Supabase.handed_out
    [Supabase.GetClient (Throw (OtherError "Missing SUPABASE_URL"));
     Supabase.GetClient
       (Ok {| Supabase.cfg_url := "https://a.supabase.co";
              Supabase.serviceRoleKey := "k1" |});
     Supabase.CreateClient
       (Ok {| Supabase.cfg_url := "https://b.supabase.co";
              Supabase.serviceRoleKey := "k2" |});
     Supabase.GetClient
       (Ok {| Supabase.cfg_url := "https://b.supabase.co";
              Supabase.serviceRoleKey := "k2" |})]
    Supabase.initial
  = [(true, {| Supabase.client_url := "https://a.supabase.co";
               Supabase.client_key := "k1"; Supabase.serial := 0 |});
     (false, {| Supabase.client_url := "https://b.supabase.co";
                Supabase.client_key := "k2"; Supabase.serial := 1 |});
     (true, {| Supabase.client_url := "https://a.supabase.co";
               Supabase.client_key := "k1"; Supabase.serial := 0 |})]
  /\ {| Supabase.client_url := "https://a.supabase.co";
        Supabase.client_key := "k1"; Supabase.serial := 0 |}
     <> {| Supabase.client_url := "https://b.supabase.co";
           Supabase.client_key := "k2"; Supabase.serial := 1 |}.
Proof.
  split; [reflexivity |].
  apply (proj2 (getSupabaseClient_hands_out_one_client
                  [Supabase.GetClient (Throw (OtherError "Missing SUPABASE_URL"));
                   Supabase.GetClient
                     (Ok {| Supabase.cfg_url := "https://a.supabase.co";
                            Supabase.serviceRoleKey := "k1" |});
                   Supabase.CreateClient
                     (Ok {| Supabase.cfg_url := "https://b.supabase.co";
                            Supabase.serviceRoleKey := "k2" |});
                   Supabase.GetClient
                     (Ok {| Supabase.cfg_url := "https://b.supabase.co";
                            Supabase.serviceRoleKey := "k2" |})]));
    simpl; auto.
Defined.

(** ** Looking up what was written *)

Section LookupFacts.

(** With distinct keys, a key selects the one row that carries it. *)
Lemma select_unique {A} (key : A -> string) (rows : list A) (row : A) :
  distinct (map key rows) = true ->
  In row rows ->
  filter (fun r => key r =? key row) rows = [row].
Proof.
  intros Hd Hin.
  pose proof (@select_rewritten A key (fun r => r) rows row
                                (fun r => eq_refl) Hd Hin) as H.
  rewrite <- H. f_equal.
  rewrite <- (map_id rows) at 1. apply map_ext.
  intros r. now destruct (key r =? key row).
Qed.

Lemma same_key_same_row {A} (key : A -> string) (rows : list A) (a b : A) :
  distinct (map key rows) = true ->
  In a rows -> In b rows -> key a = key b -> a = b.
Proof.
  intros Hd Ha Hb Hk.
  pose proof (select_unique key rows b Hd Hb) as H.
  assert (Hin : In a (filter (fun r => key r =? key b) rows))
    by (apply filter_In; split; [exact Ha | now apply String.eqb_eq]).
  rewrite H in Hin. destruct Hin as [<- | []]. reflexivity.
Qed.


Lemma getSponsorshipById_fine (c : Ctx) (db : Db) :
  weather c = Fine ->
  constraints_ok db = true ->
  (forall row, In row (sponsorships db) ->
               Queries.getSponsorshipById c db (id row)
               = Ok (Some (toAirtableSponsorshipRecord row)))
  /\ (forall key, ~ In key (map id (sponsorships db)) ->
                  Queries.getSponsorshipById c db key = Ok None).
Proof.
  intros Hw Hok. apply constraints_ok_elim in Hok. destruct Hok as (Hid & _).
  unfold Queries.getSponsorshipById, await_read, eq_. rewrite Hw. split.
  - intros row Hin.
    now rewrite (select_unique id (sponsorships db) row Hid Hin).
  - intros key Hmiss.
    destruct (@select_absent _ id (fun r => r) (sponsorships db) key Hmiss)
      as [_ ->].
    reflexivity.
Qed.

End LookupFacts.



(** ** Ids the store does not hold *)

(** For a uuid no update carries, with the store answering:
    getUpdateById returns None, while publishUpdate and rejectUpdate
    throw DatabaseError (there is no not-found result) and leave the
    store as it is.  For a key the backend does not read as a uuid, all
    three throw their own DatabaseError, getUpdateById too, and the
    store is as it was. *)
Theorem unknown_update_id (c : Ctx) (db : Db) (key : string) :
  (weather c = Fine ->
   uuid_text key = true ->
   ~ In key (map u_id (updates db)) ->
   getUpdateById c db key = Ok None
   /\ publishUpdate c db key
      = (Throw (DatabaseError "Failed to publish update"), db)
   /\ rejectUpdate c db key
      = (Throw (DatabaseError "Failed to reject update"), db))
  /\ (weather c = Failing invalid_uuid ->
      getUpdateById c db key = Throw (DatabaseError "Failed to get update")
      /\ publishUpdate c db key
         = (Throw (DatabaseError "Failed to publish update"), db)
      /\ rejectUpdate c db key
         = (Throw (DatabaseError "Failed to reject update"), db)).
Proof.
  split.
  - intros Hw _ Hmiss. split; [| split].
    + unfold getUpdateById, await_read, eq_. rewrite Hw.
      destruct (@select_absent _ u_id (fun r => r) (updates db) key Hmiss)
        as [_ ->].
      reflexivity.
    + unfold publishUpdate, await_write. rewrite Hw.
      now rewrite update_updates_single_miss.
    + unfold rejectUpdate, await_write. rewrite Hw.
      now rewrite update_updates_single_miss.
  - intros Hw.
    unfold getUpdateById, publishUpdate, rejectUpdate, await_read,
      await_write.
    rewrite Hw. repeat split.
Qed.

(** A uuid the store does not hold, and the text u404, which is no
    uuid. *)
Lemma unknown_update_id_witness :
  (getUpdateById (Sample.ctx 300 "x") Sample.db_published
                 "0b6f7a52-3c1d-4e8a-9f40-5d2e8c7a1b04"
   = Ok None
   /\ publishUpdate (Sample.ctx 300 "x") Sample.db_published
                    "0b6f7a52-3c1d-4e8a-9f40-5d2e8c7a1b04"
      = (Throw (DatabaseError "Failed to publish update"),
         Sample.db_published)
   /\ rejectUpdate (Sample.ctx 300 "x") Sample.db_published
                   "0b6f7a52-3c1d-4e8a-9f40-5d2e8c7a1b04"
      = (Throw (DatabaseError "Failed to reject update"),
         Sample.db_published))
  /\ uuid_text "u404" = false
  /\ getUpdateById
       {| js_clock := 300; js_year := 2025; js_today := "2025-06-01";
          js_draw := 4; pg_clock := 300; pg_uuid := "x";
          weather := Failing invalid_uuid |}
       Sample.db_published "u404"
     = Throw (DatabaseError "Failed to get update").
Proof.
  split; [| split; [reflexivity |]].
  - apply (proj1 (@unknown_update_id
                    (Sample.ctx 300 "x") Sample.db_published
                    "0b6f7a52-3c1d-4e8a-9f40-5d2e8c7a1b04"));
      [reflexivity | reflexivity |].
    simpl. intros [H | []]. discriminate H.
  - apply (proj2 (@unknown_update_id
                    {| js_clock := 300; js_year := 2025;
                       js_today := "2025-06-01";
                       js_draw := 4; pg_clock := 300; pg_uuid := "x";
                       weather := Failing invalid_uuid |}
                    Sample.db_published "u404")).
    reflexivity.
Defined.

(** For a uuid no sponsorship carries, with the store answering:
    getSponsorshipById returns None and assignSponsorToChild throws
    DatabaseError and changes nothing, but
    updateSponsorshipRequestTracking reports success although it has
    written to no row.  For a key the backend does not read as a uuid,
    all three throw their own DatabaseError and the store is as it
    was. *)
Theorem unknown_sponsorship_id
        (c : Ctx) (db : Db) (key : string) (d : SponsorData)
        (lastRequestAt nextEligibleAt : Timestamp) :
  (weather c = Fine ->
   constraints_ok db = true ->
   uuid_text key = true ->
   ~ In key (map id (sponsorships db)) ->
   Queries.getSponsorshipById c db key = Ok None
   /\ assignSponsorToChild c db key d
      = (Throw (DatabaseError "Failed to assign sponsor"), db)
   /\ exists db',
       updateSponsorshipRequestTracking c db key lastRequestAt
                                        nextEligibleAt
       = (Ok tt, db')
       /\ sponsorships db' = sponsorships db
       /\ updates db' = updates db)
  /\ (weather c = Failing invalid_uuid ->
      Queries.getSponsorshipById c db key
      = Throw (DatabaseError "Failed to get sponsorship")
      /\ assignSponsorToChild c db key d
         = (Throw (DatabaseError "Failed to assign sponsor"), db)
      /\ updateSponsorshipRequestTracking c db key lastRequestAt
                                          nextEligibleAt
         = (Throw (DatabaseError "Failed to update sponsorship"), db)).
Proof.
  split.
  - intros Hw Hok _ Hmiss. split; [| split].
    + now apply getSponsorshipById_fine.
    + unfold assignSponsorToChild, await_write, update_sponsorships_single.
      rewrite Hw.
      destruct (@select_absent _ id
                  (fun r => touch_sponsorship c (set_assigned c d r))
                  (sponsorships db) key Hmiss) as [-> ->].
      destruct (constraints_ok_elim db Hok) as (_ & -> & _). reflexivity.
    + eexists. split; [now apply updateSponsorshipRequestTracking_fine |].
      simpl. split; [| reflexivity].
      apply (@select_absent _ id
               (fun r => touch_sponsorship c
                           (set_request_tracking lastRequestAt
                                                 nextEligibleAt r))
               (sponsorships db) key Hmiss).
  - intros Hw.
    unfold Queries.getSponsorshipById, assignSponsorToChild,
      updateSponsorshipRequestTracking, await_read, await_write.
    rewrite Hw. repeat split.
Qed.

(** A uuid the store does not hold, and the text s404, which is no
    uuid. *)
Lemma unknown_sponsorship_id_witness :
  (exists db',
      updateSponsorshipRequestTracking
        (Sample.ctx 300 "x") Sample.db_one_sponsor
        "7c9e6679-7425-40de-944b-e07fc1f90ae7" 300 900
      = (Ok tt, db')
      /\ sponsorships db' = sponsorships Sample.db_one_sponsor
      /\ updates db' = updates Sample.db_one_sponsor)
  /\ uuid_text "s404" = false
  /\ updateSponsorshipRequestTracking
       {| js_clock := 300; js_year := 2025; js_today := "2025-06-01";
          js_draw := 4; pg_clock := 300; pg_uuid := "x";
          weather := Failing invalid_uuid |}
       Sample.db_one_sponsor "s404" 300 900
     = (Throw (DatabaseError "Failed to update sponsorship"),
        Sample.db_one_sponsor).
Proof.
  split; [| split; [reflexivity |]].
  - apply (proj1 (@unknown_sponsorship_id
                    (Sample.ctx 300 "x") Sample.db_one_sponsor
                    "7c9e6679-7425-40de-944b-e07fc1f90ae7"
                    {| as_sponsorEmail := "b@y.org"; as_sponsorName := None;
                       as_sponsorCode := "BAN-2026-555" |}
                    300 900));
      [reflexivity | reflexivity | reflexivity |].
    simpl. intros [H | []]. discriminate H.
  - apply (proj2 (@unknown_sponsorship_id
                    {| js_clock := 300; js_year := 2025;
                       js_today := "2025-06-01";
                       js_draw := 4; pg_clock := 300; pg_uuid := "x";
                       weather := Failing invalid_uuid |}
                    Sample.db_one_sponsor "s404"
                    {| as_sponsorEmail := "b@y.org"; as_sponsorName := None;
                       as_sponsorCode := "BAN-2026-555" |}
                    300 900)).
    reflexivity.
Defined.

(** ** Failures *)

Local Ltac failed_write H := inversion H; subst; clear H; auto.

(** Whatever goes wrong in a write of the layer (the client cannot be
    built, the request does not reach the backend, the backend or a
    constraint refuses it, the response is lost), what the write throws
    is a DatabaseError with the function's own fixed message or with
    "Failed to connect to database": nothing the backend said is in
    it. *)
Theorem failed_write_is_a_DatabaseError
        (c : Ctx) (db db' : Db) (e : Error) :
  (forall childId code,
      createUpdateRequest c db childId code = (Throw e, db') ->
      e = DatabaseError "Failed to create update request"
      \/ e = DatabaseError "Failed to connect to database")
  /\ (forall d,
         submitUpdate c db d = (Throw e, db') ->
         e = DatabaseError "Failed to submit update"
         \/ e = DatabaseError "Failed to connect to database")
  /\ (forall key,
         publishUpdate c db key = (Throw e, db') ->
         e = DatabaseError "Failed to publish update"
         \/ e = DatabaseError "Failed to connect to database")
  /\ (forall key,
         rejectUpdate c db key = (Throw e, db') ->
         e = DatabaseError "Failed to reject update"
         \/ e = DatabaseError "Failed to connect to database")
  /\ (forall d,
         createSponsorship c db d = (Throw e, db') ->
         e = DatabaseError "Failed to create sponsorship"
         \/ e = DatabaseError "Failed to connect to database")
  /\ (forall key d,
         assignSponsorToChild c db key d = (Throw e, db') ->
         e = DatabaseError "Failed to assign sponsor"
         \/ e = DatabaseError "Failed to connect to database")
  /\ (forall key t1 t2,
         updateSponsorshipRequestTracking c db key t1 t2 = (Throw e, db') ->
         e = DatabaseError "Failed to update sponsorship"
         \/ e = DatabaseError "Failed to connect to database").
Proof.
  split; [| split; [| split; [| split; [| split; [| split]]]]].
  - intros childId code. unfold createUpdateRequest, await_write.
    destruct (weather c); simpl; try (intros H; failed_write H; fail).
    match goal with
    | |- context [insert_update c db ?row] =>
        destruct (insert_update_cases c db row) as [[_ ->] | ->]
    end; simpl; intros H; try discriminate H; failed_write H.
  - intros d. unfold submitUpdate, await_write.
    destruct (weather c); simpl; try (intros H; failed_write H; fail).
    destruct (parse_update_type (su_updateType d)); simpl;
      [| intros H; failed_write H].
    match goal with
    | |- context [insert_update c db ?row] =>
        destruct (insert_update_cases c db row) as [[_ ->] | ->]
    end; simpl; intros H; try discriminate H; failed_write H.
  - intros key. unfold publishUpdate, await_write.
    destruct (weather c); simpl; try (intros H; failed_write H; fail).
    destruct (update_updates_single_cases c db
                (set_published (js_clock c)) key)
      as [(x & _ & _ & ->) | ->]; simpl; intros H;
      try discriminate H; failed_write H.
  - intros key. unfold rejectUpdate, await_write.
    destruct (weather c); simpl; try (intros H; failed_write H; fail).
    destruct (update_updates_single_cases c db set_rejected key)
      as [(x & _ & _ & ->) | ->]; simpl; intros H;
      try discriminate H; failed_write H.
  - intros d. unfold createSponsorship, await_write.
    destruct (weather c); simpl; try (intros H; failed_write H; fail).
    match goal with
    | |- context [insert_sponsorship c db ?row] =>
        destruct (insert_sponsorship_cases c db row)
          as [(_ & _ & ->) | [_ ->]]
    end; simpl; intros H; try discriminate H; failed_write H.
  - intros key d. unfold assignSponsorToChild, await_write.
    destruct (weather c); simpl; try (intros H; failed_write H; fail).
    destruct (update_sponsorships_single_cases c db (set_assigned c d) key)
      as [(_ & x & _ & _ & ->) | (e0 & ->)]; simpl; intros H;
      try discriminate H; failed_write H.
  - intros key t1 t2.
    unfold updateSponsorshipRequestTracking, await_write,
      update_sponsorships.
    destruct (weather c); simpl; try (intros H; failed_write H; fail);
      destruct (distinct _); simpl; intros H;
      try discriminate H; failed_write H.
Qed.

(** publishUpdate against a backend that answers with an error of its
    own: the caller sees the fixed message. *)
Lemma failed_write_witness :
  publishUpdate
    {| js_clock := 500; js_year := 2025; js_today := "2025-06-01";
       js_draw := 4; pg_clock := 500; pg_uuid := "x";
       weather := Failing {| code := "42501";
                             message := "permission denied for table updates" |} |}
    Sample.db_rejected "u1"
  = (Throw (DatabaseError "Failed to publish update"), Sample.db_rejected)
  /\ (DatabaseError "Failed to publish update"
      = DatabaseError "Failed to publish update"
      \/ DatabaseError "Failed to publish update"
         = DatabaseError "Failed to connect to database").
Proof.
  split; [reflexivity |].
  apply (proj1 (proj2 (proj2
           (failed_write_is_a_DatabaseError
              {| js_clock := 500; js_year := 2025; js_today := "2025-06-01";
                 js_draw := 4; pg_clock := 500; pg_uuid := "x";
                 weather := Failing
                              {| code := "42501";
                                 message := "permission denied for table updates" |} |}
              Sample.db_rejected Sample.db_rejected
              (DatabaseError "Failed to publish update")))) "u1").
  reflexivity.
Defined.



(** ** The review queue and the published lists *)

Section QueueFacts.

Lemma In_pending_rows (db : Db) (r : SupabaseUpdateRow) :
  In r (Queries.findPendingUpdates_rows db)
  <-> In r (updates db) /\ u_status r = PendingReview.
Proof.
  unfold Queries.findPendingUpdates_rows, eq_.
  rewrite <- (Permutation_in' (eq_refl r) (order_desc_perm submitted_at _)).
  rewrite filter_In, UpdateStatus_eqb_eq. reflexivity.
Qed.

Lemma findPendingUpdates_fine (c : Ctx) (db : Db) :
  weather c = Fine ->
  Queries.findPendingUpdates c db
  = Ok (map toAirtableUpdateRecord (Queries.findPendingUpdates_rows db)).
Proof.
  intros Hw. unfold Queries.findPendingUpdates, await_read. now rewrite Hw.
Qed.

(** The rows of a rewritten table that carry the rewritten key are
    rewritten rows. *)
Lemma rewritten_at_key {A} (key : A -> string) (f : A -> A) (rows : list A)
      (k : string) (r : A) :
  (forall x, key (f x) = key x) ->
  In r (map (fun x => if key x =? k then f x else x) rows) ->
  key r = k ->
  exists x, In x rows /\ key x = k /\ r = f x.
Proof.
  intros Hkey Hin Hk. apply in_map_iff in Hin.
  destruct Hin as (x & Hx & Hin). exists x.
  destruct (key x =? k) eqn:E.
  - apply String.eqb_eq in E. auto.
  - apply String.eqb_neq in E. subst r. contradiction.
Qed.

End QueueFacts.

(** findPendingUpdates, with the store answering, returns exactly the
    stored updates in PendingReview, latest submission first (rows
    without submission time first).  An update just submitted is in the
    queue; once publishUpdate or rejectUpdate has succeeded on an id, no
    update of that id is in it. *)
Theorem findPendingUpdates_is_the_queue :
  (forall c db,
      weather c = Fine ->
      exists rows,
        Queries.findPendingUpdates c db
        = Ok (map toAirtableUpdateRecord rows)
        /\ Permutation rows
             (filter (fun r => UpdateStatus_eqb (u_status r) PendingReview)
                     (updates db))
        /\ StronglySorted
             (fun a b => newest_first (submitted_at a) (submitted_at b))
             rows)
  /\ (forall c c' db db' d rec,
         weather c' = Fine ->
         submitUpdate c db d = (Ok rec, db') ->
         exists queue,
           Queries.findPendingUpdates c' db' = Ok queue /\ In rec queue)
  /\ (forall c c' db db' key rec,
         weather c' = Fine ->
         publishUpdate c db key = (Ok rec, db')
         \/ rejectUpdate c db key = (Ok rec, db') ->
         exists queue,
           Queries.findPendingUpdates c' db' = Ok queue
           /\ ~ In key (map r_id queue)).
Proof.
  split; [| split].
  - intros c db Hw. eexists.
    split; [now apply findPendingUpdates_fine |].
    split.
    + unfold Queries.findPendingUpdates_rows, eq_.
      symmetry. apply order_desc_perm.
    + apply order_desc_sorted.
  - intros c c' db db' d rec Hw H. eexists.
    split; [now apply findPendingUpdates_fine |].
    apply submitUpdate_ok in H.
    destruct H as (row & -> & -> & _ & _ & Hst & _).
    apply in_map. apply In_pending_rows. simpl.
    split; [apply in_or_app; simpl; auto | exact Hst].
  - intros c c' db db' key rec Hw H. eexists.
    split; [now apply findPendingUpdates_fine |].
    rewrite map_map. simpl. intros Hin.
    apply in_map_iff in Hin. destruct Hin as (r & Hid & Hr).
    apply In_pending_rows in Hr. destruct Hr as [Hr Hst].
    destruct H as [H | H].
    + apply publishUpdate_ok in H. destruct H as (x & _ & _ & _ & ->).
      simpl in Hr.
      destruct (@rewritten_at_key _ u_id
                  (fun r => touch_update c (set_published (js_clock c) r))
                  (updates db) key r (fun x => eq_refl) Hr Hid)
        as (x' & _ & _ & ->).
      discriminate Hst.
    + apply rejectUpdate_ok in H. destruct H as (x & _ & _ & _ & ->).
      simpl in Hr.
      destruct (@rewritten_at_key _ u_id
                  (fun r => touch_update c (set_rejected r))
                  (updates db) key r (fun x => eq_refl) Hr Hid)
        as (x' & _ & _ & ->).
      discriminate Hst.
Qed.

(** A field report is submitted and shows in the queue. *)
Lemma findPendingUpdates_witness :
  exists rec db1,
    submitUpdate (Sample.ctx 300 "u5") Sample.db_one_sponsor
                 {| su_childId := "CH-7"; su_sponsorCode := None;
                    su_updateType := "Milestone"; su_title := "Grade 4";
                    su_content := "Promoted."; su_submittedBy := "field" |}
    = (Ok rec, db1)
    /\ (exists queue,
           Queries.findPendingUpdates (Sample.ctx 310 "x") db1 = Ok queue
           /\ In rec queue).
Proof.
  eexists _, _.
  split; [cbv; reflexivity |].
  eapply (proj1 (proj2 findPendingUpdates_is_the_queue)
                (Sample.ctx 300 "u5") (Sample.ctx 310 "x")
                Sample.db_one_sponsor _
                {| su_childId := "CH-7"; su_sponsorCode := None;
                   su_updateType := "Milestone"; su_title := "Grade 4";
                   su_content := "Promoted."; su_submittedBy := "field" |});
    [reflexivity | cbv; reflexivity].
Defined.

Section NewestFacts.

Lemma In_most_recent_rows (db : Db) (childId : string)
      (r : SupabaseUpdateRow) :
  In r (Queries.findMostRecentUpdateForChild_rows db childId)
  <-> In r (updates db) /\ u_child_id r = childId /\ u_status r = Published.
Proof.
  unfold Queries.findMostRecentUpdateForChild_rows, eq_.
  rewrite <- (Permutation_in' (eq_refl r) (order_desc_perm published_at _)).
  rewrite !filter_In, UpdateStatus_eqb_eq, String.eqb_eq. tauto.
Qed.

Lemma newest_first_refl (a : option Timestamp) : newest_first a a.
Proof. destruct a; simpl; [lia | exact I]. Qed.

Lemma filter_all {A} (p : A -> bool) (l : list A) :
  (forall x, In x l -> p x = true) -> filter p l = l.
Proof.
  induction l as [| x rest IH]; simpl; intros H; [reflexivity |].
  rewrite (H x (or_introl eq_refl)). f_equal. apply IH. auto.
Qed.

(** Where the visibility flag follows the status, the two queries read
    the same rows. *)
Lemma most_recent_rows_are_listed_rows (db : Db) (childId : string) :
  visible_iff_published db ->
  findUpdatesForChild_rows db childId
  = Queries.findMostRecentUpdateForChild_rows db childId.
Proof.
  intros Hinv.
  unfold findUpdatesForChild_rows, Queries.findMostRecentUpdateForChild_rows.
  f_equal. unfold eq_ at 1. apply filter_all.
  intros r Hr. unfold eq_ in Hr.
  apply filter_In in Hr. destruct Hr as [Hr Hst].
  apply filter_In in Hr. destruct Hr as [Hr _].
  apply UpdateStatus_eqb_eq in Hst.
  apply Bool.eqb_true_iff. now apply Hinv.
Qed.

Lemma findMostRecentUpdateForChild_fine (c : Ctx) (db : Db)
      (childId : string) :
  weather c = Fine ->
  Queries.findMostRecentUpdateForChild c db childId
  = Ok (match Queries.findMostRecentUpdateForChild_rows db childId with
        | [] => None
        | row :: _ => Some (toAirtableUpdateRecord row)
        end).
Proof.
  intros Hw. unfold Queries.findMostRecentUpdateForChild, await_read.
  rewrite Hw, single_limit_1.
  now destruct (Queries.findMostRecentUpdateForChild_rows db childId).
Qed.

End NewestFacts.

(** findMostRecentUpdateForChild, with the store answering, returns None
    when the child has no Published update, and otherwise a Published
    update of the child that no other Published update of the child is
    newer than.  It does not look at the visibility flag; in a store
    where the flag follows the status, and no two Published updates of
    the child share a publication time (or lack one), it returns the
    first entry of findUpdatesForChild. *)
Theorem findMostRecentUpdateForChild_is_newest
        (c : Ctx) (db : Db) (childId : string) :
  weather c = Fine ->
  (((forall r, In r (updates db) ->
               ~ (u_child_id r = childId /\ u_status r = Published))
    /\ Queries.findMostRecentUpdateForChild c db childId = Ok None)
   \/ (exists row,
          In row (updates db)
          /\ u_child_id row = childId
          /\ u_status row = Published
          /\ Queries.findMostRecentUpdateForChild c db childId
             = Ok (Some (toAirtableUpdateRecord row))
          /\ forall r, In r (updates db) ->
                       u_child_id r = childId -> u_status r = Published ->
                       newest_first (published_at row) (published_at r)))
  /\ (visible_iff_published db ->
      NoDup (map published_at
                 (filter (fun r => (u_child_id r =? childId)
                                   && UpdateStatus_eqb (u_status r)
                                                       Published)
                         (updates db))) ->
      forall listed,
        findUpdatesForChild c db childId = Ok listed ->
        Queries.findMostRecentUpdateForChild c db childId
        = Ok (hd_error listed)).
Proof.
  intros Hw. split.
  - rewrite (@findMostRecentUpdateForChild_fine c db childId Hw).
    pose proof (In_most_recent_rows db childId) as Hin.
    pose proof (order_desc_sorted published_at
                  (eq_ (fun r => UpdateStatus_eqb (u_status r) Published)
                     (eq_ (fun r => u_child_id r =? childId) (updates db))))
      as Hsorted.
    fold (Queries.findMostRecentUpdateForChild_rows db childId) in Hsorted.
    destruct (Queries.findMostRecentUpdateForChild_rows db childId)
      as [| row rest].
    + left. split; [| reflexivity].
      intros r Hr [Hc Hs]. apply (proj2 (Hin r)); auto.
    + right. exists row.
      destruct (proj1 (Hin row) (or_introl eq_refl)) as (H1 & H2 & H3).
      repeat split; auto.
      intros r Hr Hc Hs.
      assert (Hr' : In r (row :: rest)) by (apply Hin; auto).
      inversion Hsorted as [| ? ? _ Hall]; subst.
      destruct Hr' as [<- | Hr']; [apply newest_first_refl |].
      rewrite Forall_forall in Hall. now apply Hall.
  - intros Hinv _ listed Hlisted.
    rewrite (@findUpdatesForChild_fine c db childId Hw) in Hlisted.
    inversion Hlisted; subst listed.
    rewrite (@findMostRecentUpdateForChild_fine c db childId Hw).
    rewrite (@most_recent_rows_are_listed_rows db childId Hinv).
    now destruct (Queries.findMostRecentUpdateForChild_rows db childId).
Qed.

(** For the child with one update published at 100, that update is the
    most recent one. *)
Lemma findMostRecentUpdateForChild_witness :
  Queries.findMostRecentUpdateForChild (Sample.ctx 300 "x")
                                       Sample.db_published "CH-7"
  = Ok (hd_error [toAirtableUpdateRecord
                    (Sample.update "u1" Published true (Some 100))]).
Proof.
  apply (proj2 (@findMostRecentUpdateForChild_is_newest
                  (Sample.ctx 300 "x") Sample.db_published "CH-7" eq_refl)).
  - intros u [<- | []]. simpl. split; reflexivity.
  - simpl. constructor; [intros [] | constructor].
  - reflexivity.
Defined.

(** findAllPublishedUpdates, with the store answering, returns exactly
    the stored Published updates, newest publication first, and every
    entry of a child's list (findUpdatesForChild) is among them. *)
Theorem findAllPublishedUpdates_covers_the_lists (c : Ctx) (db : Db) :
  weather c = Fine ->
  exists rows,
    Queries.findAllPublishedUpdates c db
    = Ok (map toAirtableUpdateRecord rows)
    /\ Permutation rows
         (filter (fun r => UpdateStatus_eqb (u_status r) Published)
                 (updates db))
    /\ StronglySorted
         (fun a b => newest_first (published_at a) (published_at b)) rows
    /\ forall childId listed rec,
        findUpdatesForChild c db childId = Ok listed ->
        In rec listed ->
        In rec (map toAirtableUpdateRecord rows).
Proof.
  intros Hw. exists (Queries.findAllPublishedUpdates_rows db).
  split.
  { unfold Queries.findAllPublishedUpdates, await_read. now rewrite Hw. }
  split.
  { unfold Queries.findAllPublishedUpdates_rows, eq_.
    symmetry. apply order_desc_perm. }
  split; [apply order_desc_sorted |].
  intros childId listed rec Hlisted Hrec.
  rewrite (@findUpdatesForChild_fine c db childId Hw) in Hlisted.
  inversion Hlisted; subst listed.
  apply in_map_iff in Hrec. destruct Hrec as (r & <- & Hr).
  apply in_map. apply In_rows in Hr. destruct Hr as (Hin & _ & Hst & _).
  unfold Queries.findAllPublishedUpdates_rows, eq_.
  apply (Permutation_in _ (order_desc_perm published_at _)).
  apply filter_In. split; [exact Hin | now apply UpdateStatus_eqb_eq].
Qed.

Lemma findAllPublishedUpdates_witness :
  exists rows,
    Queries.findAllPublishedUpdates (Sample.ctx 300 "x") Sample.db_published
    = Ok (map toAirtableUpdateRecord rows)
    /\ Permutation rows
         (filter (fun r => UpdateStatus_eqb (u_status r) Published)
                 (updates Sample.db_published)).
Proof.
  destruct (@findAllPublishedUpdates_covers_the_lists
              (Sample.ctx 300 "x") Sample.db_published eq_refl)
    as (rows & Hres & Hperm & _).
  exists rows. split; assumption.
Defined.

(** ** Sponsorships by code *)

Section ByCodeFacts.

Lemma constraints_ok_codes (db : Db) :
  constraints_ok db = true ->
  distinct (map sponsor_code (sponsorships db)) = true.
Proof. intros H. now apply constraints_ok_elim in H. Qed.

Lemma findSponsorshipBySponsorCode_fine (c : Ctx) (db : Db) :
  weather c = Fine ->
  constraints_ok db = true ->
  (forall row, In row (sponsorships db) ->
               Queries.findSponsorshipBySponsorCode c db (sponsor_code row)
               = Ok (Some (toAirtableSponsorshipRecord row)))
  /\ (forall code, ~ In code (map sponsor_code (sponsorships db)) ->
                   Queries.findSponsorshipBySponsorCode c db code = Ok None).
Proof.
  intros Hw Hok. apply constraints_ok_codes in Hok.
  unfold Queries.findSponsorshipBySponsorCode, await_read, eq_.
  rewrite Hw. split.
  - intros row Hin.
    now rewrite (select_unique sponsor_code (sponsorships db) row Hok Hin).
  - intros code Hmiss.
    destruct (@select_absent _ sponsor_code (fun r => r) (sponsorships db)
                             code Hmiss) as [_ ->].
    reflexivity.
Qed.

(** findSponsorshipByCode on the code of a stored row, codes being
    unique: that row if it is Active and visible, else nothing. *)
Lemma findSponsorshipByCode_of_row (c : Ctx) (db : Db)
      (row : SupabaseSponsorshipRow) :
  weather c = Fine ->
  constraints_ok db = true ->
  In row (sponsorships db) ->
  (auth_status row = Active /\ visible_to_sponsor row = true ->
   findSponsorshipByCode c db (sponsor_code row)
   = Ok (Some (toAirtableSponsorshipRecord row)))
  /\ (~ (auth_status row = Active /\ visible_to_sponsor row = true) ->
      findSponsorshipByCode c db (sponsor_code row) = Ok None).
Proof.
  intros Hw Hok Hin. apply constraints_ok_codes in Hok.
  destruct (@findSponsorshipByCode_fine c db (sponsor_code row) Hw)
    as [(row' & Hin' & (Hcode & Hauth & Hvis) & Hres) | [Hnone Hres]].
  - assert (row' = row) as ->
        by (apply (same_key_same_row sponsor_code (sponsorships db)); auto).
    split; [intros _; exact Hres | intros Hnot; tauto].
  - split; [| intros _; exact Hres].
    intros [Hauth Hvis]. exfalso. apply (Hnone row Hin).
    unfold by_code. auto.
Qed.

End ByCodeFacts.

(** findSponsorshipBySponsorCode does not ask for activation or
    visibility: with the store answering and codes unique, it returns the
    stored sponsorship that carries the code whatever its state, where
    findSponsorshipByCode returns it only when it is Active and visible;
    a code no sponsorship carries gives None in both. *)
Theorem findSponsorshipBySponsorCode_ignores_state (c : Ctx) (db : Db) :
  weather c = Fine ->
  constraints_ok db = true ->
  (forall row,
      In row (sponsorships db) ->
      Queries.findSponsorshipBySponsorCode c db (sponsor_code row)
      = Ok (Some (toAirtableSponsorshipRecord row))
      /\ (auth_status row = Active /\ visible_to_sponsor row = true ->
          findSponsorshipByCode c db (sponsor_code row)
          = Ok (Some (toAirtableSponsorshipRecord row)))
      /\ (~ (auth_status row = Active /\ visible_to_sponsor row = true) ->
          findSponsorshipByCode c db (sponsor_code row) = Ok None))
  /\ (forall code,
         ~ In code (map sponsor_code (sponsorships db)) ->
         Queries.findSponsorshipBySponsorCode c db code = Ok None
         /\ findSponsorshipByCode c db code = Ok None).
Proof.
  intros Hw Hok. split.
  - intros row Hin.
    split; [now apply findSponsorshipBySponsorCode_fine |].
    now apply findSponsorshipByCode_of_row.
  - intros code Hmiss.
    split; [now apply findSponsorshipBySponsorCode_fine |].
    destruct (@findSponsorshipByCode_fine c db code Hw)
      as [(row' & Hin' & (Hcode & _) & _) | [_ Hres]]; [| exact Hres].
    exfalso. apply Hmiss. rewrite <- Hcode. now apply in_map.
Qed.

(** A suspended sponsorship: found for notifications, not for
    sessions. *)
Lemma findSponsorshipBySponsorCode_witness :
  Queries.findSponsorshipBySponsorCode
    (Sample.ctx 300 "x")
    {| sponsorships :=
         [Sample.sponsorship "s1" "BAN-2025-104" "a@x.com" Suspended true
                             None];
       updates := [] |}
    "BAN-2025-104"
  = Ok (Some (toAirtableSponsorshipRecord
                (Sample.sponsorship "s1" "BAN-2025-104" "a@x.com" Suspended
                                    true None)))
  /\ findSponsorshipByCode
       (Sample.ctx 300 "x")
       {| sponsorships :=
            [Sample.sponsorship "s1" "BAN-2025-104" "a@x.com" Suspended true
                                None];
          updates := [] |}
       "BAN-2025-104"
     = Ok None.
Proof.
  destruct (proj1 (@findSponsorshipBySponsorCode_ignores_state
                     (Sample.ctx 300 "x")
                     {| sponsorships :=
                          [Sample.sponsorship "s1" "BAN-2025-104" "a@x.com"
                                              Suspended true None];
                        updates := [] |}
                     eq_refl eq_refl)
                  (Sample.sponsorship "s1" "BAN-2025-104" "a@x.com"
                                      Suspended true None)
                  (or_introl eq_refl))
    as (Hany & _ & Hnot).
  split; [exact Hany |].
  apply Hnot. intros [H _]. discriminate H.
Defined.

(** A sponsorship createSponsorship has stored can be found at once: by
    its record id, by its code, and by its sponsor's email with its code,
    each returning the record createSponsorship returned, which is Active
    and visible. *)
Theorem createSponsorship_can_log_in
        (c c' : Ctx) (db db' : Db) (d : CreateSponsorshipData)
        (rec : AirtableSponsorshipRecord) :
  weather c' = Fine ->
  constraints_ok db = true ->
  createSponsorship c db d = (Ok rec, db') ->
  AuthStatus_ (s_fields rec) = Active
  /\ VisibleToSponsor (s_fields rec) = true
  /\ SponsorEmail (s_fields rec) = cs_sponsorEmail d
  /\ Queries.getSponsorshipById c' db' (s_id rec) = Ok (Some rec)
  /\ findSponsorshipByCode c' db' (SponsorCode (s_fields rec))
     = Ok (Some rec)
  /\ findSponsorshipByCredentials c' db' (cs_sponsorEmail d)
                                  (SponsorCode (s_fields rec))
     = Ok (Some rec).
Proof.
  intros Hw Hok H.
  pose proof (write_step_constraints c (Writes.CreateSponsorship d) db Hok)
    as Hok'.
  simpl in Hok'. rewrite H in Hok'. simpl in Hok'.
  unfold createSponsorship, await_write in H.
  destruct (weather c); simpl in H; try discriminate H.
  match type of H with
  | context [insert_sponsorship c db ?r] =>
      set (row := r) in *;
      destruct (insert_sponsorship_cases c db row)
        as [(Hid & Hcode & Hins) | [_ Hins]];
      rewrite Hins in H; simpl in H; try discriminate H
  end.
  inversion H; subst rec db'. clear H Hins.
  assert (Hin : In row (sponsorships
                          {| sponsorships := sponsorships db ++ [row];
                             updates := updates db |}))
    by (simpl; apply in_or_app; simpl; auto).
  split; [reflexivity |]. split; [reflexivity |]. split; [reflexivity |].
  split.
  { apply (proj1 (getSponsorshipById_fine c' _ Hw Hok') row Hin). }
  split.
  { apply (proj1 (@findSponsorshipByCode_of_row c' _ row Hw Hok' Hin)).
    split; reflexivity. }
  change (SponsorCode (s_fields (toAirtableSponsorshipRecord row)))
    with (sponsor_code row).
  destruct (@findSponsorshipByCredentials_fine
              c' {| sponsorships := sponsorships db ++ [row];
                    updates := updates db |}
              (cs_sponsorEmail d) (sponsor_code row) Hw)
    as [(row' & Hin' & _ & (Hcode' & _) & Hres) | [Hnone _]].
  - assert (row' = row) as ->; [| exact Hres].
    apply (same_key_same_row sponsor_code
             (sponsorships {| sponsorships := sponsorships db ++ [row];
                              updates := updates db |}));
      auto using constraints_ok_codes.
  - exfalso. apply (Hnone row Hin). unfold by_code. repeat split.
Qed.

Lemma createSponsorship_can_log_in_witness :
  exists rec db',
    createSponsorship
      (Sample.ctx 400 "s2") Pg.empty
      {| cs_sponsorEmail := "b@y.org"; cs_sponsorName := Some "Bo";
         cs_childId := "CH-8"; cs_childDisplayName := "Akello";
         cs_childPhoto := None; cs_childAge := None;
         cs_childLocation := None |}
    = (Ok rec, db')
    /\ findSponsorshipByCredentials (Sample.ctx 410 "x") db' "b@y.org"
                                    (SponsorCode (s_fields rec))
       = Ok (Some rec).
Proof.
  eexists _, _. split; [cbv; reflexivity |].
  eapply (@createSponsorship_can_log_in
            (Sample.ctx 400 "s2") (Sample.ctx 410 "x") Pg.empty
            _
            {| cs_sponsorEmail := "b@y.org"; cs_sponsorName := Some "Bo";
               cs_childId := "CH-8"; cs_childDisplayName := "Akello";
               cs_childPhoto := None; cs_childAge := None;
               cs_childLocation := None |});
    [reflexivity | reflexivity | cbv; reflexivity].
Defined.

(** ** Assigning a sponsor *)

Section AssignSessionFacts.

Lemma assignSponsorToChild_ok (c : Ctx) (db db' : Db) (key : string)
      (d : SponsorData) (rec : AirtableSponsorshipRecord) :
  assignSponsorToChild c db key d = (Ok rec, db') ->
  exists x,
    In x (sponsorships db) /\ id x = key
    /\ rec = toAirtableSponsorshipRecord
               (touch_sponsorship c (set_assigned c d x))
    /\ db' = {| sponsorships :=
                  map (fun r => if id r =? key
                                then touch_sponsorship c (set_assigned c d r)
                                else r)
                      (sponsorships db);
                updates := updates db |}.
Proof.
  unfold assignSponsorToChild, await_write.
  destruct (weather c); simpl; try discriminate.
  destruct (update_sponsorships_single_cases c db (set_assigned c d) key)
    as [(_ & x & Hx & Hkey & ->) | (e & ->)]; simpl; try discriminate.
  intros H. inversion H; subst. exists x. auto.
Qed.

Variable JSON_parse : string -> option SessionData.
Variable Date_parse : string -> option Timestamp.

(** After assignSponsorToChild has given a stored record another code,
    the old code finds no sponsorship any more and the new code finds the
    record assignSponsorToChild returned.  So a live session bound to the
    old code stops verifying, and one bound to the new code verifies. *)
Theorem assignSponsorToChild_moves_the_code
        (c c' : Ctx) (db db' : Db) (row : SupabaseSponsorshipRow)
        (d : SponsorData) (rec : AirtableSponsorshipRecord) :
  weather c' = Fine ->
  constraints_ok db = true ->
  In row (sponsorships db) ->
  sponsor_code row <> as_sponsorCode d ->
  assignSponsorToChild c db (id row) d = (Ok rec, db') ->
  findSponsorshipByCode c' db' (sponsor_code row) = Ok None
  /\ findSponsorshipByCode c' db' (as_sponsorCode d) = Ok (Some rec)
  /\ forall sessionCookie session,
      getSession JSON_parse Date_parse c' sessionCookie = Some session ->
      (sponsorCode session = sponsor_code row ->
       verifySession JSON_parse Date_parse c' db' sessionCookie = Ok None)
      /\ (sponsorCode session = as_sponsorCode d ->
          verifySession JSON_parse Date_parse c' db' sessionCookie
          = Ok (Some rec)).
Proof.
  intros Hw Hok Hin Hdiff H.
  pose proof (write_step_constraints c
                (Writes.AssignSponsorToChild (id row) d) db Hok) as Hok'.
  simpl in Hok'. rewrite H in Hok'. simpl in Hok'.
  destruct (constraints_ok_elim db Hok) as (Hids & Hcodes & _).
  apply assignSponsorToChild_ok in H.
  destruct H as (x & Hx & Hkey & -> & Hdb).
  assert (x = row) as ->
      by (apply (same_key_same_row id (sponsorships db)); auto).
  clear Hx Hkey.
  assert (Hold : findSponsorshipByCode c' db' (sponsor_code row) = Ok None).
  { destruct (@findSponsorshipByCode_fine c' db' (sponsor_code row) Hw)
      as [(row' & Hin' & Hby & _) | [_ Hres]]; [| exact Hres].
    exfalso. destruct Hby as (Hcode & _).
    rewrite Hdb in Hin'. simpl in Hin'.
    apply in_map_iff in Hin'. destruct Hin' as (x0 & Hx0 & Hin0).
    destruct (id x0 =? id row) eqn:E.
    - subst row'. simpl in Hcode. congruence.
    - subst row'. apply String.eqb_neq in E. apply E. f_equal.
      apply (same_key_same_row sponsor_code (sponsorships db)); auto. }
  assert (Hnew : findSponsorshipByCode c' db' (as_sponsorCode d)
                 = Ok (Some (toAirtableSponsorshipRecord
                               (touch_sponsorship c (set_assigned c d row))))).
  { change (as_sponsorCode d)
      with (sponsor_code (touch_sponsorship c (set_assigned c d row))).
    assert (Hin' : In (touch_sponsorship c (set_assigned c d row))
                      (sponsorships db')).
    { rewrite Hdb. simpl.
      apply (In_rewritten id
               (fun r => touch_sponsorship c (set_assigned c d r))
               (sponsorships db) row Hin). }
    apply (proj1 (@findSponsorshipByCode_of_row c' db' _ Hw Hok' Hin')).
    split; reflexivity. }
  split; [exact Hold |]. split; [exact Hnew |].
  intros sessionCookie session Hs. unfold verifySession. rewrite Hs.
  split; intros ->; [now rewrite Hold | now rewrite Hnew].
Qed.

End AssignSessionFacts.

(** The sponsorship BAN-2025-104 is given the code BAN-2026-555: the
    sample session, bound to the old code, no longer verifies. *)
Lemma assignSponsorToChild_moves_the_code_witness :
  exists rec db',
    assignSponsorToChild
      (Sample.ctx 600 "x") Sample.db_one_sponsor "s1"
      {| as_sponsorEmail := "b@y.org"; as_sponsorName := None;
         as_sponsorCode := "BAN-2026-555" |}
    = (Ok rec, db')
    /\ verifySession Sample.JSON_parse Sample.Date_parse
                     (Sample.ctx 1750723200000 "x") db'
                     (Some (Sample.JSON_stringify Sample.session))
       = Ok None.
Proof.
  eexists _, _. split; [cbv; reflexivity |].
  eapply (proj1 (proj2 (proj2
            (@assignSponsorToChild_moves_the_code
               Sample.JSON_parse Sample.Date_parse
               (Sample.ctx 600 "x") (Sample.ctx 1750723200000 "x")
               Sample.db_one_sponsor _
               (Sample.sponsorship "s1" "BAN-2025-104" "a@x.com" Active true
                                   None)
               {| as_sponsorEmail := "b@y.org"; as_sponsorName := None;
                  as_sponsorCode := "BAN-2026-555" |}
               _ eq_refl eq_refl (or_introl eq_refl) _ _))
            (Some (Sample.JSON_stringify Sample.session)) Sample.session _)).
  Unshelve.
  all: try (cbv; reflexivity).
  all: cbv; intros H; discriminate H.
Defined.

(** ** The catalogues *)

Section CatalogueFacts.

Variable text_le : string -> string -> bool.

Lemma insert_asc_perm {A} (key : A -> string) (r : A) (l : list A) :
  Permutation (r :: l) (Queries.insert_asc text_le key r l).
Proof.
  induction l as [| x rest IH]; simpl.
  - reflexivity.
  - destruct (text_le (key r) (key x)).
    + reflexivity.
    + rewrite perm_swap. now apply perm_skip.
Qed.

Lemma order_asc_perm {A} (key : A -> string) (l : list A) :
  Permutation l (Queries.order_asc text_le key l).
Proof.
  induction l as [| r rest IH]; simpl.
  - reflexivity.
  - rewrite <- insert_asc_perm. now apply perm_skip.
Qed.

Lemma In_active_rows (db : Db) (r : SupabaseSponsorshipRow) :
  In r (Queries.findAllActiveSponsorships_rows text_le db)
  <-> In r (sponsorships db)
      /\ auth_status r = Active /\ visible_to_sponsor r = true.
Proof.
  unfold Queries.findAllActiveSponsorships_rows, eq_.
  rewrite <- (Permutation_in' (eq_refl r) (order_asc_perm sponsor_code _)).
  rewrite !filter_In, AuthStatus_eqb_eq, Bool.eqb_true_iff. tauto.
Qed.

Lemma In_available_rows (db : Db) (r : SupabaseSponsorshipRow) :
  In r (Queries.findAvailableChildren_rows text_le db)
  <-> In r (sponsorships db) /\ Pg.status r = Some AwaitingSponsor.
Proof.
  unfold Queries.findAvailableChildren_rows, eq_.
  rewrite <- (Permutation_in' (eq_refl r)
                (order_asc_perm child_display_name _)).
  rewrite filter_In. unfold Queries.awaiting.
  destruct (Pg.status r) as [[]|]; simpl; intuition congruence.
Qed.

Lemma findAllActiveSponsorships_fine (c : Ctx) (db : Db) :
  weather c = Fine ->
  Queries.findAllActiveSponsorships text_le c db
  = Ok (map toAirtableSponsorshipRecord
            (Queries.findAllActiveSponsorships_rows text_le db)).
Proof.
  intros Hw. unfold Queries.findAllActiveSponsorships, await_read.
  now rewrite Hw.
Qed.

Lemma findAvailableChildren_fine (c : Ctx) (db : Db) :
  weather c = Fine ->
  Queries.findAvailableChildren text_le c db
  = Ok (map toAirtableSponsorshipRecord
            (Queries.findAvailableChildren_rows text_le db)).
Proof.
  intros Hw. unfold Queries.findAvailableChildren, await_read.
  now rewrite Hw.
Qed.

Hypothesis text_le_total :
  forall a b, text_le a b = true \/ text_le b a = true.
Hypothesis text_le_trans :
  forall a b c,
    text_le a b = true -> text_le b c = true -> text_le a c = true.

Lemma insert_asc_sorted {A} (key : A -> string) (r : A) (l : list A) :
  StronglySorted (fun a b => text_le (key a) (key b) = true) l ->
  StronglySorted (fun a b => text_le (key a) (key b) = true)
                 (Queries.insert_asc text_le key r l).
Proof.
  induction 1 as [| x rest Hrest IH Hx]; simpl.
  - repeat constructor.
  - destruct (text_le (key r) (key x)) eqn:E.
    + constructor; [now constructor |].
      constructor; [exact E |].
      eapply Forall_impl; [| exact Hx].
      intros y Hy. eapply text_le_trans; eauto.
    + constructor; [exact IH |].
      rewrite <- insert_asc_perm. constructor; [| exact Hx].
      destruct (text_le_total (key r) (key x)); congruence.
Qed.

Lemma order_asc_sorted {A} (key : A -> string) (l : list A) :
  StronglySorted (fun a b => text_le (key a) (key b) = true)
                 (Queries.order_asc text_le key l).
Proof.
  induction l as [| r rest IH]; simpl.
  - constructor.
  - now apply insert_asc_sorted.
Qed.

(** With the store answering, and the collation a total preorder,
    findAllActiveSponsorships returns the conversion of exactly the
    stored sponsorships that are Active and visible, in ascending order of
    sponsor code, and findAvailableChildren the conversion of exactly
    those whose status is Awaiting Sponsor (a NULL status is in neither
    case a match), in ascending order of the child's display name. *)
Theorem catalogues_list_the_matching_rows (c : Ctx) (db : Db) :
  weather c = Fine ->
  (exists rows,
      Queries.findAllActiveSponsorships text_le c db
      = Ok (map toAirtableSponsorshipRecord rows)
      /\ Permutation rows
           (filter (fun r => AuthStatus_eqb (auth_status r) Active
                             && visible_to_sponsor r)
                   (sponsorships db))
      /\ StronglySorted
           (fun a b => text_le (sponsor_code a) (sponsor_code b) = true)
           rows)
  /\ (exists rows,
         Queries.findAvailableChildren text_le c db
         = Ok (map toAirtableSponsorshipRecord rows)
         /\ Permutation rows
              (filter (fun r => match Pg.status r with
                                | Some AwaitingSponsor => true
                                | _ => false
                                end)
                      (sponsorships db))
         /\ StronglySorted
              (fun a b => text_le (child_display_name a)
                                  (child_display_name b) = true)
              rows).
Proof.
  intros Hw. split.
  - exists (Queries.findAllActiveSponsorships_rows text_le db).
    split; [now apply findAllActiveSponsorships_fine |].
    split; [| apply order_asc_sorted].
    unfold Queries.findAllActiveSponsorships_rows, eq_.
    rewrite <- order_asc_perm, filter_twice.
    erewrite filter_ext; [reflexivity |].
    intros r. simpl. destruct (visible_to_sponsor r), (auth_status r);
      reflexivity.
  - exists (Queries.findAvailableChildren_rows text_le db).
    split; [now apply findAvailableChildren_fine |].
    split; [| apply order_asc_sorted].
    unfold Queries.findAvailableChildren_rows, eq_.
    rewrite <- order_asc_perm.
    erewrite filter_ext; [reflexivity |].
    intros r. unfold Queries.awaiting.
    destruct (Pg.status r) as [[]|]; reflexivity.
Qed.

End CatalogueFacts.

Lemma String_leb_trans (a b c : string) :
  String.leb a b = true -> String.leb b c = true -> String.leb a c = true.
Proof.
  unfold String.leb. revert b c.
  induction a as [| x a IH]; intros [| y b] [| z c]; simpl; try easy.
  unfold Ascii.compare.
  destruct (N.compare_spec (N_of_ascii x) (N_of_ascii y));
    destruct (N.compare_spec (N_of_ascii y) (N_of_ascii z));
    destruct (N.compare_spec (N_of_ascii x) (N_of_ascii z));
    try easy; try lia.
  apply IH.
Qed.

(** Under the bytewise order of texts, the store holding one sponsored
    and one waiting child lists the waiting child, and only it, as
    available. *)
Lemma catalogues_witness :
  exists rows,
    Queries.findAvailableChildren
      String.leb (Sample.ctx 700 "x") Sample.db_with_awaiting_child
    = Ok (map toAirtableSponsorshipRecord rows)
    /\ Permutation rows [Sample.awaiting_child "s2" "WAIT-1" "Akello"].
Proof.
  destruct (proj2 (@catalogues_list_the_matching_rows
                     String.leb String.leb_total String_leb_trans
                     (Sample.ctx 700 "x") Sample.db_with_awaiting_child
                     eq_refl))
    as (rows & H & Hp & _).
  exists rows. split; [exact H | exact Hp].
Defined.

Section CatalogueWrites.

Variable text_le : string -> string -> bool.

Lemma In_converted {A B} (f : A -> B) (P : A -> Prop) (l l' : list A) :
  (forall x, In x l' <-> In x l /\ P x) ->
  forall y, In y (map f l') <-> exists x, In x l /\ P x /\ f x = y.
Proof.
  intros H y. rewrite in_map_iff. split.
  - intros (x & <- & Hx). apply H in Hx. exists x. tauto.
  - intros (x & Hx & HP & <-). exists x. split; [reflexivity |].
    apply H. tauto.
Qed.


(** When createSponsorship succeeds, the record it returned is on the list
    of active sponsorships, beside exactly the records that were on it,
    and the available children are the same as before. *)
Theorem createSponsorship_joins_the_active_list
        (c c' : Ctx) (db db' : Db) (d : CreateSponsorshipData)
        (rec : AirtableSponsorshipRecord) :
  weather c' = Fine ->
  createSponsorship c db d = (Ok rec, db') ->
  exists before after were actives,
    Queries.findAvailableChildren text_le c' db = Ok before
    /\ Queries.findAvailableChildren text_le c' db' = Ok after
    /\ Queries.findAllActiveSponsorships text_le c' db = Ok were
    /\ Queries.findAllActiveSponsorships text_le c' db' = Ok actives
    /\ (forall r, In r after <-> In r before)
    /\ (forall r, In r actives <-> In r were \/ r = rec).
Proof.
  intros Hw H.
  assert (Hrow : exists row,
             rec = toAirtableSponsorshipRecord row
             /\ auth_status row = Active
             /\ visible_to_sponsor row = true
             /\ Pg.status row = Some StatusActive
             /\ db' = {| sponsorships := sponsorships db ++ [row];
                         updates := updates db |}).
  { revert H. unfold createSponsorship, await_write.
    destruct (weather c); simpl; try discriminate.
    match goal with
    | |- context [insert_sponsorship c db ?row] =>
        destruct (insert_sponsorship_cases c db row)
          as [(Hid & Hcode & ->) | [_ ->]];
        simpl; try discriminate; intros H; exists row
    end.
    inversion H; subst. auto. }
  destruct Hrow as (row & -> & Hauth & Hvis & Hst & Hdb).
  eexists _, _, _, _.
  split; [now apply findAvailableChildren_fine |].
  split; [now apply findAvailableChildren_fine |].
  split; [now apply findAllActiveSponsorships_fine |].
  split; [now apply findAllActiveSponsorships_fine |].
  split; intros r.
  - rewrite (In_converted toAirtableSponsorshipRecord _ _ _
               (In_available_rows text_le db')).
    rewrite (In_converted toAirtableSponsorshipRecord _ _ _
               (In_available_rows text_le db)).
    rewrite Hdb. simpl. split.
    + intros (x & Hin & Hx & <-). apply in_app_iff in Hin.
      destruct Hin as [Hin | [<- | []]]; [| congruence].
      exists x. auto.
    + intros (x & Hin & Hx & <-). exists x.
      rewrite in_app_iff. auto.
  - rewrite (In_converted toAirtableSponsorshipRecord _ _ _
               (In_active_rows text_le db')).
    rewrite (In_converted toAirtableSponsorshipRecord _ _ _
               (In_active_rows text_le db)).
    rewrite Hdb. simpl. split.
    + intros (x & Hin & Hx & <-). apply in_app_iff in Hin.
      destruct Hin as [Hin | [<- | []]]; [left | now right].
      exists x. auto.
    + intros [(x & Hin & Hx & <-) | ->].
      * exists x. rewrite in_app_iff. auto.
      * exists row. rewrite in_app_iff. simpl. auto.
Qed.

End CatalogueWrites.


(** A sponsorship created in the store with one sponsored and one waiting
    child joins the active list. *)
Lemma createSponsorship_joins_witness :
  exists rec db' before after were actives,
    createSponsorship
      {| js_clock := 600; js_year := 2025; js_today := "2025-06-01";
         js_draw := 5; pg_clock := 600; pg_uuid := "s3"; weather := Fine |} Sample.db_with_awaiting_child
      {| cs_sponsorEmail := "c@z.org"; cs_sponsorName := None;
         cs_childId := "CH-11"; cs_childDisplayName := "Nabirye";
         cs_childPhoto := None; cs_childAge := None;
         cs_childLocation := None |}
    = (Ok rec, db')
    /\ Queries.findAvailableChildren
         String.leb (Sample.ctx 700 "x") Sample.db_with_awaiting_child
       = Ok before
    /\ Queries.findAvailableChildren String.leb (Sample.ctx 700 "x") db'
       = Ok after
    /\ Queries.findAllActiveSponsorships
         String.leb (Sample.ctx 700 "x") Sample.db_with_awaiting_child
       = Ok were
    /\ Queries.findAllActiveSponsorships String.leb (Sample.ctx 700 "x") db'
       = Ok actives
    /\ (forall r, In r after <-> In r before)
    /\ (forall r, In r actives <-> In r were \/ r = rec).
Proof.
  eexists _, _.
  assert (H : createSponsorship
                {| js_clock := 600; js_year := 2025; js_today := "2025-06-01";
         js_draw := 5; pg_clock := 600; pg_uuid := "s3"; weather := Fine |} Sample.db_with_awaiting_child
                {| cs_sponsorEmail := "c@z.org"; cs_sponsorName := None;
                   cs_childId := "CH-11"; cs_childDisplayName := "Nabirye";
                   cs_childPhoto := None; cs_childAge := None;
                   cs_childLocation := None |}
              = (Ok _, _)) by (cbv; reflexivity).
  destruct (@createSponsorship_joins_the_active_list
              String.leb {| js_clock := 600; js_year := 2025; js_today := "2025-06-01";
         js_draw := 5; pg_clock := 600; pg_uuid := "s3"; weather := Fine |} (Sample.ctx 700 "x")
              _ _ _ _ eq_refl H)
    as (before & after & were & actives & H1 & H2 & H3 & H4 & H5 & H6).
  exists before, after, were, actives.
  exact (conj H (conj H1 (conj H2 (conj H3 (conj H4 (conj H5 H6)))))).
Defined.

(** ** Submitting an update *)

(** submitUpdate, with the store answering and a fresh id: an update
    type outside the five the schema allows is refused by the store, so
    the call throws DatabaseError and stores nothing; otherwise the call
    stores one more update and returns it: Pending Review, hidden,
    unpublished, not marked as requested by the sponsor, submitted at the
    caller's clock, with the given child, title and content.  An absent
    or empty sponsor code is stored as NULL. *)
Theorem submitUpdate_outcomes (c : Ctx) (db : Db) (d : SubmitUpdateData) :
  weather c = Fine ->
  ~ In (pg_uuid c) (map u_id (updates db)) ->
  (parse_update_type (su_updateType d) = None
   /\ submitUpdate c db d
      = (Throw (DatabaseError "Failed to submit update"), db))
  \/ (exists ty row,
         parse_update_type (su_updateType d) = Some ty
         /\ submitUpdate c db d
            = (Ok (toAirtableUpdateRecord row),
               {| sponsorships := sponsorships db;
                  updates := updates db ++ [row] |})
         /\ u_id row = pg_uuid c
         /\ u_child_id row = su_childId d
         /\ update_type row = ty
         /\ title row = su_title d
         /\ content row = su_content d
         /\ u_status row = PendingReview
         /\ u_visible_to_sponsor row = false
         /\ published_at row = None
         /\ requested_by_sponsor row = Some false
         /\ submitted_by row = Some (su_submittedBy d)
         /\ submitted_at row = Some (js_clock c)
         /\ (su_sponsorCode d = None \/ su_sponsorCode d = Some EmptyString ->
             u_sponsor_code row = None)
         /\ (forall code, su_sponsorCode d = Some code ->
                          code <> EmptyString ->
                          u_sponsor_code row = Some code)).
Proof.
  intros Hw Hfresh. unfold submitUpdate, await_write. rewrite Hw.
  destruct (parse_update_type (su_updateType d)) as [ty |] eqn:Hty.
  - right.
    match goal with
    | |- context [insert_update c db ?row] =>
        destruct (insert_update_cases c db row) as [[_ Hins] | Hins];
        [exists ty, row | exfalso]
    end.
    + rewrite Hins. simpl.
      repeat (split; [reflexivity |]). split.
      * intros [-> | ->]; reflexivity.
      * intros code -> Hcode. destruct code; [contradiction | reflexivity].
    + unfold insert_update in Hins. simpl in Hins.
      destruct (mem (pg_uuid c) (map u_id (updates db))) eqn:Hmem.
      * apply mem_In in Hmem. contradiction.
      * discriminate.
  - left. split; reflexivity.
Qed.

(** A report with an update type the schema does not know is refused. *)
Lemma submitUpdate_witness :
  submitUpdate (Sample.ctx 300 "u5") Sample.db_one_sponsor
               {| su_childId := "CH-7"; su_sponsorCode := None;
                  su_updateType := "Birthday"; su_title := "Turned 9";
                  su_content := "A party."; su_submittedBy := "field" |}
  = (Throw (DatabaseError "Failed to submit update"), Sample.db_one_sponsor).
Proof.
  destruct (@submitUpdate_outcomes
              (Sample.ctx 300 "u5") Sample.db_one_sponsor
              {| su_childId := "CH-7"; su_sponsorCode := None;
                 su_updateType := "Birthday"; su_title := "Turned 9";
                 su_content := "A party."; su_submittedBy := "field" |}
              eq_refl (fun H => H))
    as [[_ H] | (ty & row & Hty & _)].
  - exact H.
  - discriminate Hty.
Defined.

(** ** What the sponsor is shown *)

Section ViewFacts.

Lemma dated_append (db : Db) (row : SupabaseUpdateRow) :
  u_status row <> Published ->
  Queries.published_is_dated db ->
  Queries.published_is_dated
    {| sponsorships := sponsorships db; updates := updates db ++ [row] |}.
Proof.
  intros Hrow Hinv u Hu. simpl in Hu. apply in_app_or in Hu.
  destruct Hu as [Hu | [<- | []]]; [now apply Hinv | contradiction].
Qed.

Lemma dated_rewrite (c : Ctx) (db : Db)
      (set : SupabaseUpdateRow -> SupabaseUpdateRow) (key : string) :
  (forall r, u_status (set r) = Published ->
             exists t, published_at (set r) = Some t) ->
  Queries.published_is_dated db ->
  Queries.published_is_dated
    {| sponsorships := sponsorships db;
       updates := map (fun r => if u_id r =? key
                                then touch_update c (set r) else r)
                      (updates db) |}.
Proof.
  intros Hset Hinv u Hu. simpl in Hu.
  apply in_map_iff in Hu. destruct Hu as (x & <- & Hx).
  destruct (u_id x =? key); [apply Hset | now apply Hinv].
Qed.

Lemma review_step_dated (c : Ctx) (call : Lifecycle.Call) (db : Db) :
  Queries.published_is_dated db ->
  Queries.published_is_dated (Lifecycle.step c call db).
Proof.
  intros Hinv. destruct call as [childId code | d | key | key]; simpl.
  - unfold createUpdateRequest, await_write.
    destruct (weather c); simpl; auto;
      match goal with
      | |- context [insert_update c db ?row] =>
          destruct (insert_update_cases c db row) as [[_ ->] | ->]
      end; simpl; auto;
      apply dated_append; first [discriminate | exact Hinv].
  - unfold submitUpdate, await_write.
    destruct (weather c); simpl; auto;
      destruct (parse_update_type (su_updateType d)); simpl; auto;
      match goal with
      | |- context [insert_update c db ?row] =>
          destruct (insert_update_cases c db row) as [[_ ->] | ->]
      end; simpl; auto;
      apply dated_append; first [discriminate | exact Hinv].
  - unfold publishUpdate, await_write.
    destruct (weather c); simpl; auto;
      destruct (update_updates_single_cases c db
                  (set_published (js_clock c)) key)
        as [(x & _ & _ & ->) | ->]; simpl; auto;
      apply dated_rewrite; auto;
      intros r _; simpl; eauto.
  - unfold rejectUpdate, await_write.
    destruct (weather c); simpl; auto;
      destruct (update_updates_single_cases c db set_rejected key)
        as [(x & _ & _ & ->) | ->]; simpl; auto;
      apply dated_rewrite; auto;
      intros r H; simpl in H; discriminate.
Qed.

Lemma write_step_dated (c : Ctx) (call : Writes.Call) (db : Db) :
  Queries.published_is_dated db ->
  Queries.published_is_dated (Writes.step c call db).
Proof.
  intros Hinv.
  destruct call as [d | key d | key t1 t2 | call]; simpl;
    [| | | now apply review_step_dated];
    unfold Queries.published_is_dated in *.
  - unfold createSponsorship, await_write.
    destruct (weather c); simpl; auto;
      match goal with
      | |- context [insert_sponsorship c db ?row] =>
          destruct (insert_sponsorship_cases c db row)
          as [(_ & _ & ->) | [_ ->]]
      end; simpl; auto.
  - unfold assignSponsorToChild, await_write.
    destruct (weather c); simpl; auto;
      destruct (update_sponsorships_single_cases c db (set_assigned c d) key)
        as [(_ & x & _ & _ & ->) | (e & ->)]; simpl; auto.
  - unfold updateSponsorshipRequestTracking, await_write,
      update_sponsorships.
    destruct (weather c); simpl; auto;
      destruct (distinct _); simpl; auto.
Qed.

Lemma write_run_dated (calls : list (Ctx * Writes.Call)) :
  forall db, Queries.published_is_dated db ->
             Queries.published_is_dated (Writes.run calls db).
Proof.
  induction calls as [| [c call] rest IH]; simpl; intros db Hinv.
  - exact Hinv.
  - apply IH. now apply write_step_dated.
Qed.

Lemma sorted_converted {A B} (R : A -> A -> Prop) (R' : B -> B -> Prop)
      (P : A -> Prop) (f : A -> B) (l : list A) :
  (forall a b, P a -> P b -> R a b -> R' (f a) (f b)) ->
  Forall P l ->
  StronglySorted R l -> StronglySorted R' (map f l).
Proof.
  intros Hf HP Hs. induction Hs as [| x rest Hrest IH Hx]; simpl.
  - constructor.
  - inversion HP as [| ? ? HPx HPrest]; subst.
    constructor; [now apply IH |].
    rewrite Forall_forall in *. intros y Hy.
    apply in_map_iff in Hy. destruct Hy as (z & <- & Hz).
    apply Hf; auto.
Qed.

(** In every store built from the empty one by the seven typed writes
    of the layer (createSponsorship, assignSponsorToChild,
    updateSponsorshipRequestTracking, createUpdateRequest, submitUpdate,
    publishUpdate, rejectUpdate; in any order, succeeding or failing),
    what a sponsor is shown for a child, the list of findUpdatesForChild
    seen through updateRecordToSponsorUpdate, has a publication time on
    every entry and runs from the latest publication to the earliest.
    The generic databaseClient.updateRecord is not one of these writes:
    it can set a status without a publication time. *)
Theorem sponsor_updates_are_dated
        (calls : list (Ctx * Writes.Call)) (c : Ctx) (childId : string) :
  weather c = Fine ->
  exists listed,
    findUpdatesForChild c (Writes.run calls Pg.empty) childId = Ok listed
    /\ Forall (fun v => exists t, Queries.publishedAt v = Some t)
              (map Queries.updateRecordToSponsorUpdate listed)
    /\ StronglySorted Queries.view_newest_first
                      (map Queries.updateRecordToSponsorUpdate listed).
Proof.
  intros Hw.
  assert (Hinv : Queries.published_is_dated (Writes.run calls Pg.empty))
    by (apply write_run_dated; intros u []).
  set (db := Writes.run calls Pg.empty) in *.
  assert (Hdated : Forall (fun r => exists t, published_at r = Some t)
                          (findUpdatesForChild_rows db childId)).
  { apply Forall_forall. intros r Hr. apply In_rows in Hr.
    destruct Hr as (Hin & _ & Hpub & _). now apply Hinv. }
  exists (map toAirtableUpdateRecord (findUpdatesForChild_rows db childId)).
  split; [now apply findUpdatesForChild_fine |].
  rewrite map_map. split.
  - rewrite Forall_map. exact Hdated.
  - eapply sorted_converted; [| exact Hdated | apply order_desc_sorted].
    intros a b [ta Ha] [tb Hb] Hab. exists ta, tb. simpl.
    rewrite Ha, Hb in Hab. simpl in Hab. auto.
Qed.

End ViewFacts.

(** Two requests are published at 400 and 450: the sponsor sees both,
    dated, the later one first. *)
Lemma sponsor_updates_are_dated_witness :
  exists listed,
    findUpdatesForChild
      (Sample.ctx 500 "x")
      (Writes.run
         [(Sample.ctx 300 "u1",
           Writes.Review (CreateUpdateRequest "CH-7" "BAN-2025-104"));
          (Sample.ctx 310 "u2",
           Writes.Review (CreateUpdateRequest "CH-7" "BAN-2025-104"));
          (Sample.ctx 400 "x", Writes.Review (PublishUpdate "u1"));
          (Sample.ctx 450 "x", Writes.Review (PublishUpdate "u2"))]
         Pg.empty)
      "CH-7"
    = Ok listed
    /\ map Queries.publishedAt
           (map Queries.updateRecordToSponsorUpdate listed)
       = [Some 450; Some 400]
    /\ StronglySorted Queries.view_newest_first
                      (map Queries.updateRecordToSponsorUpdate listed).
Proof.
  destruct (@sponsor_updates_are_dated
              [(Sample.ctx 300 "u1",
                Writes.Review (CreateUpdateRequest "CH-7" "BAN-2025-104"));
               (Sample.ctx 310 "u2",
                Writes.Review (CreateUpdateRequest "CH-7" "BAN-2025-104"));
               (Sample.ctx 400 "x", Writes.Review (PublishUpdate "u1"));
               (Sample.ctx 450 "x", Writes.Review (PublishUpdate "u2"))]
              (Sample.ctx 500 "x") "CH-7" eq_refl)
    as (listed & Hlist & _ & Hsorted).
  exists listed. split; [exact Hlist |]. split; [| exact Hsorted].
  assert (E : Ok listed
              = findUpdatesForChild
                  (Sample.ctx 500 "x")
                  (Writes.run
                     [(Sample.ctx 300 "u1",
                       Writes.Review
                         (CreateUpdateRequest "CH-7" "BAN-2025-104"));
                      (Sample.ctx 310 "u2",
                       Writes.Review
                         (CreateUpdateRequest "CH-7" "BAN-2025-104"));
                      (Sample.ctx 400 "x",
                       Writes.Review (PublishUpdate "u1"));
                      (Sample.ctx 450 "x",
                       Writes.Review (PublishUpdate "u2"))]
                     Pg.empty)
                  "CH-7") by (symmetry; exact Hlist).
  vm_compute in E. inversion E. reflexivity.
Defined.

(** ** The admin submission route *)

Section SubmitRouteFacts.

Variable validateSponsorCode : option FormDataEntryValue -> ValidationResult.
Variable validateUpdateTitle : option FormDataEntryValue -> ValidationResult.
Variable validateUpdateContent : option FormDataEntryValue -> ValidationResult.
Variable validateRequiredString :
  option FormDataEntryValue -> string -> Z -> Z -> ValidationResult.
Variable sanitizeString : option FormDataEntryValue -> string.
Variable escapeForAirtable : string -> string.
Variable slice_0_100 : string -> string.
Variable TOO_MANY_REQUESTS : string.

(** The rate limit comes first: a limited request is answered 429 with a
    Retry-After header (the limiter's seconds, or 60 when it names none)
    whatever its token, its form and the state of Airtable.  Every other
    request is answered 200, 400, 401, 404 or 500, without that header. *)
Theorem POST_rate_limit_first
        (env : ProcessEnv) (airtable : Airtable) (now : Timestamp)
        (request : NextRequest) :
  (forall retryAfter,
      rateLimitError request = Some retryAfter ->
      POST validateSponsorCode validateUpdateTitle validateUpdateContent
           validateRequiredString sanitizeString escapeForAirtable
           slice_0_100 TOO_MANY_REQUESTS env airtable now request
      = {| status := 429;
           retry_after := Some (match retryAfter with
                                | Some seconds => Database.decimal seconds
                                | None => "60"
                                end);
           body := ErrorBody (Some TOO_MANY_REQUESTS) |})
  /\ (rateLimitError request = None ->
      In (status (POST validateSponsorCode validateUpdateTitle validateUpdateContent
            validateRequiredString sanitizeString escapeForAirtable
            slice_0_100 TOO_MANY_REQUESTS env airtable now request))
         [200; 400; 401; 404; 500]%Z
      /\ retry_after (POST validateSponsorCode validateUpdateTitle validateUpdateContent
            validateRequiredString sanitizeString escapeForAirtable
            slice_0_100 TOO_MANY_REQUESTS env airtable now request) = None).
Proof.
  split.
  - intros retryAfter Hrate. unfold POST. now rewrite Hrate.
  - intros Hrate. unfold POST, POST_body. rewrite Hrate.
    destruct (formData request) as [form | t]; [| simpl; auto 10].
    destruct (negb _ && negb _); [simpl; auto 10 |].
    destruct (validateSponsorCode _); [| simpl; auto 10].
    destruct (validateUpdateTitle _); [| simpl; auto 10].
    destruct (validateUpdateContent _); [| simpl; auto 10].
    destruct (validateRequiredString _ _ _ _); [| simpl; auto 10].
    destruct (or_undefined (AIRTABLE_API_KEY env)); [| simpl; auto 10].
    destruct (or_undefined (AIRTABLE_BASE_ID env)); [| simpl; auto 10].
    match goal with
    | |- context [list_records airtable ?b ?t ?f] =>
        destruct (list_records airtable b t f) as [t' | | [| [first |] rest]]
    end; try (simpl; auto 10; fail).
    destruct (or_undefined (Some first)); [| simpl; auto 10].
    match goal with
    | |- context [create_record airtable ?b ?t ?f] =>
        destruct (create_record airtable b t f)
    end; simpl; auto 10.
Qed.

(** A 200 answer means all of: the request was not rate limited; its
    form was readable; the header token or the form's adminPassword was
    the configured secret; the four validators accepted the sponsor
    code, title, content and submitter; Airtable is configured; the
    sponsorship lookup answered ok with a first record carrying a
    non-empty ChildID; and Airtable accepted the creation of a record
    for that child with status Pending Review, hidden from the sponsor,
    not requested by the sponsor, whose id the answer carries. *)
Theorem POST_success_means
        (env : ProcessEnv) (airtable : Airtable) (now : Timestamp)
        (request : NextRequest) :
  status (POST validateSponsorCode validateUpdateTitle validateUpdateContent
            validateRequiredString sanitizeString escapeForAirtable
            slice_0_100 TOO_MANY_REQUESTS env airtable now request) = 200 ->
  rateLimitError request = None
  /\ exists form sponsorCode title content submittedBy base childID rest
            fields id,
      formData request = inl form
      /\ verifyAdminToken (ADMIN_API_TOKEN env) (headers request)
         || verifyFormToken (ADMIN_API_TOKEN env) (f_adminPassword form)
         = true
      /\ validateSponsorCode (f_sponsorCode form) = Valid sponsorCode
      /\ validateUpdateTitle (f_title form) = Valid title
      /\ validateUpdateContent (f_content form) = Valid content
      /\ validateRequiredString (f_submittedBy form) "Submitted by" 1 200
         = Valid submittedBy
      /\ or_undefined (AIRTABLE_API_KEY env) <> None
      /\ or_undefined (AIRTABLE_BASE_ID env) = Some base
      /\ list_records
           airtable base
           (match or_undefined (AIRTABLE_SPONSORSHIPS_TABLE env) with
            | Some t => t | None => "Sponsorships" end)
           ("{SponsorCode} = " ++ double_quote
              ++ escapeForAirtable sponsorCode ++ double_quote)
         = LookupOk (Some childID :: rest)
      /\ childID <> EmptyString
      /\ create_record
           airtable base
           (match or_undefined (AIRTABLE_UPDATES_TABLE env) with
            | Some t => t | None => "Updates" end)
           fields
         = CreateOk id
      /\ n_ChildID fields = childID
      /\ n_SponsorCode fields = sponsorCode
      /\ n_Title fields = title
      /\ n_Content fields = content
      /\ n_SubmittedBy fields = submittedBy
      /\ n_Status fields = "Pending Review"
      /\ n_VisibleToSponsor fields = false
      /\ n_RequestedBySponsor fields = false
      /\ n_RequestedAt fields = now
      /\ body (POST validateSponsorCode validateUpdateTitle validateUpdateContent
            validateRequiredString sanitizeString escapeForAirtable
            slice_0_100 TOO_MANY_REQUESTS env airtable now request)
         = SubmittedBody
             id
             "Update submitted successfully. Photos can be added in Airtable.".
Proof.
  unfold POST, POST_body.
  destruct (rateLimitError request); [simpl; discriminate |].
  destruct (formData request) as [form | t]; [| simpl; discriminate].
  destruct (negb _ && negb _) eqn:Hauth; [simpl; discriminate |].
  destruct (validateSponsorCode _) as [sponsorCode |] eqn:Hcode;
    [| simpl; discriminate].
  destruct (validateUpdateTitle _) as [title |] eqn:Htitle;
    [| simpl; discriminate].
  destruct (validateUpdateContent _) as [content |] eqn:Hcontent;
    [| simpl; discriminate].
  destruct (validateRequiredString _ _ _ _) as [submittedBy |] eqn:Hby;
    [| simpl; discriminate].
  destruct (or_undefined (AIRTABLE_API_KEY env)) eqn:Hkey;
    [| simpl; discriminate].
  destruct (or_undefined (AIRTABLE_BASE_ID env)) as [base |] eqn:Hbase;
    [| simpl; discriminate].
  match goal with
  | |- context [list_records airtable ?b ?t ?f] =>
      destruct (list_records airtable b t f) as [t' | | [| [first |] rest]]
        eqn:Hlookup
  end; try (simpl; discriminate).
  destruct (or_undefined (Some first)) as [childID |] eqn:Hchild;
    [| simpl; discriminate].
  match goal with
  | |- context [create_record airtable base ?table ?fields] =>
      destruct (create_record airtable base table fields) as [t | raw | id]
        eqn:Hcreate;
      try (simpl; discriminate); intros _; split; [reflexivity |];
      exists form, sponsorCode, title, content, submittedBy, base, childID,
             rest, fields, id
  end.
  apply or_undefined_some in Hchild. destruct Hchild as [-> Hne].
  split; [reflexivity |].
  split.
  { apply andb_false_iff in Hauth.
    destruct Hauth as [H | H]; apply negb_false_iff in H; rewrite H;
      [reflexivity | apply orb_true_r]. }
  repeat (split; [first [reflexivity | assumption | discriminate] |]).
  reflexivity.
Qed.

(** For an authorised, valid request with Airtable configured: when the
    sponsorship lookup is refused by Airtable (a response that is not
    ok), lists no record, or lists a first record without a ChildID or
    with an empty one, the answer is 404 "Child ID not found for this
    sponsor code" and no record is created; when the lookup itself
    throws an Error, the answer is 500 with that Error's message. *)
Theorem POST_lookup_failures
        (env : ProcessEnv) (airtable : Airtable) (now : Timestamp)
        (request : NextRequest) (form : FormData)
        (sponsorCode title content submittedBy key base : string) :
  rateLimitError request = None ->
  formData request = inl form ->
  verifyAdminToken (ADMIN_API_TOKEN env) (headers request)
  || verifyFormToken (ADMIN_API_TOKEN env) (f_adminPassword form) = true ->
  validateSponsorCode (f_sponsorCode form) = Valid sponsorCode ->
  validateUpdateTitle (f_title form) = Valid title ->
  validateUpdateContent (f_content form) = Valid content ->
  validateRequiredString (f_submittedBy form) "Submitted by" 1 200
  = Valid submittedBy ->
  or_undefined (AIRTABLE_API_KEY env) = Some key ->
  or_undefined (AIRTABLE_BASE_ID env) = Some base ->
  forall answer,
    (forall table formula,
        list_records airtable base table formula = answer) ->
    (answer = LookupNotOk \/ answer = LookupOk []
     \/ (exists rest, answer = LookupOk (None :: rest))
     \/ (exists rest, answer = LookupOk (Some EmptyString :: rest)) ->
     POST validateSponsorCode validateUpdateTitle validateUpdateContent
          validateRequiredString sanitizeString escapeForAirtable
          slice_0_100 TOO_MANY_REQUESTS env airtable now request
     = json_error (Some "Child ID not found for this sponsor code") 404)
    /\ (forall message,
           answer = LookupThrows (ThrownError message) ->
           POST validateSponsorCode validateUpdateTitle
                validateUpdateContent validateRequiredString sanitizeString
                escapeForAirtable slice_0_100 TOO_MANY_REQUESTS
                env airtable now request
           = json_error (Some message) 500).
Proof.
  intros Hrate Hform Hauth Hcode Htitle Hcontent Hby Hkey Hbase
         answer Hlookup.
  unfold POST. rewrite Hrate, Hform. unfold POST_body.
  apply orb_true_iff in Hauth.
  replace (negb (verifyAdminToken (ADMIN_API_TOKEN env) (headers request))
           && negb (verifyFormToken (ADMIN_API_TOKEN env)
                                    (f_adminPassword form)))
    with false
    by (destruct Hauth as [-> | ->]; simpl;
        rewrite ?andb_false_r; reflexivity).
  rewrite Hcode, Htitle, Hcontent, Hby, Hkey, Hbase, Hlookup.
  split.
  - intros [-> | [-> | [[rest ->] | [rest ->]]]]; reflexivity.
  - intros message ->. reflexivity.
Qed.

End SubmitRouteFacts.

(** The limited sample request is answered 429 with Retry-After 42. *)
Lemma POST_rate_limit_first_witness :
  SubmitSample.POST SubmitSample.airtable SubmitSample.limited_request
  = {| status := 429; retry_after := Some "42";
       body := ErrorBody (Some "Too many requests") |}.
Proof.
  exact (proj1 (POST_rate_limit_first
                  (SubmitSample.required "Sponsor code")
                  (SubmitSample.required "Title")
                  (SubmitSample.required "Content")
                  SubmitSample.required_string SubmitSample.text_of
                  (fun text => text) (fun text => text)
                  "Too many requests" SubmitSample.env
                  SubmitSample.airtable 900 SubmitSample.limited_request)
               (Some 42%Z) eq_refl).
Defined.

(** The sample request succeeds, and so was authorised. *)
Lemma POST_success_means_witness :
  status (SubmitSample.POST SubmitSample.airtable SubmitSample.request) = 200
  /\ rateLimitError SubmitSample.request = None.
Proof.
  split; [reflexivity |].
  exact (proj1 (@POST_success_means
                  (SubmitSample.required "Sponsor code")
                  (SubmitSample.required "Title")
                  (SubmitSample.required "Content")
                  SubmitSample.required_string SubmitSample.text_of
                  (fun text => text) (fun text => text)
                  "Too many requests" SubmitSample.env
                  SubmitSample.airtable 900 SubmitSample.request
                  eq_refl)).
Defined.

(** Airtable refuses the listing: the client is told the child was not
    found. *)
Lemma POST_lookup_failures_witness :
  SubmitSample.POST SubmitSample.airtable_refusing SubmitSample.request
  = json_error (Some "Child ID not found for this sponsor code") 404.
Proof.
  exact (proj1 (@POST_lookup_failures
                  (SubmitSample.required "Sponsor code")
                  (SubmitSample.required "Title")
                  (SubmitSample.required "Content")
                  SubmitSample.required_string SubmitSample.text_of
                  (fun text => text) (fun text => text)
                  "Too many requests" SubmitSample.env
                  SubmitSample.airtable_refusing 900 SubmitSample.request
                  SubmitSample.form
                  "BAN-2025-104" "Term report" "Doing well." "field team"
                  "patKEY" "appBASE"
                  eq_refl eq_refl eq_refl eq_refl eq_refl eq_refl eq_refl
                  eq_refl eq_refl LookupNotOk (fun _ _ => eq_refl))
               (or_introl eq_refl)).
Defined.

(** ** The sponsor login route *)

Section LoginFacts.
Import LoginRoute.

Variable validateEmail : JsValue -> SubmitRoute.ValidationResult.
Variable validateSponsorCode : JsValue -> SubmitRoute.ValidationResult.
Variable escapeForAirtable : string -> string.
Variable TOO_MANY_REQUESTS : string.
Variable JSON_stringify : SessionData -> string.
Variable toISOString : Timestamp -> string.
Variable setDate_plus_30 : Timestamp -> Timestamp.
Variable TypeError_message : string.

Lemma not_Active_false (v : JsValue) :
  not_Active v = false <-> v = JsString "Active".
Proof.
  destruct v; simpl; try (split; discriminate).
  rewrite negb_false_iff, String.eqb_eq. split; congruence.
Qed.

Lemma not_true_nor_1_false (v : JsValue) :
  not_true_nor_1 v = false <-> v = JsBool true \/ v = JsNumber 1.
Proof.
  destruct v as [| | [|] | n | |]; simpl;
    try (split; [discriminate | intros [H | H]; discriminate]).
  - split; auto.
  - rewrite negb_false_iff, Z.eqb_eq. split.
    + intros ->. now right.
    + intros [H | H]; [discriminate | congruence].
Qed.

(** What verifySponsor makes of the listing. *)
Lemma verifySponsor_cases
      (env : SubmitRoute.ProcessEnv) (airtable : Airtable)
      (email sponsorCode : string) (sponsor : SponsorData) :
  verifySponsor escapeForAirtable env airtable email sponsorCode
  = inl (Some sponsor) ->
  exists base table formula fields rest,
    or_undefined (SubmitRoute.AIRTABLE_API_KEY env) <> None
    /\ or_undefined (SubmitRoute.AIRTABLE_BASE_ID env) = Some base
    /\ list_sponsors airtable base table formula
       = ListOk (Some (fields :: rest))
    /\ a_AuthStatus fields = JsString "Active"
    /\ (a_VisibleToSponsor fields = JsBool true
        \/ a_VisibleToSponsor fields = JsNumber 1)
    /\ v_sponsorCode sponsor = or_else (a_SponsorCode fields) sponsorCode
    /\ v_email sponsor = or_else (a_SponsorEmail fields) email
    /\ v_name sponsor = or_else (a_SponsorName fields) EmptyString.
Proof.
  unfold verifySponsor.
  destruct (or_undefined (SubmitRoute.AIRTABLE_API_KEY env)) eqn:Hkey;
    [| discriminate].
  destruct (or_undefined (SubmitRoute.AIRTABLE_BASE_ID env)) as [base |]
    eqn:Hbase; [| discriminate].
  match goal with
  | |- context [list_sponsors airtable base ?t ?f] =>
      destruct (list_sponsors airtable base t f)
        as [t' | raw | [[| fields rest] |]] eqn:Hlist;
      try discriminate;
      destruct (not_Active (a_AuthStatus fields)) eqn:Hact;
      try discriminate;
      destruct (not_true_nor_1 (a_VisibleToSponsor fields)) eqn:Hvis;
      try discriminate;
      intros H; inversion H; subst; clear H;
      exists base, t, f, fields, rest
  end.
  apply not_Active_false in Hact. apply not_true_nor_1_false in Hvis.
  repeat (split; [first [reflexivity | assumption | discriminate] |]).
  reflexivity.
Qed.

(** A login that cannot be verified is refused in one and the same way:
    for valid input and Airtable configured, whether the listing the
    formula selects holds no record, or its first record is not Active,
    or that record is not visible (the handler checks the returned
    record again), the answer is the same 401 with the same message, and
    no cookie is set. *)
Theorem login_refusals_are_uniform
        (env : SubmitRoute.ProcessEnv) (airtable : Airtable)
        (now : Timestamp) (request : NextRequest)
        (body_email body_sponsorCode : JsValue)
        (email sponsorCode key base : string)
        (records : option (list RecordFields)) :
  rateLimitError request = None ->
  json request = inl (BodyValue body_email body_sponsorCode) ->
  validateEmail body_email = SubmitRoute.Valid email ->
  validateSponsorCode body_sponsorCode = SubmitRoute.Valid sponsorCode ->
  or_undefined (SubmitRoute.AIRTABLE_API_KEY env) = Some key ->
  or_undefined (SubmitRoute.AIRTABLE_BASE_ID env) = Some base ->
  (forall table formula,
      list_sponsors airtable base table formula = ListOk records) ->
  records = None \/ records = Some []
  \/ (exists fields rest,
         records = Some (fields :: rest)
         /\ (a_AuthStatus fields <> JsString "Active"
             \/ (a_VisibleToSponsor fields <> JsBool true
                 /\ a_VisibleToSponsor fields <> JsNumber 1))) ->
  POST validateEmail validateSponsorCode escapeForAirtable
       TOO_MANY_REQUESTS JSON_stringify toISOString setDate_plus_30
       TypeError_message env airtable now request
  = {| status := 401; retry_after := None;
       body :=
         ErrorBody
           (Some "Invalid email or sponsor code, or sponsorship is not active");
       set_cookie := None |}.
Proof.
  intros Hrate Hjson Hemail Hcode Hkey Hbase Hlist Hrecords.
  unfold POST. rewrite Hrate, Hjson. unfold POST_body.
  rewrite Hemail, Hcode. unfold verifySponsor.
  rewrite Hkey, Hbase, Hlist.
  destruct Hrecords as [-> | [-> | (fields & rest & -> & Hbad)]];
    try reflexivity.
  destruct (not_Active (a_AuthStatus fields)) eqn:Hact; [reflexivity |].
  destruct (not_true_nor_1 (a_VisibleToSponsor fields)) eqn:Hvis;
    [reflexivity |].
  apply not_Active_false in Hact. apply not_true_nor_1_false in Hvis.
  exfalso. destruct Hbad as [H | [H1 H2]]; [auto |].
  destruct Hvis; auto.
Qed.

(** The handler sets a cookie exactly when it answers 200, and then: the
    input was valid, the first record of the listing is Active and
    visible, and the cookie is sponsor_session, HttpOnly, Secure,
    SameSite lax, on path /, expiring thirty days on, holding the JSON
    text of the email and sponsor code of that record (the validated
    input where the record lacks them) and the same expiry.  Where
    JSON.parse and new Date read back what JSON.stringify and
    toISOString wrote, getSession on that cookie's value returns this
    session up to the expiry time and nothing after it, and
    verifySessionForCode accepts it for the session's code only. *)
Theorem login_sets_the_session
        (env : SubmitRoute.ProcessEnv) (airtable : Airtable)
        (now : Timestamp) (request : NextRequest) :
  (set_cookie (POST validateEmail validateSponsorCode escapeForAirtable
                    TOO_MANY_REQUESTS JSON_stringify toISOString
                    setDate_plus_30 TypeError_message
                    env airtable now request) <> None
   <-> status (POST validateEmail validateSponsorCode escapeForAirtable
                    TOO_MANY_REQUESTS JSON_stringify toISOString
                    setDate_plus_30 TypeError_message
                    env airtable now request) = 200)
  /\ forall cookie,
      set_cookie (POST validateEmail validateSponsorCode escapeForAirtable
                       TOO_MANY_REQUESTS JSON_stringify toISOString
                       setDate_plus_30 TypeError_message
                       env airtable now request) = Some cookie ->
      exists body_email body_sponsorCode email sponsorCode
             base table formula fields rest session,
        rateLimitError request = None
        /\ json request = inl (BodyValue body_email body_sponsorCode)
        /\ validateEmail body_email = SubmitRoute.Valid email
        /\ validateSponsorCode body_sponsorCode
           = SubmitRoute.Valid sponsorCode
        /\ list_sponsors airtable base table formula
           = ListOk (Some (fields :: rest))
        /\ a_AuthStatus fields = JsString "Active"
        /\ (a_VisibleToSponsor fields = JsBool true
            \/ a_VisibleToSponsor fields = JsNumber 1)
        /\ session
           = {| Auth.email := or_else (a_SponsorEmail fields) email;
                Auth.sponsorCode := or_else (a_SponsorCode fields)
                                            sponsorCode;
                Auth.expires := toISOString (setDate_plus_30 now) |}
        /\ cookie = {| ck_name := "sponsor_session";
                       ck_value := JSON_stringify session;
                       httpOnly := true; secure := true;
                       sameSite := "lax";
                       ck_expires := setDate_plus_30 now;
                       path := "/" |}
        /\ body (POST validateEmail validateSponsorCode escapeForAirtable
                      TOO_MANY_REQUESTS JSON_stringify toISOString
                      setDate_plus_30 TypeError_message
                      env airtable now request)
           = VerifiedBody (Auth.sponsorCode session)
                          (or_else (a_SponsorName fields) EmptyString)
        /\ forall JSON_parse Date_parse,
            (forall s, JSON_parse (JSON_stringify s) = Some s) ->
            (forall t, Date_parse (toISOString t) = Some t) ->
            forall c code,
              getSession JSON_parse Date_parse c (Some (ck_value cookie))
              = (if (setDate_plus_30 now <? js_clock c)%Z then None
                 else Some session)
              /\ verifySessionForCode JSON_parse Date_parse c
                                      (Some (ck_value cookie)) code
                 = negb (setDate_plus_30 now <? js_clock c)%Z
                   && (Auth.sponsorCode session =? code).
Proof.
  unfold POST, POST_body.
  destruct (rateLimitError request) eqn:Hrate;
    [simpl; split; [split; [congruence | discriminate] | discriminate] |].
  destruct (json request) as [[| body_email body_sponsorCode] | t]
    eqn:Hjson;
    try (simpl; split; [split; [congruence | discriminate] | discriminate]).
  destruct (validateEmail body_email) as [email |] eqn:Hemail;
    [| simpl; split; [split; [congruence | discriminate] | discriminate]].
  destruct (validateSponsorCode body_sponsorCode) as [sponsorCode |]
    eqn:Hcode;
    [| simpl; split; [split; [congruence | discriminate] | discriminate]].
  destruct (verifySponsor escapeForAirtable env airtable email sponsorCode)
    as [[sponsor |] | t] eqn:Hverify;
    try (simpl; split; [split; [congruence | discriminate] | discriminate]).
  simpl. split; [split; [reflexivity | discriminate] |].
  intros cookie Hcookie. inversion Hcookie; subst; clear Hcookie.
  apply verifySponsor_cases in Hverify.
  destruct Hverify
    as (base & table & formula & fields & rest & _ & _ & Hlist & Hact
        & Hvis & Hc & He & Hn).
  exists body_email, body_sponsorCode, email, sponsorCode,
         base, table, formula, fields, rest.
  rewrite Hc, He, Hn.
  eexists. repeat (split; [first [reflexivity | eassumption] |]).
  intros JSON_parse Date_parse Hparse Hdate c code. simpl.
  unfold verifySessionForCode, getSession.
  rewrite Hparse. simpl. rewrite Hdate. simpl.
  destruct (setDate_plus_30 now <? js_clock c)%Z; simpl;
    split; reflexivity.
Qed.

(** What goes wrong behind the login is told to the client: with valid
    input, a listing Airtable refuses with body text [raw] is answered
    500 with "Airtable API error: " and [raw] itself, missing Airtable
    credentials are answered 500 naming them, and a body that is not
    readable JSON or is null is answered 500 with the parser's or the
    TypeError's message.  None of these sets a cookie. *)
Theorem login_errors_are_echoed
        (env : SubmitRoute.ProcessEnv) (airtable : Airtable)
        (now : Timestamp) (request : NextRequest) :
  rateLimitError request = None ->
  (forall message,
      json request = inr (SubmitRoute.ThrownError message) ->
      POST validateEmail validateSponsorCode escapeForAirtable
           TOO_MANY_REQUESTS JSON_stringify toISOString setDate_plus_30
           TypeError_message env airtable now request
      = json_error (Some message) 500)
  /\ (json request = inl BodyNull ->
      POST validateEmail validateSponsorCode escapeForAirtable
           TOO_MANY_REQUESTS JSON_stringify toISOString setDate_plus_30
           TypeError_message env airtable now request
      = json_error (Some TypeError_message) 500)
  /\ (forall body_email body_sponsorCode email sponsorCode,
         json request = inl (BodyValue body_email body_sponsorCode) ->
         validateEmail body_email = SubmitRoute.Valid email ->
         validateSponsorCode body_sponsorCode
         = SubmitRoute.Valid sponsorCode ->
         (or_undefined (SubmitRoute.AIRTABLE_API_KEY env) = None
          \/ or_undefined (SubmitRoute.AIRTABLE_BASE_ID env) = None ->
          POST validateEmail validateSponsorCode escapeForAirtable
               TOO_MANY_REQUESTS JSON_stringify toISOString
               setDate_plus_30 TypeError_message env airtable now request
          = json_error (Some "Airtable credentials not configured") 500)
         /\ (forall key base raw,
                or_undefined (SubmitRoute.AIRTABLE_API_KEY env) = Some key ->
                or_undefined (SubmitRoute.AIRTABLE_BASE_ID env)
                = Some base ->
                (forall table formula,
                    list_sponsors airtable base table formula
                    = ListNotOk raw) ->
                POST validateEmail validateSponsorCode escapeForAirtable
                     TOO_MANY_REQUESTS JSON_stringify toISOString
                     setDate_plus_30 TypeError_message
                     env airtable now request
                = json_error (Some ("Airtable API error: " ++ raw)) 500)).
Proof.
  intros Hrate. unfold POST. rewrite Hrate. split; [| split].
  - intros message ->. reflexivity.
  - intros ->. reflexivity.
  - intros body_email body_sponsorCode email sponsorCode -> Hemail Hcode.
    unfold POST_body. rewrite Hemail, Hcode. unfold verifySponsor. split.
    + intros [-> | H]; [reflexivity |].
      rewrite H.
      destruct (or_undefined (SubmitRoute.AIRTABLE_API_KEY env));
        reflexivity.
    + intros key base raw -> -> Hlist. rewrite Hlist. reflexivity.
Qed.

End LoginFacts.

(** A record Airtable returns although it is suspended is refused like
    an unknown sponsor. *)
Lemma login_refusals_witness :
  LoginSample.POST
    (LoginSample.airtable
       (Some [LoginSample.record (LoginRoute.JsString "Suspended")
                                 (LoginRoute.JsBool true)]))
    LoginSample.request
  = {| LoginRoute.status := 401; LoginRoute.retry_after := None;
       LoginRoute.body :=
         LoginRoute.ErrorBody
           (Some "Invalid email or sponsor code, or sponsorship is not active");
       LoginRoute.set_cookie := None |}.
Proof.
  apply (@login_refusals_are_uniform
           (LoginSample.text "Email") (LoginSample.text "Sponsor code")
           (fun t => t) "Too many requests" Sample.JSON_stringify
           LoginSample.toISOString LoginSample.setDate_plus_30
           "Cannot read properties of null (reading 'email')"
           SubmitSample.env
           (LoginSample.airtable
              (Some [LoginSample.record (LoginRoute.JsString "Suspended")
                                        (LoginRoute.JsBool true)]))
           1748736000000 LoginSample.request
           (LoginRoute.JsString "a@x.com")
           (LoginRoute.JsString "BAN-2025-104")
           "a@x.com" "BAN-2025-104" "patKEY" "appBASE"
           (Some [LoginSample.record (LoginRoute.JsString "Suspended")
                                     (LoginRoute.JsBool true)])
           eq_refl eq_refl eq_refl eq_refl eq_refl eq_refl
           (fun _ _ => eq_refl)).
  right; right. eexists _, _. split; [reflexivity |].
  left. simpl. discriminate.
Defined.

(** The sample sponsor logs in on 1 June 2025: the cookie holds the
    sample session, which expires on 1 July. *)
Lemma login_sets_the_session_witness :
  LoginRoute.set_cookie
    (LoginSample.POST
       (LoginSample.airtable
          (Some [LoginSample.record (LoginRoute.JsString "Active")
                                    (LoginRoute.JsNumber 1)]))
       LoginSample.request)
  = Some {| LoginRoute.ck_name := "sponsor_session";
            LoginRoute.ck_value := Sample.JSON_stringify Sample.session;
            LoginRoute.httpOnly := true; LoginRoute.secure := true;
            LoginRoute.sameSite := "lax";
            LoginRoute.ck_expires := 1751328000000;
            LoginRoute.path := "/" |}
  /\ LoginRoute.status
       (LoginSample.POST
          (LoginSample.airtable
             (Some [LoginSample.record (LoginRoute.JsString "Active")
                                       (LoginRoute.JsNumber 1)]))
          LoginSample.request)
     = 200.
Proof.
  split; [reflexivity |].
  apply (proj1 (proj1 (login_sets_the_session
                         (LoginSample.text "Email")
                         (LoginSample.text "Sponsor code")
                         (fun t => t) "Too many requests"
                         Sample.JSON_stringify
                         LoginSample.toISOString LoginSample.setDate_plus_30
                         "Cannot read properties of null (reading 'email')"
                         SubmitSample.env
                         (LoginSample.airtable
                            (Some [LoginSample.record
                                     (LoginRoute.JsString "Active")
                                     (LoginRoute.JsNumber 1)]))
                         1748736000000 LoginSample.request))).
  intros H. discriminate H.
Defined.

(** Airtable refuses the key: its answer reaches the client. *)
Lemma login_errors_witness :
  LoginSample.POST LoginSample.airtable_refusing LoginSample.request
  = LoginRoute.json_error
      (Some ("Airtable API error: "
               ++ "AUTHENTICATION_REQUIRED: key patKEY is not valid for base appBASE"))
      500.
Proof.
  exact (proj2 (proj2 (proj2 (@login_errors_are_echoed
                                (LoginSample.text "Email")
                                (LoginSample.text "Sponsor code")
                                (fun t => t) "Too many requests"
                                Sample.JSON_stringify
                                LoginSample.toISOString
                                LoginSample.setDate_plus_30
                                "Cannot read properties of null (reading 'email')"
                                SubmitSample.env
                                LoginSample.airtable_refusing
                                1748736000000 LoginSample.request eq_refl))
                      (LoginRoute.JsString "a@x.com")
                      (LoginRoute.JsString "BAN-2025-104")
                      "a@x.com" "BAN-2025-104" eq_refl eq_refl eq_refl)
               "patKEY" "appBASE" _ eq_refl eq_refl (fun _ _ => eq_refl)).
Defined.

(** ** The checkout route *)

Section CheckoutFacts.
Import CheckoutRoute.

Variable validateDonationAmount : LoginRoute.JsValue -> AmountValidation.
Variable validateEmail : LoginRoute.JsValue -> SubmitRoute.ValidationResult.
Variable sanitizeString : LoginRoute.JsValue -> string.
Variable slice_0_200 : string -> string.
Variable TOO_MANY_REQUESTS : string.
Variable dollars : Z -> string.
Variable TypeError_message : string.

Lemma validateEnvVars_passes (env : ProcessEnv) :
  validateEnvVars env = None
  <-> or_undefined (STRIPE_SECRET_KEY env) <> None
      /\ or_undefined (NEXT_PUBLIC_STRIPE_PUBLISHABLE_KEY env) <> None.
Proof.
  unfold validateEnvVars.
  destruct (or_undefined (STRIPE_SECRET_KEY env)),
           (or_undefined (NEXT_PUBLIC_STRIPE_PUBLISHABLE_KEY env));
    split; try discriminate; try tauto; intros _; split; discriminate.
Qed.

(** The order of the checks.  A rate-limited request is answered 429
    with the Retry-After header.  Otherwise, when the Stripe secret key
    or the publishable key is missing or empty, the answer is 500 with
    the configuration message, whatever the body is and without asking
    Stripe; once validateEnvVars has passed, getStripe's own check of
    the key cannot fail.  No request is answered with a status other
    than 200, 400, 429 and 500. *)
Theorem checkout_order_of_checks
        (env : ProcessEnv) (stripe : Stripe) (request : NextRequest) :
  (forall retryAfter,
      rateLimitError request = Some retryAfter ->
      POST validateDonationAmount validateEmail sanitizeString slice_0_200
           TOO_MANY_REQUESTS dollars TypeError_message env stripe request
      = {| status := 429;
           retry_after := Some (match retryAfter with
                                | Some seconds => Database.decimal seconds
                                | None => "60"
                                end);
           body := ErrorBody (Some TOO_MANY_REQUESTS) |})
  /\ (rateLimitError request = None ->
      or_undefined (STRIPE_SECRET_KEY env) = None
      \/ or_undefined (NEXT_PUBLIC_STRIPE_PUBLISHABLE_KEY env) = None ->
      POST validateDonationAmount validateEmail sanitizeString slice_0_200
           TOO_MANY_REQUESTS dollars TypeError_message env stripe request
      = json_error
          (Some "Payment system configuration error. Please contact support.")
          500)
  /\ (validateEnvVars env = None ->
      exists secretKey,
        getStripe env = inl secretKey
        /\ STRIPE_SECRET_KEY env = Some secretKey)
  /\ In (status (POST validateDonationAmount validateEmail sanitizeString
                      slice_0_200 TOO_MANY_REQUESTS dollars
                      TypeError_message env stripe request))
        [200; 400; 429; 500]%Z.
Proof.
  split; [| split; [| split]].
  - intros retryAfter Hrate. unfold POST. now rewrite Hrate.
  - intros Hrate Hmissing. unfold POST, POST_body, validateEnvVars.
    rewrite Hrate.
    destruct Hmissing as [-> | ->];
      [| destruct (or_undefined (STRIPE_SECRET_KEY env))]; reflexivity.
  - intros Hpass. apply validateEnvVars_passes in Hpass.
    destruct Hpass as [Hkey _]. unfold getStripe.
    destruct (STRIPE_SECRET_KEY env) as [[| a key] |]; simpl in *;
      try congruence.
    eauto.
  - unfold POST, POST_body.
    destruct (rateLimitError request); [simpl; auto |].
    destruct (validateEnvVars env); [simpl; auto 10 |].
    destruct (getStripe env); [| simpl; auto 10].
    destruct (json request) as [[| amount email name isMonthly] | t];
      try (simpl; auto 10; fail).
    destruct (validateDonationAmount amount); [| simpl; auto 10].
    destruct (truthy email); [destruct (validateEmail email) |];
      try (simpl; auto 10; fail);
      match goal with
      | |- context [create_session stripe ?k ?cfg] =>
          destruct (create_session stripe k cfg)
      end; simpl; auto 10.
Qed.

(** A 200 answer means: the request was not rate limited, both keys are
    configured, the body was readable, validateDonationAmount accepted
    the amount, and Stripe, asked with the configured secret key,
    created a session whose id and url the answer carries.  The session
    asked for charges exactly the validated cents, once, in usd, by
    card; it is a subscription, with a monthly recurrence, subscription
    data and the donation type "monthly", exactly when the body's
    isMonthly is the boolean true, and otherwise a one-time payment
    without them; it carries a customer email only if the body's email
    counted as present and validateEmail accepted it. *)
Theorem checkout_success_means
        (env : ProcessEnv) (stripe : Stripe) (request : NextRequest) :
  status (POST validateDonationAmount validateEmail sanitizeString
               slice_0_200 TOO_MANY_REQUESTS dollars TypeError_message
               env stripe request) = 200 ->
  rateLimitError request = None
  /\ or_undefined (NEXT_PUBLIC_STRIPE_PUBLISHABLE_KEY env) <> None
  /\ exists secretKey amount email name isMonthly cents config id url,
      or_undefined (STRIPE_SECRET_KEY env) = Some secretKey
      /\ json request = inl (BodyValue amount email name isMonthly)
      /\ validateDonationAmount amount = AmountValid cents
      /\ create_session stripe secretKey config = Created id url
      /\ body (POST validateDonationAmount validateEmail sanitizeString
                    slice_0_200 TOO_MANY_REQUESTS dollars TypeError_message
                    env stripe request)
         = SessionBody id url
      /\ unit_amount config = cents
      /\ quantity config = 1
      /\ currency config = "usd"
      /\ payment_method_types config = ["card"]
      /\ (isMonthly = LoginRoute.JsBool true ->
          mode config = Subscription
          /\ recurring config = Some Month
          /\ donation_type config = "monthly"
          /\ subscription_data config
             = Some {| sd_donation_type := "monthly";
                       sd_amount := dollars cents |})
      /\ (isMonthly <> LoginRoute.JsBool true ->
          mode config = Payment
          /\ recurring config = None
          /\ donation_type config = "one-time"
          /\ subscription_data config = None)
      /\ (forall address,
             customer_email config = Some address ->
             truthy email = true
             /\ validateEmail email = SubmitRoute.Valid address).
Proof.
  unfold POST, POST_body.
  destruct (rateLimitError request); [simpl; discriminate |].
  destruct (validateEnvVars env) eqn:Henv; [simpl; discriminate |].
  apply validateEnvVars_passes in Henv. destruct Henv as [_ Hpub].
  unfold getStripe.
  destruct (or_undefined (STRIPE_SECRET_KEY env)) as [secretKey |] eqn:Hkey;
    [| simpl; discriminate].
  destruct (json request) as [[| amount email name isMonthly] | t]
    eqn:Hjson; try (simpl; discriminate).
  destruct (validateDonationAmount amount) as [cents |] eqn:Hamount;
    [| simpl; discriminate].
  assert (Hmode :
            forall address,
              (isMonthly = LoginRoute.JsBool true ->
               mode (sessionConfig sanitizeString slice_0_200 dollars
                                   request cents address name isMonthly)
               = Subscription
               /\ recurring (sessionConfig sanitizeString slice_0_200
                               dollars request cents address name isMonthly)
                  = Some Month
               /\ donation_type (sessionConfig sanitizeString slice_0_200
                                   dollars request cents address name
                                   isMonthly)
                  = "monthly"
               /\ subscription_data
                    (sessionConfig sanitizeString slice_0_200 dollars
                                   request cents address name isMonthly)
                  = Some {| sd_donation_type := "monthly";
                            sd_amount := dollars cents |})
              /\ (isMonthly <> LoginRoute.JsBool true ->
                  mode (sessionConfig sanitizeString slice_0_200 dollars
                                      request cents address name isMonthly)
                  = Payment
                  /\ recurring (sessionConfig sanitizeString slice_0_200
                                  dollars request cents address name
                                  isMonthly)
                     = None
                  /\ donation_type (sessionConfig sanitizeString slice_0_200
                                      dollars request cents address name
                                      isMonthly)
                     = "one-time"
                  /\ subscription_data
                       (sessionConfig sanitizeString slice_0_200 dollars
                                      request cents address name isMonthly)
                     = None)).
  { intros address. split.
    - intros ->. simpl. auto.
    - intros Hne. destruct isMonthly as [| | [|] | | |]; simpl; auto.
      congruence. }
  destruct (truthy email) eqn:Htruthy;
    [destruct (validateEmail email) as [address |] eqn:Hemail;
     [| simpl; discriminate] |];
    match goal with
    | |- context [create_session stripe secretKey ?cfg] =>
        destruct (create_session stripe secretKey cfg) as [t | id url]
          eqn:Hcreate;
        [simpl; discriminate |];
        intros _; split; [reflexivity |]; split; [exact Hpub |];
        exists secretKey, amount, email, name, isMonthly, cents, cfg, id, url
    end;
    repeat (split; [first [reflexivity | assumption | apply Hmode] |]).
  - match goal with
    | H : customer_email _ = Some _ |- _ =>
        simpl in H; apply or_undefined_some in H; destruct H as [<- _]
    end.
    exact Hemail.
  - intros a Ha. simpl in Ha. discriminate.
Qed.

End CheckoutFacts.

(** ** The donation section *)

Section DonationFacts.
Import DonationSection.

Lemma append_empty (s : string) : s ++ EmptyString = s.
Proof.
  induction s as [| a s IH]; simpl; [reflexivity | now rewrite IH].
Qed.

Lemma click_keeps (ev : Click) (st : State) :
  (isModalOpen st = false -> donationAmount st = None) ->
  (forall a, donationAmount st = Some a -> In a [25; 50; 100; 250]%Z) ->
  (isModalOpen (click ev st) = false -> donationAmount (click ev st) = None)
  /\ (forall a, donationAmount (click ev st) = Some a ->
                In a [25; 50; 100; 250]%Z).
Proof.
  intros Hclosed Htier.
  destruct ev; simpl; try destruct (isModalOpen st) eqn:Hopen; simpl;
    split; auto; try discriminate;
    intros a Ha; inversion Ha; subst; simpl; auto 10.
Qed.

Lemma run_keeps (clicks : list Click) :
  forall st,
    (isModalOpen st = false -> donationAmount st = None) ->
    (forall a, donationAmount st = Some a -> In a [25; 50; 100; 250]%Z) ->
    (isModalOpen (run clicks st) = false ->
     donationAmount (run clicks st) = None)
    /\ (forall a, donationAmount (run clicks st) = Some a ->
                  In a [25; 50; 100; 250]%Z).
Proof.
  induction clicks as [| ev rest IH]; simpl; intros st Hclosed Htier.
  - auto.
  - destruct (click_keeps ev st Hclosed Htier) as [H1 H2].
    now apply IH.
Qed.

(** Whatever is clicked, in whatever order, from the section's first
    render: a closed modal holds no amount; an amount held is one of the
    four tiers; page scrolling is locked exactly while the modal is
    open; the form's iframe is there exactly while the modal is open,
    and it loads the Donorbox address itself or that address with
    ?amount= and one of 25, 50, 100 and 250. *)
Theorem donation_modal_invariants
        (donorboxUrl : string) (clicks : list Click) :
  (isModalOpen (run clicks initial) = false ->
   donationAmount (run clicks initial) = None)
  /\ (forall a, donationAmount (run clicks initial) = Some a ->
                In a [25; 50; 100; 250]%Z)
  /\ (body_overflow (run clicks initial) = "hidden"
      <-> isModalOpen (run clicks initial) = true)
  /\ (iframe_src donorboxUrl (run clicks initial) = None
      <-> isModalOpen (run clicks initial) = false)
  /\ (forall src,
         iframe_src donorboxUrl (run clicks initial) = Some src ->
         In src [donorboxUrl;
                 donorboxUrl ++ "?amount=25";
                 donorboxUrl ++ "?amount=50";
                 donorboxUrl ++ "?amount=100";
                 donorboxUrl ++ "?amount=250"]).
Proof.
  destruct (run_keeps clicks initial) as [Hclosed Htier];
    [reflexivity | discriminate |].
  split; [exact Hclosed |]. split; [exact Htier |].
  unfold body_overflow, iframe_src, getDonorboxUrl.
  destruct (isModalOpen (run clicks initial)).
  - split; [split; reflexivity |].
    split; [split; discriminate |].
    intros src H. inversion H; subst; clear H.
    destruct (donationAmount (run clicks initial)) as [a |].
    + destruct (Htier a eq_refl) as [<- | [<- | [<- | [<- | []]]]];
        simpl; auto 10.
    + simpl. rewrite append_empty. auto.
  - split; [split; discriminate |].
    split; [split; reflexivity |]. discriminate.
Qed.

End DonationFacts.

(** A server without its publishable key answers the sample donation
    with the configuration message. *)
Lemma checkout_order_witness :
  CheckoutSample.POST CheckoutSample.env_without_publishable_key
                      CheckoutSample.request
  = CheckoutRoute.json_error
      (Some "Payment system configuration error. Please contact support.")
      500.
Proof.
  exact (proj1 (proj2 (checkout_order_of_checks
                         CheckoutSample.amount (LoginSample.text "Email")
                         CheckoutSample.text_of (fun t => t)
                         "Too many requests" CheckoutSample.dollars
                         "Cannot read properties of null (reading 'amount')"
                         CheckoutSample.env_without_publishable_key
                         CheckoutSample.stripe CheckoutSample.request))
               eq_refl (or_intror eq_refl)).
Defined.

(** The sample donation of fifty dollars a month succeeds, so the
    request was not rate limited. *)
Lemma checkout_success_witness :
  CheckoutRoute.status
    (CheckoutSample.POST CheckoutSample.env CheckoutSample.request) = 200
  /\ CheckoutRoute.rateLimitError CheckoutSample.request = None.
Proof.
  split; [reflexivity |].
  exact (proj1 (@checkout_success_means
                  CheckoutSample.amount (LoginSample.text "Email")
                  CheckoutSample.text_of (fun t => t)
                  "Too many requests" CheckoutSample.dollars
                  "Cannot read properties of null (reading 'amount')"
                  CheckoutSample.env CheckoutSample.stripe
                  CheckoutSample.request eq_refl)).
Defined.

(** The $50 tier, a click inside the form, then the close button: the
    modal is closed again and holds no amount. *)
Lemma donation_modal_witness :
  DonationSection.isModalOpen
    (DonationSection.run
       [DonationSection.Tier50; DonationSection.ModalPanel;
        DonationSection.CloseButton]
       DonationSection.initial) = false
  /\ DonationSection.donationAmount
       (DonationSection.run
          [DonationSection.Tier50; DonationSection.ModalPanel;
           DonationSection.CloseButton]
          DonationSection.initial) = None.
Proof.
  split; [reflexivity |].
  exact (proj1 (donation_modal_invariants
                  "https://donorbox.org/beanumber"
                  [DonationSection.Tier50; DonationSection.ModalPanel;
                   DonationSection.CloseButton])
               eq_refl).
Defined.
